(** * CCN membership site: a shallow embedding of [app.py]

    The request handlers of [app.py] are embedded as computations in a small
    state-and-exception monad over an explicit [World]: the relational store
    (one list of rows per table, with the IDENTITY counters), the signed
    session dictionary, the Redis cache and a log of the effects performed.

    Modelling conventions.
    - A table is the list of its rows in storage order; [fetchone] is the head
      of the selected rows.  SQL equality on NVARCHAR is string equality.
    - A nullable column is an [option]; Python truthiness of such a value is
      written out ([bit_truthy], [str_truthy]).
    - DECIMAL(10,2) amounts are integers counting cents ([99.99] is [9999]).
    - Python exceptions are the [Raise] results of the monad; whatever was
      written to the world before the exception stays written.
    - The OAuth providers, the JSON codec, [datetime.fromisoformat] and the
      implicit string-to-int conversion of the store are parameters.
    - [datetime] follows CPython's [datetime.py]: proleptic Gregorian
      ordinals, [timedelta] normalisation and the range check of [__add__].
    - A template sees the globals of its environment and the values passed
      to [render_template_string]; a call of any other name raises
      [UndefinedError] when the template is rendered. *)

From Stdlib Require Import ZArith List String Ascii Bool Lia.
From Stdlib Require DecimalString.
From stdpp Require Import gmap strings.

Local Open Scope string_scope.
Local Open Scope Z_scope.

(** ** Python's [datetime] *)

Module Datetime.

Record datetime := mkdt {
  year : Z; month : Z; day : Z;
  hour : Z; minute : Z; second : Z; microsecond : Z
}.

Definition MINYEAR : Z := 1.
Definition MAXYEAR : Z := 9999.
Definition MAXORDINAL : Z := 3652059.

Definition DI400Y : Z := 146097.
Definition DI100Y : Z := 36524.
Definition DI4Y : Z := 1461.

(** [_is_leap(year)] *)
Definition is_leap (y : Z) : bool :=
  (y mod 4 =? 0) && (negb (y mod 100 =? 0) || (y mod 400 =? 0)).

(** [_days_before_year(year)] *)
Definition days_before_year (y : Z) : Z :=
  let y' := y - 1 in y' * 365 + y' / 4 - y' / 100 + y' / 400.

(** [_DAYS_IN_MONTH] *)
Definition DAYS_IN_MONTH (m : Z) : Z :=
  match m with
  | 1 => 31 | 2 => 28 | 3 => 31 | 4 => 30 | 5 => 31 | 6 => 30
  | 7 => 31 | 8 => 31 | 9 => 30 | 10 => 31 | 11 => 30 | 12 => 31
  | _ => 0
  end.

(** [_DAYS_BEFORE_MONTH] *)
Definition DAYS_BEFORE_MONTH (m : Z) : Z :=
  match m with
  | 1 => 0 | 2 => 31 | 3 => 59 | 4 => 90 | 5 => 120 | 6 => 151
  | 7 => 181 | 8 => 212 | 9 => 243 | 10 => 273 | 11 => 304 | 12 => 334
  | _ => 0
  end.

Definition b2z (b : bool) : Z := if b then 1 else 0.

(** [_days_in_month(year, month)] *)
Definition days_in_month (y m : Z) : Z :=
  if (m =? 2) && is_leap y then 29 else DAYS_IN_MONTH m.

(** [_days_before_month(year, month)] *)
Definition days_before_month (y m : Z) : Z :=
  DAYS_BEFORE_MONTH m + b2z ((2 <? m) && is_leap y).

(** [_ymd2ord(year, month, day)] *)
Definition ymd2ord (y m d : Z) : Z :=
  days_before_year y + days_before_month y m + d.

(** The part of [_ord2ymd] that works inside one 400-year cycle: [n] is the
    zero-based day within the cycle and [year] the first year of the cycle. *)
Definition ord2ymd_cycle (year n : Z) : Z * Z * Z :=
  let n100 := n / DI100Y in
  let n := n mod DI100Y in
  let n4 := n / DI4Y in
  let n := n mod DI4Y in
  let n1 := n / 365 in
  let n := n mod 365 in
  let year := year + (n100 * 100 + n4 * 4 + n1) in
  if (n1 =? 4) || (n100 =? 4) then (year - 1, 12, 31)
  else
    let leapyear := (n1 =? 3) && (negb (n4 =? 24) || (n100 =? 3)) in
    let month := Z.shiftr (n + 50) 5 in
    let preceding := DAYS_BEFORE_MONTH month + b2z ((2 <? month) && leapyear) in
    if n <? preceding then
      let month := month - 1 in
      let preceding :=
        preceding - (DAYS_IN_MONTH month + b2z ((month =? 2) && leapyear)) in
      (year, month, n - preceding + 1)
    else (year, month, n - preceding + 1).

(** [_ord2ymd(n)] *)
Definition ord2ymd (n : Z) : Z * Z * Z :=
  let n := n - 1 in
  let n400 := n / DI400Y in
  let n := n mod DI400Y in
  ord2ymd_cycle (n400 * 400 + 1) n.

(** [date.toordinal] *)
Definition toordinal (dt : datetime) : Z :=
  ymd2ord (year dt) (month dt) (day dt).



Definition validb (dt : datetime) : bool :=
  (MINYEAR <=? year dt) && (year dt <=? MAXYEAR) &&
  (1 <=? month dt) && (month dt <=? 12) &&
  (1 <=? day dt) && (day dt <=? days_in_month (year dt) (month dt)) &&
  (0 <=? hour dt) && (hour dt <? 24) &&
  (0 <=? minute dt) && (minute dt <? 60) &&
  (0 <=? second dt) && (second dt <? 60) &&
  (0 <=? microsecond dt) && (microsecond dt <? 1000000).

(** [datetime.__add__(timedelta(hours=h))]: [None] is [OverflowError]. *)
Definition add_hours (dt : datetime) (h : Z) : option datetime :=
  let secs := hour dt * 3600 + minute dt * 60 + second dt + h * 3600 in
  let days := toordinal dt + secs / 86400 in
  let s := secs mod 86400 in
  if (0 <? days) && (days <=? MAXORDINAL) then
    let '(y, m, d) := ord2ymd days in
    Some {| year := y; month := m; day := d;
            hour := s / 3600; minute := (s mod 3600) / 60;
            second := (s mod 3600) mod 60;
            microsecond := microsecond dt |}
  else None.

(** Comparison of naive datetimes ([_cmp] on the field tuples). *)
Definition fields (dt : datetime) : list Z :=
  [year dt; month dt; day dt; hour dt; minute dt; second dt; microsecond dt].

Fixpoint lex_lt (a b : list Z) : bool :=
  match a, b with
  | x :: a', y :: b' => (x <? y) || ((x =? y) && lex_lt a' b')
  | [], _ :: _ => true
  | _, _ => false
  end.

Definition dt_gt (a b : datetime) : bool := lex_lt (fields b) (fields a).
Definition dt_le (a b : datetime) : bool := negb (dt_gt a b).

(** [strftime] directives used by the application. *)
Definition digit (n : Z) : ascii := ascii_of_N (48 + Z.to_N (n mod 10)).

Definition pad2 (n : Z) : string :=
  String (digit (n / 10)) (String (digit n) EmptyString).

Definition pad4 (n : Z) : string :=
  String (digit (n / 1000)) (String (digit (n / 100)) (pad2 n)).

(** [strftime('%Y%m%dT%H%M%SZ')] *)
Definition strftime_ics (dt : datetime) : string :=
  pad4 (year dt) +:+ pad2 (month dt) +:+ pad2 (day dt) +:+ "T" +:+
  pad2 (hour dt) +:+ pad2 (minute dt) +:+ pad2 (second dt) +:+ "Z".

End Datetime.

Import Datetime.

(** ** Python values, exceptions and results *)

Inductive pyval :=
| PyNone
| PyBool (b : bool)
| PyInt (n : Z)
| PyStr (s : string)
| PyDatetime (d : datetime).

(** A row turned into a dictionary ([dict(x)] of a row mapping). *)
Abbreviation pyrow := (gmap string pyval).

Inductive exn :=
| ValueError (msg : string)
| KeyError (key : string)
| TypeError (msg : string)
| OverflowError (msg : string)
| DBAPIError (msg : string)
| UndefinedError (msg : string).

Inductive result (A : Type) :=
| Ok (a : A)
| Raise (e : exn).

Arguments Ok {A} a.
Arguments Raise {A} e.

Definition of_opt_str (o : option string) : pyval :=
  match o with Some s => PyStr s | None => PyNone end.

Definition of_opt_bool (o : option bool) : pyval :=
  match o with Some b => PyBool b | None => PyNone end.

Definition of_opt_int (o : option Z) : pyval :=
  match o with Some n => PyInt n | None => PyNone end.

(** Truthiness of a nullable string ([not row.google_id], [if cached:],
    [if not form.get(field)]). *)
Definition str_truthy (o : option string) : bool :=
  match o with
  | Some s => negb (String.eqb s "")
  | None => false
  end.

(** Truthiness of a nullable BIT column ([not sub.IsActive]). *)
Definition bit_truthy (o : option bool) : bool :=
  match o with Some b => b | None => false end.

(** [a or b] on a nullable string and a string default. *)
Definition str_or (a : option string) (b : string) : string :=
  match a with
  | Some s => if String.eqb s "" then b else s
  | None => b
  end.

(** [str(n)] for an int. *)
Definition str_int (n : Z) : string :=
  DecimalString.NilZero.string_of_int (Z.to_int n).

Definition pad6 (n : Z) : string :=
  String (digit (n / 100000)) (String (digit (n / 10000)) (pad4 n)).

(** [str(d)] for a datetime: ISO format with a space separator. *)
Definition str_datetime (d : datetime) : string :=
  pad4 (year d) +:+ "-" +:+ pad2 (month d) +:+ "-" +:+ pad2 (day d) +:+ " " +:+
  pad2 (hour d) +:+ ":" +:+ pad2 (minute d) +:+ ":" +:+ pad2 (second d) +:+
  (if microsecond d =? 0 then "" else "." +:+ pad6 (microsecond d)).

(** What an f-string prints for a value. *)
Definition py_str (v : pyval) : string :=
  match v with
  | PyNone => "None"
  | PyBool true => "True"
  | PyBool false => "False"
  | PyInt n => str_int n
  | PyStr s => s
  | PyDatetime d => str_datetime d
  end.

(** [s.replace("Z", "")] *)
Fixpoint remove_Z (s : string) : string :=
  match s with
  | EmptyString => EmptyString
  | String c s' =>
      if Ascii.eqb c "Z"%char then remove_Z s' else String c (remove_Z s')
  end.

(** ** The relational store (the tables of [ensure_database_exists]) *)

Module Users.
Record row := mk {
  UserID : Z;
  FirstName : string;
  LastName : string;
  Email : string;
  RoleType : option string;
  Address : string;
  City : string;
  StateProvince : string;
  ZipCode : string;
  Country : string;
  CreatedDate : option datetime;
  IsActive : option bool;
  google_id : option string;
  microsoft_id : option string;
  facebook_id : option string;
  x_id : option string
}.
End Users.

Module Consultants.
Record row := mk {
  ConsultantID : Z;
  UserID : Z;
  Organization : option string;
  Summary : option string
}.
End Consultants.

Module Subscriptions.
Record row := mk {
  SubscriptionID : Z;
  UserID : Z;
  SubscriptionLevel : option string;
  SubscriptionStartDate : datetime;
  Amount : option Z;
  PayPalTransactionID : option string;
  IsActive : option bool
}.
End Subscriptions.

Module Events.
Record row := mk {
  EventID : Z;
  Title : string;
  EventDateTime : datetime;
  Location : string;
  IsPublic : option bool;
  CreatedDate : option datetime;
  Description : option string
}.
End Events.

Module Payments.
Record row := mk {
  PaymentID : Z;
  UserID : Z;
  PaymentDate : datetime;
  Amount : Z;
  PaymentStatus : string;
  PaymentMethod : string
}.
End Payments.

Record Store := mkStore {
  t_users : list Users.row;
  next_UserID : Z;
  t_consultants : list Consultants.row;
  t_subscriptions : list Subscriptions.row;
  next_SubscriptionID : Z;
  t_events : list Events.row;
  t_payments : list Payments.row;
  next_PaymentID : Z
}.

(** The four identity providers ([provider] in the route). *)
Inductive provider := Google | Microsoft | Facebook | ProviderX.

Definition parse_provider (name : string) : option provider :=
  if String.eqb name "google" then Some Google
  else if String.eqb name "microsoft" then Some Microsoft
  else if String.eqb name "facebook" then Some Facebook
  else if String.eqb name "x" then Some ProviderX
  else None.

Definition provider_name (p : provider) : string :=
  match p with
  | Google => "google" | Microsoft => "microsoft"
  | Facebook => "facebook" | ProviderX => "x"
  end.

(** The external-id column of a provider. *)
Definition oauth_col (p : provider) (u : Users.row) : option string :=
  match p with
  | Google => Users.google_id u
  | Microsoft => Users.microsoft_id u
  | Facebook => Users.facebook_id u
  | ProviderX => Users.x_id u
  end.

(** [UPDATE Users SET <col>=:oid] on one row. *)
Definition set_oauth_col (p : provider) (oid : option string) (u : Users.row)
  : Users.row :=
  let g := match p with Google => oid | _ => Users.google_id u end in
  let m := match p with Microsoft => oid | _ => Users.microsoft_id u end in
  let f := match p with Facebook => oid | _ => Users.facebook_id u end in
  let x := match p with ProviderX => oid | _ => Users.x_id u end in
  Users.mk (Users.UserID u) (Users.FirstName u) (Users.LastName u)
    (Users.Email u) (Users.RoleType u) (Users.Address u) (Users.City u)
    (Users.StateProvince u) (Users.ZipCode u) (Users.Country u)
    (Users.CreatedDate u) (Users.IsActive u) g m f x.

(** [UPDATE t SET ... WHERE cond]: every row satisfying [cond] is rewritten. *)
Definition update_where {A} (cond : A -> bool) (f : A -> A) (t : list A)
  : list A :=
  map (fun r => if cond r then f r else r) t.

(** [fetchone()] *)
Definition fetchone {A} (rows : list A) : option A := head rows.

(** [SELECT * FROM Users WHERE Email=:em]; a NULL parameter selects nothing. *)
Definition select_users_by_email (em : option string) (s : Store)
  : list Users.row :=
  match em with
  | Some e => List.filter (fun u => String.eqb (Users.Email u) e) (t_users s)
  | None => []
  end.

(** [SELECT * FROM Subscriptions WHERE UserID=:uid] *)
Definition select_subscriptions_by_user (uid : option Z) (s : Store)
  : list Subscriptions.row :=
  match uid with
  | Some n =>
      List.filter (fun r => Subscriptions.UserID r =? n) (t_subscriptions s)
  | None => []
  end.

(** [SELECT * FROM Subscriptions WHERE SubscriptionID=:sid] *)
Definition select_subscription_by_id (sid : Z) (s : Store)
  : list Subscriptions.row :=
  List.filter (fun r => Subscriptions.SubscriptionID r =? sid)
    (t_subscriptions s).

(** [SELECT * FROM Events WHERE EventID=:eid] *)
Definition select_event_by_id (eid : Z) (s : Store) : list Events.row :=
  List.filter (fun e => Events.EventID e =? eid) (t_events s).

(** [ORDER BY key DESC]: insertion sort, ties kept in storage order. *)
Fixpoint insert_desc {A} (gt : A -> A -> bool) (x : A) (l : list A) : list A :=
  match l with
  | [] => [x]
  | y :: l' => if gt x y then x :: l else y :: insert_desc gt x l'
  end.

Definition order_by_desc {A} (gt : A -> A -> bool) (l : list A) : list A :=
  fold_right (insert_desc gt) [] l.

Definition event_later (a b : Events.row) : bool :=
  dt_gt (Events.EventDateTime a) (Events.EventDateTime b).

(** [SELECT * FROM Events ORDER BY EventDateTime DESC] *)
Definition select_events_desc (s : Store) : list Events.row :=
  order_by_desc event_later (t_events s).

(** [SELECT TOP 5 * FROM Events ORDER BY EventDateTime DESC] *)
Definition select_top5_events (s : Store) : list Events.row :=
  firstn 5 (select_events_desc s).

(** [dict(x)] of an Events row. *)
Definition event_dict (e : Events.row) : pyrow :=
  <["EventID" := PyInt (Events.EventID e)]>
  (<["Title" := PyStr (Events.Title e)]>
  (<["EventDateTime" := PyDatetime (Events.EventDateTime e)]>
  (<["Location" := PyStr (Events.Location e)]>
  (<["IsPublic" := of_opt_bool (Events.IsPublic e)]>
  (<["CreatedDate" :=
      match Events.CreatedDate e with
      | Some d => PyDatetime d | None => PyNone
      end]>
  (<["Description" := of_opt_str (Events.Description e)]> ∅)))))).

(** One row of [SELECT c.*, u.FirstName, u.LastName, u.City FROM Consultants c
    JOIN Users u ON c.UserID=u.UserID]. *)
Definition consultant_dict (c : Consultants.row) (u : Users.row) : pyrow :=
  <["ConsultantID" := PyInt (Consultants.ConsultantID c)]>
  (<["UserID" := PyInt (Consultants.UserID c)]>
  (<["Organization" := of_opt_str (Consultants.Organization c)]>
  (<["Summary" := of_opt_str (Consultants.Summary c)]>
  (<["FirstName" := PyStr (Users.FirstName u)]>
  (<["LastName" := PyStr (Users.LastName u)]>
  (<["City" := PyStr (Users.City u)]> ∅)))))).

Definition select_consultants_join (s : Store) : list pyrow :=
  flat_map
    (fun c =>
       map (consultant_dict c)
         (List.filter (fun u => Consultants.UserID c =? Users.UserID u)
            (t_users s)))
    (t_consultants s).

(** [dict] of a Subscriptions row, as handed to the templates. *)
Definition subscription_dict (r : Subscriptions.row) : pyrow :=
  <["SubscriptionID" := PyInt (Subscriptions.SubscriptionID r)]>
  (<["UserID" := PyInt (Subscriptions.UserID r)]>
  (<["SubscriptionLevel" := of_opt_str (Subscriptions.SubscriptionLevel r)]>
  (<["SubscriptionStartDate" := PyDatetime (Subscriptions.SubscriptionStartDate r)]>
  (<["Amount" := of_opt_int (Subscriptions.Amount r)]>
  (<["PayPalTransactionID" := of_opt_str (Subscriptions.PayPalTransactionID r)]>
  (<["IsActive" := of_opt_bool (Subscriptions.IsActive r)]> ∅)))))).

(** [SELECT s.SubscriptionID, ..., s.IsActive, u.Email FROM Subscriptions s
    JOIN Users u ON s.UserID=u.UserID ORDER BY s.SubscriptionID DESC] *)
Definition select_subscriptions_join (s : Store) : list pyrow :=
  flat_map
    (fun r =>
       map (fun u => <["Email" := PyStr (Users.Email u)]> (subscription_dict r))
         (List.filter (fun u => Subscriptions.UserID r =? Users.UserID u)
            (t_users s)))
    (order_by_desc
       (fun a b => Subscriptions.SubscriptionID b <? Subscriptions.SubscriptionID a)
       (t_subscriptions s)).

(** ** The world a request runs in *)

(** The effects a handler performs, in the order it performs them. *)
Inductive effect :=
| SqlExecute (stmt : string)
| SqlCommit
| RedisGet (key : string)
| RedisSetex (key : string) (ttl : Z) (value : string)
| Call (fn : string).

Record World := mkWorld {
  store : Store;
  session : gmap string pyval;
  redis : gmap string (string * Z);
  now : datetime;
  utcnow : datetime;
  log : list effect
}.

Definition with_store (s : Store) (w : World) : World :=
  mkWorld s (session w) (redis w) (now w) (utcnow w) (log w).

Definition with_session (ss : gmap string pyval) (w : World) : World :=
  mkWorld (store w) ss (redis w) (now w) (utcnow w) (log w).

Definition with_redis (r : gmap string (string * Z)) (w : World) : World :=
  mkWorld (store w) (session w) r (now w) (utcnow w) (log w).

Definition with_log (l : list effect) (w : World) : World :=
  mkWorld (store w) (session w) (redis w) (now w) (utcnow w) l.

Definition with_users (us : list Users.row) (s : Store) : Store :=
  mkStore us (next_UserID s) (t_consultants s) (t_subscriptions s)
    (next_SubscriptionID s) (t_events s) (t_payments s) (next_PaymentID s).

Definition with_subscriptions (l : list Subscriptions.row) (s : Store) : Store :=
  mkStore (t_users s) (next_UserID s) (t_consultants s) l
    (next_SubscriptionID s) (t_events s) (t_payments s) (next_PaymentID s).

(** ** The handler monad: state plus exceptions *)

Definition M (A : Type) : Type := World -> World * result A.

Definition ret {A} (a : A) : M A := fun w => (w, Ok a).

Definition raise {A} (e : exn) : M A := fun w => (w, Raise e).

Definition bind {A B} (m : M A) (k : A -> M B) : M B :=
  fun w =>
    match m w with
    | (w', Ok a) => k a w'
    | (w', Raise e) => (w', Raise e)
    end.

Declare Scope handler_scope.
Delimit Scope handler_scope with handler.

Notation "x <- m ;; k" := (bind m (fun x => k))
  (at level 100, m at next level, right associativity) : handler_scope.
Notation "m ;;; k" := (bind m (fun _ => k))
  (at level 100, right associativity) : handler_scope.

Local Open Scope handler_scope.

Definition lift {A} (r : result A) : M A := fun w => (w, r).

Definition get_world : M World := fun w => (w, Ok w).

Definition emit (e : effect) : M unit :=
  fun w => (with_log (log w ++ [e]) w, Ok tt).

Definition put_store (s : Store) : M unit :=
  fun w => (with_store s w, Ok tt).

(** [await session_db.execute(text(stmt))] for a SELECT. *)
Definition sql_select {A} (stmt : string) (q : Store -> A) : M A :=
  emit (SqlExecute stmt);;;
  w <- get_world;;
  ret (q (store w)).

(** [await session_db.execute(text(stmt))] for an UPDATE. *)
Definition sql_update (stmt : string) (f : Store -> Store) : M unit :=
  emit (SqlExecute stmt);;;
  w <- get_world;;
  put_store (f (store w)).

(** [await session_db.commit()] *)
Definition sql_commit : M unit := emit SqlCommit.

(** [await redis_client.get(key)] *)
Definition redis_get (key : string) : M (option string) :=
  emit (RedisGet key);;;
  w <- get_world;;
  ret (fst <$> (redis w !! key)).

(** [await redis_client.setex(key, ttl, value)] *)
Definition redis_setex (key : string) (ttl : Z) (value : string) : M unit :=
  emit (RedisSetex key ttl value);;;
  fun w => (with_redis (<[key := (value, ttl)]> (redis w)) w, Ok tt).

(** [for x in l: ...] with a body that may raise. *)
Fixpoint mapM {A B} (f : A -> M B) (l : list A) : M (list B) :=
  match l with
  | [] => ret []
  | x :: l' => y <- f x;; ys <- mapM f l';; ret (y :: ys)
  end.

(** ** What the application takes from outside *)

Class Externals := {
  (** [get_access_token(code)] followed by [get_user_info(token)]: the
      profile claims of the provider, as a dictionary of strings. *)
  oauth_exchange : provider -> string -> result (gmap string string);
  (** [json.dumps(rows, default=str)] *)
  json_dumps : list pyrow -> string;
  (** [json.loads(text)]; [JSONDecodeError] is a [ValueError]. *)
  json_loads : string -> result (list pyrow);
  (** [datetime.fromisoformat] *)
  fromisoformat : string -> result datetime;
  (** The store's conversion of an NVARCHAR parameter compared with an INT
      column. *)
  sql_int_of_string : string -> option Z
}.

(** ** Responses *)

(** What [get_navbar_html] shows. *)
Record navbar := mkNavbar {
  nav_logged_in : bool;
  nav_email : pyval;
  nav_admin : bool
}.

Inductive response :=
| Redirect (endpoint : string)
| Rendered (title : string) (nav : navbar) (context : list (string * list pyrow))
| Body (body : string) (headers : list (string * string)).

(** ** Helper functions *)

(** [current_user()]: [session["email"]] raises [KeyError] when absent. *)
Definition current_user (ss : gmap string pyval) : result (option pyrow) :=
  match ss !! "user_id" with
  | None => Ok None
  | Some uid =>
      match ss !! "email" with
      | None => Raise (KeyError "email")
      | Some em =>
          Ok (Some (<["user_id" := uid]>
                   (<["email" := em]>
                   (<["role" := default PyNone (ss !! "role")]> ∅))))
      end
  end.

Definition pyval_is_str (v : pyval) (s : string) : bool :=
  match v with PyStr t => String.eqb t s | _ => false end.

(** [user_is_admin()] *)
Definition user_is_admin (ss : gmap string pyval) : result bool :=
  match current_user ss with
  | Raise e => Raise e
  | Ok None => Ok false
  | Ok (Some u) => Ok (pyval_is_str (default PyNone (u !! "role")) "Admin")
  end.

(** [login_user(user_id, email, role)] *)
Definition login_user (user_id email role : pyval) : M unit :=
  emit (Call "login_user");;;
  fun w =>
    (with_session
       (<["role" := role]> (<["email" := email]>
          (<["user_id" := user_id]> (session w)))) w, Ok tt).

(** [logout_user()] *)
Definition logout_user : M unit :=
  emit (Call "logout_user");;;
  fun w => (with_session ∅ w, Ok tt).

(** The names a template can call: the globals of Jinja and the ones Quart
    adds to its environment. The application registers no context processor
    and no template global, so its own functions are not among them. *)
Definition template_globals : list string :=
  ["range"; "dict"; "lipsum"; "cycler"; "joiner"; "namespace";
   "url_for"; "get_flashed_messages"; "config"; "request"; "session"; "g"].

(** The call [name()] inside a template: calling a name the environment does
    not have raises [jinja2.exceptions.UndefinedError]. *)
Definition template_call (name : string) : M unit :=
  if existsb (String.eqb name) template_globals then ret tt
  else raise (UndefinedError ("'" +:+ name +:+ "' is undefined")).

(** [get_navbar_html()]: the template calls [current_user()], prints
    [session.get('email')] and calls [user_is_admin()]. *)
Definition get_navbar_html : M navbar :=
  template_call "current_user";;;
  w <- get_world;;
  u <- lift (current_user (session w));;
  match u with
  | None => ret (mkNavbar false PyNone false)
  | Some _ =>
      template_call "user_is_admin";;;
      adm <- lift (user_is_admin (session w));;
      ret (mkNavbar true (default PyNone (session w !! "email")) adm)
  end.

(** A session value used as the parameter of [UserID=:u]. *)
Definition sql_int_param `{Externals} (v : pyval) : result (option Z) :=
  match v with
  | PyNone => Ok None
  | PyInt n => Ok (Some n)
  | PyBool b => Ok (Some (b2z b))
  | PyStr s =>
      match sql_int_of_string s with
      | Some n => Ok (Some n)
      | None => Raise (DBAPIError "Conversion failed")
      end
  | PyDatetime _ => Raise (DBAPIError "Operand type clash")
  end.

(** ** Subscription validation *)

(** [validate_subscription(user_id)] *)
Definition validate_subscription (user_id : Z) : M unit :=
  emit (Call "validate_subscription");;;
  r <- sql_select "SELECT * FROM Subscriptions WHERE UserID=:uid"
         (select_subscriptions_by_user (Some user_id));;
  match fetchone r with
  | None => raise (ValueError "No subscription found for this user.")
  | Some sub =>
      if negb (bit_truthy (Subscriptions.IsActive sub)) then
        raise (ValueError
                 "Your subscription is not active. Please renew or contact support.")
      else ret tt
  end.

(** ** Cache-fronted list pages *)

(** The loop body of [for e in events]: a string under ["EventDateTime"] is
    parsed, anything else is left as it is. *)
Definition coerce_event_time `{Externals} (e : pyrow) : M pyrow :=
  match e !! "EventDateTime" with
  | None => raise (KeyError "EventDateTime")
  | Some (PyStr s) =>
      d <- lift (fromisoformat (remove_Z s));;
      ret (<["EventDateTime" := PyDatetime d]> e)
  | Some _ => ret e
  end.

(** [evt["EventDateTime"] > now_dt] *)
Definition event_after (now_dt : datetime) (e : pyrow) : M bool :=
  match e !! "EventDateTime" with
  | None => raise (KeyError "EventDateTime")
  | Some (PyDatetime d) => ret (dt_gt d now_dt)
  | Some _ => raise (TypeError "'>' not supported")
  end.

(** [[evt for evt in events if cond(evt)]] with a condition that may raise. *)
Fixpoint filterM {A} (f : A -> M bool) (l : list A) : M (list A) :=
  match l with
  | [] => ret []
  | x :: l' =>
      b <- f x;;
      ys <- filterM f l';;
      ret (if b then x :: ys else ys)
  end.

Definition negM (m : M bool) : M bool := b <- m;; ret (negb b).

(** The part of [home()] after the cache block: the [EventDateTime] loop,
    the [upcoming] comprehension and the template. *)
Definition home_page `{Externals} (navbar_html : navbar) (events : list pyrow)
  : M response :=
  w <- get_world;;
  let now_dt := now w in
  events <- mapM coerce_event_time events;;
  upcoming <- filterM (event_after now_dt) events;;
  ret (Rendered "CCN Home" navbar_html [("upcoming", upcoming)]).

(** [home()], route [/]. *)
Definition home `{Externals} : M response :=
  navbar_html <- get_navbar_html;;
  let cache_key := "homepage_events" in
  cached <- redis_get cache_key;;
  events <-
    (if str_truthy cached then lift (json_loads (default "" cached))
     else
       r <- sql_select "SELECT TOP 5 * FROM Events ORDER BY EventDateTime DESC"
              select_top5_events;;
       let events := map event_dict r in
       redis_setex cache_key 300 (json_dumps events);;;
       ret events);;
  home_page navbar_html events.

(** The template call that ends [list_consultants()]. *)
Definition consultants_page (navbar_html : navbar) (consultants : list pyrow)
  : M response :=
  ret (Rendered "Consultants" navbar_html [("consultants", consultants)]).

(** [list_consultants()], route [/consultants]. *)
Definition list_consultants `{Externals} : M response :=
  navbar_html <- get_navbar_html;;
  let cache_key := "consultants_list" in
  c <- redis_get cache_key;;
  consultants <-
    (if str_truthy c then lift (json_loads (default "" c))
     else
       r <- sql_select
              "SELECT c.*, u.FirstName, u.LastName, u.City FROM Consultants c JOIN Users u ON c.UserID=u.UserID"
              select_consultants_join;;
       let consultants := r in
       redis_setex cache_key 600 (json_dumps consultants);;;
       ret consultants);;
  consultants_page navbar_html consultants.

(** The part of [list_events()] after the cache block. *)
Definition events_page `{Externals} (navbar_html : navbar)
    (events : list pyrow) : M response :=
  w <- get_world;;
  let now_dt := now w in
  events <- mapM coerce_event_time events;;
  upcoming <- filterM (event_after now_dt) events;;
  past <- filterM (fun e => negM (event_after now_dt e)) events;;
  ret (Rendered "Events" navbar_html [("upcoming", upcoming); ("past", past)]).

(** [list_events()], route [/events]. *)
Definition list_events `{Externals} : M response :=
  navbar_html <- get_navbar_html;;
  let key := "events_list" in
  cached <- redis_get key;;
  events <-
    (if str_truthy cached then lift (json_loads (default "" cached))
     else
       r <- sql_select "SELECT * FROM Events ORDER BY EventDateTime DESC"
              select_events_desc;;
       let events := map event_dict r in
       redis_setex key 300 (json_dumps events);;;
       ret events);;
  events_page navbar_html events.

(** ** OAuth callback *)

(** The row of [INSERT INTO Users (..., {col}) VALUES (:fn, :ln, :em,
    'Reader', 'Unknown', 'Unknown', 'Unknown', '00000', 'Unknown', :oid)];
    CreatedDate and IsActive take their defaults. *)
Definition oauth_user_row (uid : Z) (created : datetime) (p : provider)
    (first_name last_name email : string) (oid : option string) : Users.row :=
  set_oauth_col p oid
    (Users.mk uid first_name last_name email (Some "Reader")
       "Unknown" "Unknown" "Unknown" "00000" "Unknown"
       (Some created) (Some true) None None None None).

(** [INSERT INTO Users ... OUTPUT inserted.UserID]: Email is NOT NULL, the
    new row takes the next IDENTITY value. *)
Definition insert_user (mkrow : Z -> datetime -> Users.row)
    (email : option string) : M Z :=
  emit (SqlExecute "INSERT INTO Users");;;
  match email with
  | None => raise (DBAPIError "Cannot insert the value NULL into column 'Email'")
  | Some _ =>
      fun w =>
        let s := store w in
        let uid := next_UserID s in
        (with_store
           (mkStore (t_users s ++ [mkrow uid (now w)]) (uid + 1)
              (t_consultants s) (t_subscriptions s) (next_SubscriptionID s)
              (t_events s) (t_payments s) (next_PaymentID s)) w,
         Ok uid)
  end.

(** [oauth_callback(provider)], route [/auth/<provider>/callback]. *)
Definition oauth_callback `{Externals} (args : gmap string string)
    (provider : string) : M response :=
  let code := args !! "code" in
  if negb (str_truthy code) then raise (ValueError "Missing OAuth code")
  else
    match parse_provider provider with
    | None => raise (ValueError ("Unsupported provider: " +:+ provider))
    | Some p =>
        user_data <- lift (oauth_exchange p (default "" code));;
        let oauth_id := user_data !! "id" in
        let email := user_data !! "email" in
        let first_name :=
          str_or (user_data !! "given_name")
            (str_or (user_data !! "first_name") "OAuth") in
        let last_name :=
          str_or (user_data !! "family_name")
            (str_or (user_data !! "last_name") "User") in
        r <- sql_select "SELECT * FROM Users WHERE Email=:em"
               (select_users_by_email email);;
        resolved <-
          match fetchone r with
          | Some row =>
              let user_id := Users.UserID row in
              (if negb (str_truthy (oauth_col p row)) then
                 sql_update "UPDATE Users SET <provider>_id=:oid WHERE UserID=:uid"
                   (fun s =>
                      with_users
                        (update_where (fun u => Users.UserID u =? user_id)
                           (set_oauth_col p oauth_id) (t_users s)) s);;;
                 sql_commit
               else ret tt);;;
              ret (user_id, Users.RoleType row)
          | None =>
              user_id <-
                insert_user
                  (fun uid created =>
                     oauth_user_row uid created p first_name last_name
                       (default "" email) oauth_id)
                  email;;
              sql_commit;;;
              ret (user_id, Some "Reader")
          end;;
        let '(user_id, role) := resolved in
        login_user (PyInt user_id) (of_opt_str email) (of_opt_str role);;;
        validate_subscription user_id;;;
        ret (Redirect "dashboard")
    end.

(** ** Registration *)

(** The loop over the required fields of the registration form. *)
Fixpoint check_required (form : gmap string string) (fields : list string)
  : M unit :=
  match fields with
  | [] => ret tt
  | field :: rest =>
      if negb (str_truthy (form !! field)) then
        raise (ValueError ("Missing required field: " +:+ field))
      else check_required form rest
  end.

Definition required_fields : list string :=
  ["first_name"; "last_name"; "email"; "address"; "city"; "state_province";
   "zip_code"; "country"].

(** [form[key]] after the required-field check. *)
Definition form_get (form : gmap string string) (key : string) : string :=
  default "" (form !! key).

(** The row of the registration INSERT. *)
Definition register_user_row (form : gmap string string) (uid : Z)
    (created : datetime) : Users.row :=
  Users.mk uid (form_get form "first_name") (form_get form "last_name")
    (form_get form "email") (Some "Reader") (form_get form "address")
    (form_get form "city") (form_get form "state_province")
    (form_get form "zip_code") (form_get form "country")
    (Some created) (Some true) None None None None.

(** [INSERT INTO Subscriptions (UserID, SubscriptionLevel,
    SubscriptionStartDate, Amount, IsActive) VALUES (:uid, 'Free', GETDATE(),
    0.00, 1)] *)
Definition insert_free_subscription (uid : Z) : M unit :=
  emit (SqlExecute "INSERT INTO Subscriptions");;;
  fun w =>
    let s := store w in
    let sid := next_SubscriptionID s in
    (with_store
       (mkStore (t_users s) (next_UserID s) (t_consultants s)
          (t_subscriptions s ++
             [Subscriptions.mk sid uid (Some "Free") (now w) (Some 0) None
                (Some true)])
          (sid + 1) (t_events s) (t_payments s) (next_PaymentID s)) w,
     Ok tt).

(** [register()], route [/register]; [post] is [request.method == "POST"]. *)
Definition register (post : bool) (form : gmap string string) : M response :=
  navbar_html <- get_navbar_html;;
  if post then
    check_required form required_fields;;;
    r <- sql_select "SELECT UserID FROM Users WHERE Email=:e"
           (select_users_by_email (Some (form_get form "email")));;
    match fetchone r with
    | Some _ => raise (ValueError "User already exists with that email.")
    | None =>
        new_id <- insert_user (register_user_row form)
                    (Some (form_get form "email"));;
        sql_commit;;;
        insert_free_subscription new_id;;;
        sql_commit;;;
        login_user (PyInt new_id) (PyStr (form_get form "email"))
          (PyStr "Reader");;;
        ret (Redirect "dashboard")
    end
  else ret (Rendered "Register" navbar_html []).

(** ** Logout *)

(** [do_logout()], route [/logout]. *)
Definition do_logout : M response :=
  logout_user;;; ret (Redirect "home").

(** ** Subscription management *)

(** [SET SubscriptionLevel='Paid', Amount=99.99, IsActive=1] *)
Definition set_paid (r : Subscriptions.row) : Subscriptions.row :=
  Subscriptions.mk (Subscriptions.SubscriptionID r) (Subscriptions.UserID r)
    (Some "Paid") (Subscriptions.SubscriptionStartDate r) (Some 9999)
    (Subscriptions.PayPalTransactionID r) (Some true).

(** [SET IsActive=:b] *)
Definition set_active (b : bool) (r : Subscriptions.row) : Subscriptions.row :=
  Subscriptions.mk (Subscriptions.SubscriptionID r) (Subscriptions.UserID r)
    (Subscriptions.SubscriptionLevel r) (Subscriptions.SubscriptionStartDate r)
    (Subscriptions.Amount r) (Subscriptions.PayPalTransactionID r) (Some b).

(** [SET Amount=0.00, IsActive=0] *)
Definition set_refunded (r : Subscriptions.row) : Subscriptions.row :=
  Subscriptions.mk (Subscriptions.SubscriptionID r) (Subscriptions.UserID r)
    (Subscriptions.SubscriptionLevel r) (Subscriptions.SubscriptionStartDate r)
    (Some 0) (Subscriptions.PayPalTransactionID r) (Some false).

(** [UPDATE Subscriptions SET ... WHERE SubscriptionID=:sid] *)
Definition update_subscription (sid : Z)
    (f : Subscriptions.row -> Subscriptions.row) (s : Store) : Store :=
  with_subscriptions
    (update_where (fun r => Subscriptions.SubscriptionID r =? sid) f
       (t_subscriptions s)) s.

(** [INSERT INTO Payments (UserID, Amount, PaymentStatus, PaymentMethod)
    VALUES (:u, 99.99, 'Completed', 'PayPal')]; UserID is NOT NULL and
    PaymentDate defaults to GETDATE(). *)
Definition insert_payment (uid : option Z) : M unit :=
  emit (SqlExecute "INSERT INTO Payments");;;
  match uid with
  | None => raise (DBAPIError "Cannot insert the value NULL into column 'UserID'")
  | Some u =>
      fun w =>
        let s := store w in
        let pid := next_PaymentID s in
        (with_store
           (mkStore (t_users s) (next_UserID s) (t_consultants s)
              (t_subscriptions s) (next_SubscriptionID s) (t_events s)
              (t_payments s ++
                 [Payments.mk pid u (now w) 9999 "Completed" "PayPal"])
              (pid + 1)) w,
         Ok tt)
  end.

Definition opt_is (o : option string) (s : string) : bool :=
  match o with Some t => String.eqb t s | None => false end.

(** [my_subscription()], route [/my_subscription]. *)
Definition my_subscription `{Externals} (post : bool)
    (form : gmap string string) : M response :=
  w <- get_world;;
  cu <- lift (current_user (session w));;
  match cu with
  | None => ret (Redirect "login")
  | Some u =>
      let uid := default PyNone (u !! "user_id") in
      if post then
        let action := form !! "action" in
        u_param <- lift (sql_int_param uid);;
        r <- sql_select "SELECT * FROM Subscriptions WHERE UserID=:u"
               (select_subscriptions_by_user u_param);;
        match fetchone r with
        | None => raise (ValueError "No subscription found. Contact support.")
        | Some sub =>
            (if opt_is action "upgrade" then
               insert_payment u_param;;;
               sql_update
                 "UPDATE Subscriptions SET SubscriptionLevel='Paid', Amount=99.99, IsActive=1 WHERE SubscriptionID=:sid"
                 (update_subscription (Subscriptions.SubscriptionID sub) set_paid)
             else if opt_is action "cancel" then
               sql_update
                 "UPDATE Subscriptions SET IsActive=0 WHERE SubscriptionID=:sid"
                 (update_subscription (Subscriptions.SubscriptionID sub)
                    (set_active false))
             else ret tt);;;
            sql_commit;;;
            ret (Redirect "my_subscription")
        end
      else
        u_param <- lift (sql_int_param uid);;
        r <- sql_select "SELECT * FROM Subscriptions WHERE UserID=:u"
               (select_subscriptions_by_user u_param);;
        match fetchone r with
        | None => raise (ValueError "No subscription found. Contact support.")
        | Some sub =>
            navbar_html <- get_navbar_html;;
            ret (Rendered "My Subscription" navbar_html
                   [("sub", [subscription_dict sub])])
        end
  end.

(** [admin_subscriptions()], route [/admin/subscriptions]. *)
Definition admin_subscriptions `{Externals} (post : bool)
    (form : gmap string string) : M response :=
  w <- get_world;;
  adm <- lift (user_is_admin (session w));;
  if negb adm then raise (ValueError "Unauthorized access.")
  else
    navbar_html <- get_navbar_html;;
    if post then
      let sub_id := form !! "subscription_id" in
      let action := form !! "action" in
      if negb (str_truthy sub_id) then raise (ValueError "Missing subscription ID")
      else
        emit (SqlExecute "SELECT * FROM Subscriptions WHERE SubscriptionID=:sid");;;
        match sql_int_of_string (default "" sub_id) with
        | None => raise (DBAPIError "Conversion failed")
        | Some sid =>
            w <- get_world;;
            match fetchone (select_subscription_by_id sid (store w)) with
            | None => raise (ValueError "Subscription not found.")
            | Some sub =>
                (if opt_is action "deactivate" then
                   sql_update
                     "UPDATE Subscriptions SET IsActive=0 WHERE SubscriptionID=:sid"
                     (update_subscription sid (set_active false))
                 else if opt_is action "activate" then
                   sql_update
                     "UPDATE Subscriptions SET IsActive=1 WHERE SubscriptionID=:sid"
                     (update_subscription sid (set_active true))
                 else if opt_is action "refund" then
                   sql_update
                     "UPDATE Subscriptions SET Amount=0.00, IsActive=0 WHERE SubscriptionID=:sid"
                     (update_subscription sid set_refunded)
                 else raise (ValueError "Unknown action"));;;
                sql_commit;;;
                ret (Redirect "admin_subscriptions")
            end
        end
    else
      subs <- sql_select
                "SELECT s.*, u.Email FROM Subscriptions s JOIN Users u ON s.UserID=u.UserID ORDER BY s.SubscriptionID DESC"
                select_subscriptions_join;;
      ret (Rendered "Admin - Subscriptions" navbar_html [("subs", subs)]).

(** ** Calendar export *)

Definition nl : string := String (ascii_of_N 10) EmptyString.

(** [start_time + timedelta(hours=1)] on whatever the dictionary holds. *)
Definition plus_one_hour (v : pyval) : M datetime :=
  match v with
  | PyDatetime d =>
      match add_hours d 1 with
      | Some e => ret e
      | None => raise (OverflowError "date value out of range")
      end
  | _ => raise (TypeError "unsupported operand type(s) for +")
  end.

(** [start_time.strftime(...)]: only a datetime has the method. *)
Definition strftime_val (v : pyval) : M string :=
  match v with
  | PyDatetime d => ret (strftime_ics d)
  | _ => raise (TypeError "no attribute 'strftime'")
  end.

(** [event_ics(event_id)], route [/events/<int:event_id>/ics]. *)
Definition event_ics `{Externals} (event_id : Z) : M response :=
  r <- sql_select "SELECT * FROM Events WHERE EventID=:eid"
         (select_event_by_id event_id);;
  match fetchone r with
  | None => raise (ValueError "Event not found")
  | Some row =>
      event <- coerce_event_time (event_dict row);;
      let start_time := default PyNone (event !! "EventDateTime") in
      end_time <- plus_one_hour start_time;;
      w <- get_world;;
      dtstart <- strftime_val start_time;;
      let ics :=
        "BEGIN:VCALENDAR" +:+ nl +:+
        "VERSION:2.0" +:+ nl +:+
        "PRODID:-//CCN//EN" +:+ nl +:+
        "BEGIN:VEVENT" +:+ nl +:+
        "UID:" +:+ str_int event_id +:+ "@ccn" +:+ nl +:+
        "DTSTAMP:" +:+ strftime_ics (utcnow w) +:+ nl +:+
        "DTSTART:" +:+ dtstart +:+ nl +:+
        "DTEND:" +:+ strftime_ics end_time +:+ nl +:+
        "SUMMARY:" +:+ py_str (default PyNone (event !! "Title")) +:+ nl +:+
        "LOCATION:" +:+ py_str (default PyNone (event !! "Location")) +:+ nl +:+
        "DESCRIPTION:" +:+ py_str (default (PyStr "") (event !! "Description")) +:+ nl +:+
        "END:VEVENT" +:+ nl +:+
        "END:VCALENDAR" +:+ nl in
      ret (Body ics
             [("Content-Type", "text/calendar");
              ("Content-Disposition",
               "attachment; filename=" +:+ String (ascii_of_N 34) "" +:+ "event_" +:+
               str_int event_id +:+ ".ics" +:+ String (ascii_of_N 34) "")])
  end.

(** ** Vocabulary of the properties *)

(** The two failures of the subscription gate, under the specification's
    names; the code raises [ValueError] with these two messages. *)
Definition NoSubscriptionError : exn :=
  ValueError "No subscription found for this user.".

Definition InactiveSubscriptionError : exn :=
  ValueError "Your subscription is not active. Please renew or contact support.".

(** A session written by [login_user] or cleared by [logout_user]:
    [current_user()] does not raise on it. *)
Definition session_wf (ss : gmap string pyval) : bool :=
  match current_user ss with Ok _ => true | Raise _ => false end.

(** Number of user rows with a given email. *)
Definition count_email (em : string) (us : list Users.row) : nat :=
  length (List.filter (fun u => String.eqb (Users.Email u) em) us).

(** IDENTITY(1,1) on [Users.UserID]: every stored id is below the next one. *)
Definition identity_fresh (s : Store) : bool :=
  forallb (fun u => Users.UserID u <? next_UserID s) (t_users s).


Definition is_digit (c : ascii) : bool :=
  ((48 <=? N_of_ascii c) && (N_of_ascii c <=? 57))%N.




(** The five subscription transitions and the requests that trigger them;
    [sid] is the text of the [subscription_id] form field. *)
Inductive transition :=
| Upgrade | Cancel | AdminActivate | AdminDeactivate | AdminRefund.

Definition action_form (action : string) : gmap string string :=
  {[ "action" := action ]}.

Definition admin_form (sid action : string) : gmap string string :=
  <["subscription_id" := sid]> (action_form action).

Definition run_transition `{Externals} (t : transition) (sid : string)
  : M response :=
  match t with
  | Upgrade => my_subscription true (action_form "upgrade")
  | Cancel => my_subscription true (action_form "cancel")
  | AdminActivate => admin_subscriptions true (admin_form sid "activate")
  | AdminDeactivate => admin_subscriptions true (admin_form sid "deactivate")
  | AdminRefund => admin_subscriptions true (admin_form sid "refund")
  end.

(** Two versions of a row that agree outside Amount and IsActive. *)
Definition same_but_amount_active (r r' : Subscriptions.row) : Prop :=
  Subscriptions.SubscriptionID r' = Subscriptions.SubscriptionID r /\
  Subscriptions.UserID r' = Subscriptions.UserID r /\
  Subscriptions.SubscriptionLevel r' = Subscriptions.SubscriptionLevel r /\
  Subscriptions.SubscriptionStartDate r' = Subscriptions.SubscriptionStartDate r /\
  Subscriptions.PayPalTransactionID r' = Subscriptions.PayPalTransactionID r.




(** ** Sample data *)

Fixpoint parse_digits (s : string) (acc : Z) : option Z :=
  match s with
  | EmptyString => Some acc
  | String c s' =>
      if is_digit c then
        parse_digits s' (acc * 10 + Z.of_N (N_of_ascii c) - 48)
      else None
  end.

Definition sample_profile : gmap string string :=
  <["id" := "g-123"]> (<["email" := "ada@example.org"]>
  (<["given_name" := "Ada"]> (<["family_name" := "Lovelace"]> ∅))).

Definition new_profile : gmap string string :=
  <["id" := "ms-77"]> (<["email" := "grace@example.org"]> ∅).

Definition sample_externals : Externals := {|
  oauth_exchange := fun p code =>
    match p with
    | Google => Ok sample_profile
    | Microsoft => Ok new_profile
    | _ => Raise (ValueError "invalid_grant")
    end;
  json_dumps := fun rows => "[" +:+ str_int (Z.of_nat (length rows)) +:+ "]";
  json_loads := fun s =>
    if String.eqb s "[]" then Ok [] else Raise (ValueError "JSONDecodeError");
  fromisoformat := fun _ => Raise (ValueError "Invalid isoformat string");
  sql_int_of_string := fun s =>
    match s with EmptyString => None | _ => parse_digits s 0 end
|}.

Definition sample_day : datetime := mkdt 2025 2 1 9 30 0 0.

Definition ada : Users.row :=
  Users.mk 1 "Ada" "Lovelace" "ada@example.org" (Some "Reader")
    "12 St James Square" "London" "London" "SW1Y" "UK"
    (Some sample_day) (Some true) None None None None.

Definition root : Users.row :=
  Users.mk 2 "Admin" "User" "admin" (Some "Admin")
    "123 Admin St" "AdminCity" "AdminState" "00000" "AdminLand"
    (Some sample_day) (Some true) None None None None.

Definition ada_sub : Subscriptions.row :=
  Subscriptions.mk 1 1 (Some "Free") sample_day (Some 0) None (Some true).

Definition talk : Events.row :=
  Events.mk 7 "Spring meeting" (mkdt 2025 3 1 10 0 0 0) "Zoom" (Some true)
    (Some sample_day) (Some "Annual spring meeting").

Definition sample_store : Store :=
  mkStore [ada; root] 3 [Consultants.mk 1 1 (Some "Analytical Ltd") None]
    [ada_sub] 2 [talk] [] 1.

Definition sample_world (ss : gmap string pyval) : World :=
  mkWorld sample_store ss ∅ (mkdt 2025 2 10 12 0 0 0) (mkdt 2025 2 10 17 0 0 0) [].

Definition ada_session : gmap string pyval :=
  <["role" := PyStr "Reader"]> (<["email" := PyStr "ada@example.org"]>
  (<["user_id" := PyInt 1]> ∅)).

Definition root_session : gmap string pyval :=
  <["role" := PyStr "Admin"]> (<["email" := PyStr "admin"]>
  (<["user_id" := PyInt 2]> ∅)).

Definition code_args : gmap string string := {[ "code" := "abc" ]}.

Definition grace_form : gmap string string :=
  <["first_name" := "Grace"]> (<["last_name" := "Hopper"]>
  (<["email" := "grace@example.org"]> (<["address" := "1 Navy Yard"]>
  (<["city" := "Arlington"]> (<["state_province" := "VA"]>
  (<["zip_code" := "22201"]> (<["country" := "US"]> ∅))))))).

(** ** Vocabulary of the handler properties *)

(** The error every page of the application ends in: the navigation bar
    calls [current_user()], which no template can see. *)
Definition template_error : exn :=
  UndefinedError "'current_user' is undefined".

(** The effects of [validate_subscription], in order. *)
Definition validate_log : list effect :=
  [Call "validate_subscription";
   SqlExecute "SELECT * FROM Subscriptions WHERE UserID=:uid"].

(** The answer of the callback once the identity is resolved: the verdict of
    the subscription gate on the store. *)
Definition gate_result (uid : Z) (s : Store) : result response :=
  match fetchone (select_subscriptions_by_user (Some uid) s) with
  | None => Raise NoSubscriptionError
  | Some sub =>
      if bit_truthy (Subscriptions.IsActive sub) then Ok (Redirect "dashboard")
      else Raise InactiveSubscriptionError
  end.

(** The session after [login_user]. *)
Definition logged_in (uid : Z) (email role : option string)
    (ss : gmap string pyval) : gmap string pyval :=
  <["role" := of_opt_str role]> (<["email" := of_opt_str email]>
    (<["user_id" := PyInt uid]> ss)).

(** The statements that link a provider id to an existing row. *)
Definition link_log (linked : bool) : list effect :=
  if linked then []
  else [SqlExecute "UPDATE Users SET <provider>_id=:oid WHERE UserID=:uid";
        SqlCommit].

(** The store after the callback met an existing row. *)
Definition link_store (p : provider) (oid : option string) (row : Users.row)
    (s : Store) : Store :=
  if str_truthy (oauth_col p row) then s
  else with_users
         (update_where (fun u => Users.UserID u =? Users.UserID row)
            (set_oauth_col p oid) (t_users s)) s.


(** The three cache-fronted list endpoints. *)
Inductive endpoint := Home | EventsList | ConsultantsList.

Definition endpoint_handler `{Externals} (e : endpoint) : M response :=
  match e with
  | Home => home
  | EventsList => list_events
  | ConsultantsList => list_consultants
  end.

(** A cancelled Paid subscription, and a cache that already holds the
    consultants list. *)
Definition lapsed_sub : Subscriptions.row :=
  Subscriptions.mk 1 1 (Some "Paid") sample_day (Some 9999) None (Some false).

Definition lapsed_world : World :=
  mkWorld
    (mkStore [ada; root] 3 [] [lapsed_sub] 2 [talk] [] 1)
    ada_session ∅ (mkdt 2025 2 10 12 0 0 0) (mkdt 2025 2 10 17 0 0 0) [].

(** A store in which the subscription of the sample user sits between a
    row of the administrator and an older row of the user. *)
Definition root_sub : Subscriptions.row :=
  Subscriptions.mk 2 2 (Some "Paid") sample_day (Some 9999) None (Some true).

Definition ada_old_sub : Subscriptions.row :=
  Subscriptions.mk 3 1 (Some "Free") sample_day (Some 0) None (Some false).

Definition crowded_world : World :=
  mkWorld
    (mkStore [ada; root] 3 [] [root_sub; ada_sub; ada_old_sub] 4 [talk] [] 1)
    ada_session ∅ (mkdt 2025 2 10 12 0 0 0) (mkdt 2025 2 10 17 0 0 0) [].

Definition cached_world : World :=
  mkWorld sample_store ∅ {[ "consultants_list" := ("[]", 600) ]}
    (mkdt 2025 2 10 12 0 0 0) (mkdt 2025 2 10 17 0 0 0) [].

(** ** Proof tactics *)

(** Reduction of the world projections only: dictionary lookups with
    literal keys stay folded. *)
Ltac world_simpl :=
  cbn [store session redis now utcnow log t_users next_UserID t_consultants
       t_subscriptions next_SubscriptionID t_events t_payments next_PaymentID
       with_log with_store with_session with_redis with_users
       with_subscriptions fst snd].

Ltac no_call :=
  repeat (constructor; [intros ?; discriminate|]); constructor.

(** ** The remaining routes

    Of the template engine only the lookup of the names a template calls
    is modelled ([template_call]); a template whose calls resolve stands
    for the page it renders. *)

(** [client.get_authorize_url()] of the four OAuth clients. *)
Class AuthorizeUrls := {
  get_authorize_url : provider -> string
}.

(** [login()], route [/login]. *)
Definition login : M response :=
  navbar_html <- get_navbar_html;;
  ret (Rendered "Login" navbar_html []).

(** [oauth_login(provider)], route [/login/<provider>]; the redirect goes to
    the provider's authorize URL. *)
Definition oauth_login `{AuthorizeUrls} (provider : string) : M response :=
  match parse_provider provider with
  | Some p => ret (Redirect (get_authorize_url p))
  | None => raise (ValueError ("Unsupported provider: " +:+ provider))
  end.

(** [dashboard()], route [/dashboard]. *)
Definition dashboard : M response :=
  w <- get_world;;
  cu <- lift (current_user (session w));;
  match cu with
  | None => ret (Redirect "login")
  | Some _ =>
      navbar_html <- get_navbar_html;;
      r <- sql_select "SELECT TOP 5 * FROM Events ORDER BY EventDateTime DESC"
             select_top5_events;;
      ret (Rendered "Dashboard" navbar_html [("events", map event_dict r)])
  end.

(** [%b] in the C locale. *)
Definition month_abbr (m : Z) : string :=
  match m with
  | 1 => "Jan" | 2 => "Feb" | 3 => "Mar" | 4 => "Apr" | 5 => "May"
  | 6 => "Jun" | 7 => "Jul" | 8 => "Aug" | 9 => "Sep" | 10 => "Oct"
  | 11 => "Nov" | 12 => "Dec" | _ => EmptyString
  end.

(** [%I]: the hour on the 12-hour clock. *)
Definition hour12 (h : Z) : Z :=
  if h mod 12 =? 0 then 12 else h mod 12.

(** [%p] *)
Definition am_pm (h : Z) : string := if h <? 12 then "AM" else "PM".

(** [strftime("%d %b %Y, %I:%M %p")] *)
Definition strftime_display (d : datetime) : string :=
  pad2 (day d) +:+ " " +:+ month_abbr (month d) +:+ " " +:+ pad4 (year d) +:+
  ", " +:+ pad2 (hour12 (hour d)) +:+ ":" +:+ pad2 (minute d) +:+ " " +:+
  am_pm (hour d).

(** [event["EventDateTime"].strftime(...)] in [event_details]. *)
Definition display_val (v : pyval) : M string :=
  match v with
  | PyDatetime d => ret (strftime_display d)
  | _ => raise (TypeError "no attribute 'strftime'")
  end.

(** [event_details(event_id)], route [/events/<int:event_id>]. *)
Definition event_details `{Externals} (event_id : Z) : M response :=
  navbar_html <- get_navbar_html;;
  r <- sql_select "SELECT * FROM Events WHERE EventID=:eid"
         (select_event_by_id event_id);;
  match fetchone r with
  | None => raise (ValueError "Event not found")
  | Some row =>
      event <- coerce_event_time (event_dict row);;
      let speaker_name := "John Fetzer PhD, FRSC" in
      display_dt <- display_val (default PyNone (event !! "EventDateTime"));;
      ret (Rendered (py_str (default PyNone (event !! "Title"))) navbar_html
             [("event", [event]);
              ("display",
               [<["display_dt" := PyStr display_dt]>
                  (<["speaker_name" := PyStr speaker_name]> ∅)])])
  end.

(** [admin_portal()], route [/admin]. *)
Definition admin_portal : M response :=
  w <- get_world;;
  adm <- lift (user_is_admin (session w));;
  if negb adm then raise (ValueError "Unauthorized access.")
  else
    navbar_html <- get_navbar_html;;
    ret (Rendered "Admin Portal" navbar_html []).

(** [ORDER BY CreatedDate DESC]: NULL sorts below every date. *)
Definition created_later (a b : Users.row) : bool :=
  match Users.CreatedDate a, Users.CreatedDate b with
  | Some x, Some y => dt_gt x y
  | Some _, None => true
  | None, _ => false
  end.

(** One row of [SELECT UserID, FirstName, LastName, Email, RoleType,
    CreatedDate FROM Users]. *)
Definition user_list_dict (u : Users.row) : pyrow :=
  <["UserID" := PyInt (Users.UserID u)]>
  (<["FirstName" := PyStr (Users.FirstName u)]>
  (<["LastName" := PyStr (Users.LastName u)]>
  (<["Email" := PyStr (Users.Email u)]>
  (<["RoleType" := of_opt_str (Users.RoleType u)]>
  (<["CreatedDate" :=
      match Users.CreatedDate u with
      | Some d => PyDatetime d | None => PyNone
      end]> ∅))))).

Definition select_users_by_created (s : Store) : list pyrow :=
  map user_list_dict (order_by_desc created_later (t_users s)).

(** [admin_list_users()], route [/admin/users]. *)
Definition admin_list_users : M response :=
  w <- get_world;;
  adm <- lift (user_is_admin (session w));;
  if negb adm then raise (ValueError "Unauthorized access.")
  else
    navbar_html <- get_navbar_html;;
    users <- sql_select
               "SELECT UserID, FirstName, LastName, Email, RoleType, CreatedDate FROM Users ORDER BY CreatedDate DESC"
               select_users_by_created;;
    ret (Rendered "Admin - Users" navbar_html [("users", users)]).

(** ** Routing and the generic exception handler *)

(** The requests the routes accept. *)
Inductive request :=
| GetHome
| GetLogin
| GetOAuthLogin (provider : string)
| GetOAuthCallback (provider : string) (args : gmap string string)
| Register (post : bool) (form : gmap string string)
| GetLogout
| GetDashboard
| MySubscription (post : bool) (form : gmap string string)
| GetConsultants
| GetEvents
| GetEventDetails (event_id : Z)
| GetEventIcs (event_id : Z)
| GetAdmin
| GetAdminUsers
| AdminSubscriptions (post : bool) (form : gmap string string).

(** The [@app.route] table. *)
Definition handle `{Externals} `{AuthorizeUrls} (r : request) : M response :=
  match r with
  | GetHome => home
  | GetLogin => login
  | GetOAuthLogin provider => oauth_login provider
  | GetOAuthCallback provider args => oauth_callback args provider
  | Register post form => register post form
  | GetLogout => do_logout
  | GetDashboard => dashboard
  | MySubscription post form => my_subscription post form
  | GetConsultants => list_consultants
  | GetEvents => list_events
  | GetEventDetails event_id => event_details event_id
  | GetEventIcs event_id => event_ics event_id
  | GetAdmin => admin_portal
  | GetAdminUsers => admin_list_users
  | AdminSubscriptions post form => admin_subscriptions post form
  end.

(** [str(e)] of an exception: [KeyError] prints the repr of its key. *)
Definition exn_str (e : exn) : string :=
  match e with
  | ValueError msg | TypeError msg | OverflowError msg | DBAPIError msg
  | UndefinedError msg => msg
  | KeyError key => "'" +:+ key +:+ "'"
  end.

(** What the application sends back: the response of a route, or the page of
    [handle_exceptions] with the text it prints for [{{ e }}] and its
    status. *)
Inductive answer :=
| Answer (resp : response)
| ErrorPage (message : string) (status : Z).

(** [handle_exceptions(e)] *)
Definition handle_exceptions (e : exn) : answer :=
  ErrorPage (exn_str e) 500.

(** A request as the application answers it: [@app.errorhandler(Exception)]
    catches whatever a route raises. *)
Definition serve `{Externals} `{AuthorizeUrls} (r : request) (w : World)
  : World * answer :=
  match handle r w with
  | (w', Ok resp) => (w', Answer resp)
  | (w', Raise e) => (w', handle_exceptions e)
  end.

(** ** Vocabulary of the route properties *)

(** A computation whose final world is always related to its initial one. *)
Definition preserves {A} (P : World -> World -> Prop) (m : M A) : Prop :=
  forall w, P w (fst (m w)).

(** Two worlds that agree on one component. *)
Definition agree {X} (f : World -> X) (w w' : World) : Prop := f w' = f w.

(** The effects a computation added to the log. *)
Definition logged_only (ok : effect -> Prop) (w w' : World) : Prop :=
  exists l, log w' = (log w ++ l)%list /\ Forall ok l.

(** The requests whose route contains an INSERT or an UPDATE. *)
Definition is_write_route (r : request) : bool :=
  match r with
  | GetOAuthCallback _ _ | Register true _ | MySubscription true _
  | AdminSubscriptions true _ => true
  | _ => false
  end.

Definition is_list_route (r : request) : bool :=
  match r with
  | GetHome | GetConsultants | GetEvents => true
  | _ => false
  end.

Definition is_session_route (r : request) : bool :=
  match r with
  | GetOAuthCallback _ _ | Register true _ | GetLogout => true
  | _ => false
  end.

Definition is_admin_route (r : request) : bool :=
  match r with
  | GetAdmin | GetAdminUsers | AdminSubscriptions _ _ => true
  | _ => false
  end.

Definition is_callback (r : request) : bool :=
  match r with
  | GetOAuthCallback _ _ => true
  | _ => false
  end.

(** The routes whose first statement builds the navigation bar. *)
Definition is_page_route (r : request) : bool :=
  match r with
  | GetHome | GetLogin | Register _ _ | GetConsultants | GetEvents
  | GetEventDetails _ => true
  | _ => false
  end.

(** The requests that reach an INSERT or an UPDATE before they fail. *)
Definition reaches_a_write (r : request) : bool :=
  match r with
  | GetOAuthCallback _ _ | MySubscription true _ => true
  | _ => false
  end.

(** The two commands sent to the cache. *)
Definition is_redis (e : effect) : bool :=
  match e with
  | RedisGet _ | RedisSetex _ _ _ => true
  | _ => false
  end.

(** What a route hands back when it does not render a page. *)
Inductive outcome :=
| Failed (e : exn)
| Redirected (endpoint : string)
| File (body : string) (headers : list (string * string)).

Definition result_of (o : outcome) : result response :=
  match o with
  | Failed e => Raise e
  | Redirected endpoint => Ok (Redirect endpoint)
  | File body headers => Ok (Body body headers)
  end.

Definition not_a_page (x : result response) : Prop :=
  exists o, x = result_of o.

(** A session that [current_user()] reads without raising stays so. *)
Definition keeps_session_wf (w w' : World) : Prop :=
  session_wf (session w) = true -> session_wf (session w') = true.

(** ** Sample data of the route properties *)

Definition sample_urls : AuthorizeUrls := {|
  get_authorize_url := fun p =>
    "https://id.example.org/authorize/" +:+ provider_name p
|}.

(** ** The writes of the application

    The INSERTs and UPDATEs a request reaches, as a relation between the
    store before and the store after; [n] is the clock of the store
    ([GETDATE()]). The statements of [register] and of [admin_subscriptions]
    are not among them: both routes build the navigation bar first. *)

(** [INSERT INTO Users]: the row takes the next IDENTITY value. *)
Definition add_user (u : Users.row) (s : Store) : Store :=
  mkStore (t_users s ++ [u]) (next_UserID s + 1) (t_consultants s)
    (t_subscriptions s) (next_SubscriptionID s) (t_events s) (t_payments s)
    (next_PaymentID s).

(** [INSERT INTO Payments ... VALUES (:u, 99.99, 'Completed', 'PayPal')] *)
Definition add_payment (u : Z) (n : datetime) (s : Store) : Store :=
  mkStore (t_users s) (next_UserID s) (t_consultants s) (t_subscriptions s)
    (next_SubscriptionID s) (t_events s)
    (t_payments s ++ [Payments.mk (next_PaymentID s) u n 9999 "Completed" "PayPal"])
    (next_PaymentID s + 1).

(** [UPDATE Users SET <provider>_id=:oid WHERE UserID=:uid] *)
Definition link_provider (p : provider) (oid : option string) (uid : Z)
    (s : Store) : Store :=
  with_users
    (update_where (fun u => Users.UserID u =? uid) (set_oauth_col p oid)
       (t_users s)) s.

(** The kinds of write a request can make. *)
Inductive write :=
| WNone | WOAuthNew | WOAuthLink | WUpgrade | WCancel.

Inductive store_step (n : datetime) (s : Store) : write -> Store -> Prop :=
| StepNone : store_step n s WNone s
| StepOAuthNew (p : provider) (first_name last_name em : string)
    (oid : option string) :
    fetchone (select_users_by_email (Some em) s) = None ->
    store_step n s WOAuthNew
      (add_user
         (oauth_user_row (next_UserID s) n p first_name last_name em oid) s)
| StepOAuthLink (p : provider) (oid em : option string) (row : Users.row) :
    fetchone (select_users_by_email em s) = Some row ->
    str_truthy (oauth_col p row) = false ->
    store_step n s WOAuthLink (link_provider p oid (Users.UserID row) s)
| StepUpgrade (u : Z) (sub : Subscriptions.row) :
    fetchone (select_subscriptions_by_user (Some u) s) = Some sub ->
    store_step n s WUpgrade
      (update_subscription (Subscriptions.SubscriptionID sub) set_paid
         (add_payment u n s))
| StepCancel (u : Z) (sub : Subscriptions.row) :
    fetchone (select_subscriptions_by_user (Some u) s) = Some sub ->
    store_step n s WCancel
      (update_subscription (Subscriptions.SubscriptionID sub) (set_active false) s).

(** Which request can make which write. *)
Definition may_write (r : request) (k : write) : bool :=
  match k, r with
  | WNone, _ => true
  | WOAuthNew, GetOAuthCallback _ _ => true
  | WOAuthLink, GetOAuthCallback _ _ => true
  | WUpgrade, MySubscription true form => opt_is (form !! "action") "upgrade"
  | WCancel, MySubscription true form => opt_is (form !! "action") "cancel"
  | _, _ => false
  end.

(** A user row without its four provider ids, the only columns of Users an
    UPDATE of the routes names. *)
Definition forget_provider_ids (u : Users.row) : Users.row :=
  Users.mk (Users.UserID u) (Users.FirstName u) (Users.LastName u)
    (Users.Email u) (Users.RoleType u) (Users.Address u) (Users.City u)
    (Users.StateProvince u) (Users.ZipCode u) (Users.Country u)
    (Users.CreatedDate u) (Users.IsActive u) None None None None.

(** The columns of a subscription no UPDATE of the routes names. *)
Definition subscription_key (r : Subscriptions.row)
  : Z * Z * datetime * option string :=
  (Subscriptions.SubscriptionID r, Subscriptions.UserID r,
   Subscriptions.SubscriptionStartDate r, Subscriptions.PayPalTransactionID r).

(** The payment an upgrade records. *)
Definition upgrade_payment (s : Store) (n : datetime) (p : Payments.row) : Prop :=
  Payments.PaymentID p = next_PaymentID s /\ Payments.PaymentDate p = n /\
  Payments.Amount p = 9999 /\ Payments.PaymentStatus p = "Completed" /\
  Payments.PaymentMethod p = "PayPal".

(** No value of the list occurs twice. *)
Fixpoint distinct {A} (eqb : A -> A -> bool) (l : list A) : bool :=
  match l with
  | [] => true
  | x :: l' => negb (existsb (eqb x) l') && distinct eqb l'
  end.

(** The constraints of the schema the routes rely on (PRIMARY KEY with
    IDENTITY on the three tables they insert into, UNIQUE on Email), and two
    the schema does not declare: a subscription belongs to an id already
    handed out, and a user has at most one subscription. *)
Definition store_ok (s : Store) : bool :=
  forallb (fun u => Users.UserID u <? next_UserID s) (t_users s) &&
  distinct Z.eqb (map Users.UserID (t_users s)) &&
  distinct String.eqb (map Users.Email (t_users s)) &&
  forallb (fun r => Subscriptions.SubscriptionID r <? next_SubscriptionID s)
    (t_subscriptions s) &&
  distinct Z.eqb (map Subscriptions.SubscriptionID (t_subscriptions s)) &&
  forallb (fun r => Subscriptions.UserID r <? next_UserID s) (t_subscriptions s) &&
  distinct Z.eqb (map Subscriptions.UserID (t_subscriptions s)) &&
  forallb (fun p => Payments.PaymentID p <? next_PaymentID s) (t_payments s) &&
  distinct Z.eqb (map Payments.PaymentID (t_payments s)).

(** The outcome [x] of request [r] is one write away from store [s]. *)
Definition one_write (r : request) (n : datetime) (s : Store)
    (x : World * result response) : Prop :=
  exists k, may_write r k = true /\ store_step n s k (store (fst x)).

(** [store_ok] as a proposition over the key columns. *)
Definition store_constraints (s : Store) : Prop :=
  Forall (fun x => x < next_UserID s) (map Users.UserID (t_users s)) /\
  List.NoDup (map Users.UserID (t_users s)) /\
  List.NoDup (map Users.Email (t_users s)) /\
  Forall (fun x => x < next_SubscriptionID s)
    (map Subscriptions.SubscriptionID (t_subscriptions s)) /\
  List.NoDup (map Subscriptions.SubscriptionID (t_subscriptions s)) /\
  Forall (fun x => x < next_UserID s)
    (map Subscriptions.UserID (t_subscriptions s)) /\
  List.NoDup (map Subscriptions.UserID (t_subscriptions s)) /\
  Forall (fun x => x < next_PaymentID s) (map Payments.PaymentID (t_payments s)) /\
  List.NoDup (map Payments.PaymentID (t_payments s)).

(** The sample user with a Google id already on file, and a world whose
    store holds that row. *)
Definition ada_linked : Users.row := set_oauth_col Google (Some "g-old") ada.

Definition linked_world : World :=
  mkWorld (with_users [ada_linked; root] sample_store) ∅ ∅
    (mkdt 2025 2 10 12 0 0 0) (mkdt 2025 2 10 17 0 0 0) [].

(** Two providers that report the same email under different ids. *)
Definition merge_externals : Externals := {|
  oauth_exchange := fun p code =>
    match p with
    | Google => Ok (<["id" := "g-9"]> (<["email" := "grace@example.org"]> ∅))
    | Microsoft => Ok new_profile
    | _ => Raise (ValueError "invalid_grant")
    end;
  json_dumps := fun rows => "[" +:+ str_int (Z.of_nat (length rows)) +:+ "]";
  json_loads := fun s =>
    if String.eqb s "[]" then Ok [] else Raise (ValueError "JSONDecodeError");
  fromisoformat := fun _ => Raise (ValueError "Invalid isoformat string");
  sql_int_of_string := fun s =>
    match s with EmptyString => None | _ => parse_digits s 0 end
|}.

(** * Properties *)

(** ** Calendar arithmetic *)










(** ** Lists and queries *)

Lemma fetchone_filter_none {A} (f : A -> bool) (l : list A) :
  fetchone (List.filter f l) = None <-> (forall x, In x l -> f x = false).
Proof.
  unfold fetchone. induction l as [|a l IH]; simpl.
  - split; [intros _ x []|reflexivity].
  - destruct (f a) eqn:E; simpl.
    + split; [discriminate|]. intros Hx. specialize (Hx a (or_introl eq_refl)). congruence.
    + rewrite IH. split.
      * intros Hx x [->|Hin]; auto.
      * intros Hx x Hin. apply Hx. now right.
Qed.

Lemma fetchone_filter_some {A} (f : A -> bool) (l : list A) x :
  fetchone (List.filter f l) = Some x -> In x l /\ f x = true.
Proof.
  unfold fetchone. intros Hx.
  assert (In x (List.filter f l)) as Hin by (destruct (List.filter f l); simpl in *; [discriminate|left; congruence]).
  now apply filter_In in Hin.
Qed.

Lemma fetchone_filter_first {A} (f : A -> bool) (l : list A) (x : A) :
  fetchone (List.filter f l) = Some x <->
  exists l1 l2, l = (l1 ++ x :: l2)%list /\ f x = true /\
    forall y, In y l1 -> f y = false.
Proof.
  unfold fetchone. split.
  - induction l as [|a l IH]; simpl; [discriminate|].
    destruct (f a) eqn:E; simpl.
    + intros [= ->]. exists [], l. repeat split; auto. intros y [].
    + intros Hx. destruct (IH Hx) as (l1 & l2 & -> & Hfx & Hl1).
      exists (a :: l1), l2. repeat split; auto.
      intros y [<- | Hy]; auto.
  - intros (l1 & l2 & -> & Hfx & Hl1).
    induction l1 as [|a l1 IH]; simpl.
    + now rewrite Hfx.
    + rewrite (Hl1 a (or_introl eq_refl)). apply IH.
      intros y Hy. apply Hl1. now right.
Qed.

Lemma distinct_NoDup {A} (eqb : A -> A -> bool) (l : list A) :
  (forall x y, eqb x y = true <-> x = y) ->
  distinct eqb l = true <-> List.NoDup l.
Proof.
  intros Heq. induction l as [|a l IH]; cbn [distinct].
  - split; [constructor | reflexivity].
  - rewrite andb_true_iff, negb_true_iff, IH. split.
    + intros [Hn Hd]. constructor; [|exact Hd]. intros Hin.
      assert (existsb (eqb a) l = true)
        by (apply existsb_exists; exists a; split; [exact Hin | now apply Heq]).
      congruence.
    + intros Hd. inversion Hd as [|? ? Hn Hd']; subst. split; [|exact Hd'].
      destruct (existsb (eqb a) l) eqn:E; [|reflexivity].
      apply existsb_exists in E as (y & Hy & Hay). apply Heq in Hay. subst y.
      contradiction.
Qed.

Lemma NoDup_map_eq {A K} (key : A -> K) (l : list A) (a b : A) :
  List.NoDup (map key l) -> In a l -> In b l -> key a = key b -> a = b.
Proof.
  induction l as [|x l IH]; cbn [map]; intros Hn Ha Hb Hk; [destruct Ha|].
  inversion Hn as [|? ? Hx Hn']; subst.
  destruct Ha as [-> | Ha], Hb as [-> | Hb]; auto.
  - exfalso. apply Hx. rewrite Hk. now apply in_map.
  - exfalso. apply Hx. rewrite <- Hk. now apply in_map.
Qed.

(** The row [fetchone] returns for [WHERE UserID=:uid], in terms of the
    table: the first row of that user in storage order. *)
Lemma first_subscription_of_user (uid : Z) (s : Store) (sub : Subscriptions.row) :
  fetchone (select_subscriptions_by_user (Some uid) s) = Some sub <->
  exists before after,
    t_subscriptions s = (before ++ sub :: after)%list /\
    Subscriptions.UserID sub = uid /\
    forall r, In r before -> Subscriptions.UserID r <> uid.
Proof.
  unfold select_subscriptions_by_user. rewrite fetchone_filter_first. split.
  - intros (l1 & l2 & E & Hu & Hl1). exists l1, l2.
    split; [exact E|]. split; [now apply Z.eqb_eq|].
    intros r Hr. apply Z.eqb_neq. now apply Hl1.
  - intros (l1 & l2 & E & Hu & Hl1). exists l1, l2.
    split; [exact E|]. split; [now apply Z.eqb_eq|].
    intros r Hr. apply Z.eqb_neq. now apply Hl1.
Qed.

Lemma no_subscription_of_user (uid : Z) (s : Store) :
  fetchone (select_subscriptions_by_user (Some uid) s) = None <->
  forall r, In r (t_subscriptions s) -> Subscriptions.UserID r <> uid.
Proof.
  unfold select_subscriptions_by_user. rewrite fetchone_filter_none.
  split; intros Hn r Hr; apply Z.eqb_neq; now apply Hn.
Qed.

Lemma only_subscription_of_user (uid : Z) (s : Store) (sub : Subscriptions.row) :
  distinct Z.eqb (map Subscriptions.UserID (t_subscriptions s)) = true ->
  In sub (t_subscriptions s) -> Subscriptions.UserID sub = uid ->
  fetchone (select_subscriptions_by_user (Some uid) s) = Some sub.
Proof.
  intros Hd Hin Hu.
  pose proof (proj1 (distinct_NoDup Z.eqb _ Z.eqb_eq) Hd) as Hnd.
  destruct (fetchone (select_subscriptions_by_user (Some uid) s)) as [s0|] eqn:E.
  - f_equal. unfold select_subscriptions_by_user in E.
    apply fetchone_filter_some in E as [Hin0 Hu0]. apply Z.eqb_eq in Hu0.
    apply (NoDup_map_eq Subscriptions.UserID _ s0 sub Hnd Hin0 Hin). congruence.
  - exfalso. exact (proj1 (no_subscription_of_user uid s) E sub Hin Hu).
Qed.

(** ** Running the primitives *)

Lemma bind_ok {A B} (m : M A) (k : A -> M B) (w w' : World) (a : A) :
  m w = (w', Ok a) -> bind m k w = k a w'.
Proof. unfold bind. now intros ->. Qed.

Lemma bind_raise {A B} (m : M A) (k : A -> M B) (w w' : World) (e : exn) :
  m w = (w', Raise e) -> bind m k w = (w', Raise e).
Proof. unfold bind. now intros ->. Qed.

Lemma emit_run (e : effect) (w : World) :
  emit e w = (with_log (log w ++ [e]) w, Ok tt).
Proof. reflexivity. Qed.

Lemma sql_select_run {A} (stmt : string) (q : Store -> A) (w : World) :
  sql_select stmt q w =
  (with_log (log w ++ [SqlExecute stmt]) w, Ok (q (store w))).
Proof. reflexivity. Qed.

Lemma sql_update_run (stmt : string) (f : Store -> Store) (w : World) :
  sql_update stmt f w =
  (with_store (f (store w)) (with_log (log w ++ [SqlExecute stmt]) w), Ok tt).
Proof. reflexivity. Qed.

Lemma sql_commit_run (w : World) :
  sql_commit w = (with_log (log w ++ [SqlCommit]) w, Ok tt).
Proof. reflexivity. Qed.

Lemma login_user_run (uid em role : pyval) (w : World) :
  login_user uid em role w =
  (with_session
     (<["role" := role]> (<["email" := em]> (<["user_id" := uid]> (session w))))
     (with_log (log w ++ [Call "login_user"]) w), Ok tt).
Proof. reflexivity. Qed.

Lemma insert_user_run (mkrow : Z -> datetime -> Users.row) (em : string)
    (w : World) :
  insert_user mkrow (Some em) w =
  (let s := store w in
   mkWorld
     (mkStore (t_users s ++ [mkrow (next_UserID s) (now w)]) (next_UserID s + 1)
        (t_consultants s) (t_subscriptions s) (next_SubscriptionID s)
        (t_events s) (t_payments s) (next_PaymentID s))
     (session w) (redis w) (now w) (utcnow w)
     (log w ++ [SqlExecute "INSERT INTO Users"]),
   Ok (next_UserID (store w))).
Proof. reflexivity. Qed.

Lemma insert_free_subscription_run (uid : Z) (w : World) :
  insert_free_subscription uid w =
  (let s := store w in
   mkWorld
     (mkStore (t_users s) (next_UserID s) (t_consultants s)
        (t_subscriptions s ++
           [Subscriptions.mk (next_SubscriptionID s) uid (Some "Free") (now w)
              (Some 0) None (Some true)])
        (next_SubscriptionID s + 1) (t_events s) (t_payments s)
        (next_PaymentID s))
     (session w) (redis w) (now w) (utcnow w)
     (log w ++ [SqlExecute "INSERT INTO Subscriptions"]),
   Ok tt).
Proof. reflexivity. Qed.

Lemma redis_setex_run (key : string) (ttl : Z) (value : string) (w : World) :
  redis_setex key ttl value w =
  (with_redis (<[key := (value, ttl)]> (redis w))
     (with_log (log w ++ [RedisSetex key ttl value]) w), Ok tt).
Proof. reflexivity. Qed.

(** The navigation bar is never built: its template calls [current_user()],
    a name the template environment does not have. *)
Lemma navbar_raises (w : World) :
  get_navbar_html w = (w, Raise template_error).
Proof. reflexivity. Qed.

(** ** The subscription gate *)

Lemma validate_subscription_run (user_id : Z) (w : World) :
  validate_subscription user_id w =
  (with_log (log w ++ validate_log) w,
   match fetchone (select_subscriptions_by_user (Some user_id) (store w)) with
   | None => Raise NoSubscriptionError
   | Some sub =>
       if bit_truthy (Subscriptions.IsActive sub) then Ok tt
       else Raise InactiveSubscriptionError
   end).
Proof.
  unfold validate_subscription, sql_select, bind, emit, get_world, ret, raise,
    with_log, validate_log.
  simpl. rewrite <- app_assoc. simpl.
  destruct (fetchone _) as [sub|]; [|reflexivity].
  destruct (bit_truthy (Subscriptions.IsActive sub)); reflexivity.
Qed.

(** C1. Subscription gate, in terms of the Subscriptions table: for every
    user id and every world, [validate_subscription] returns normally exactly
    when the table holds a row of that user and the first such row (the one
    [fetchone] returns) has its active flag set; it raises the
    no-subscription error exactly when no row of the table has that user id,
    and the inactive-subscription error exactly when the first row of the
    user has an active flag that is false or NULL. When no two rows of the
    table share a user id, success is: some row of the table has that user id
    and is active. The two errors differ, and the check writes neither the
    store nor the session. *)
Theorem validate_subscription_gate (user_id : Z) (w : World) :
  let subs := t_subscriptions (store w) in
  let out := validate_subscription user_id w in
  let first_row := fun sub =>
    exists before after,
      subs = (before ++ sub :: after)%list /\
      Subscriptions.UserID sub = user_id /\
      forall r, In r before -> Subscriptions.UserID r <> user_id in
  (snd out = Ok tt <->
     exists sub, first_row sub /\ Subscriptions.IsActive sub = Some true) /\
  (snd out = Raise NoSubscriptionError <->
     forall r, In r subs -> Subscriptions.UserID r <> user_id) /\
  (snd out = Raise InactiveSubscriptionError <->
     exists sub, first_row sub /\ Subscriptions.IsActive sub <> Some true) /\
  (distinct Z.eqb (map Subscriptions.UserID subs) = true ->
     (snd out = Ok tt <->
        exists sub, In sub subs /\ Subscriptions.UserID sub = user_id /\
          Subscriptions.IsActive sub = Some true)) /\
  NoSubscriptionError <> InactiveSubscriptionError /\
  store (fst out) = store w /\ session (fst out) = session w.
Proof.
  cbv zeta. rewrite validate_subscription_run. cbn [fst snd].
  rewrite <- no_subscription_of_user.
  assert (Hok : (match fetchone (select_subscriptions_by_user (Some user_id) (store w)) with
                 | None => Raise NoSubscriptionError
                 | Some sub => if bit_truthy (Subscriptions.IsActive sub) then Ok tt
                               else Raise InactiveSubscriptionError
                 end = Ok tt) <->
                exists sub,
                  fetchone (select_subscriptions_by_user (Some user_id) (store w)) = Some sub /\
                  Subscriptions.IsActive sub = Some true).
  { destruct (fetchone _) as [sub|].
    - destruct (Subscriptions.IsActive sub) as [[|]|] eqn:Ea; cbn [bit_truthy].
      + split; [intros _; exists sub; auto | reflexivity].
      + split; [discriminate|]. intros (s0 & [= <-] & Hs). congruence.
      + split; [discriminate|]. intros (s0 & [= <-] & Hs). congruence.
    - split; [discriminate|]. intros (s0 & Hs & _). discriminate. }
  split; [|split; [|split; [|split; [|split; [discriminate|split; reflexivity]]]]].
  - rewrite Hok. split; intros (sub & Hs & Ha); exists sub; split; auto;
      now apply first_subscription_of_user.
  - destruct (fetchone _) as [sub|].
    + split; [|discriminate].
      destruct (bit_truthy (Subscriptions.IsActive sub)); discriminate.
    + split; reflexivity.
  - destruct (fetchone _) as [sub|] eqn:E.
    + destruct (Subscriptions.IsActive sub) as [[|]|] eqn:Ea; cbn [bit_truthy].
      * split; [discriminate|]. intros (s0 & Hs & Ha).
        apply (proj2 (first_subscription_of_user _ _ _)) in Hs. congruence.
      * split; [|reflexivity]. intros _. exists sub.
        split; [now apply first_subscription_of_user | congruence].
      * split; [|reflexivity]. intros _. exists sub.
        split; [now apply first_subscription_of_user | congruence].
    + split; [discriminate|]. intros (s0 & Hs & _).
      apply (proj2 (first_subscription_of_user _ _ _)) in Hs. congruence.
  - intros Hd. rewrite Hok. split.
    + intros (sub & Hs & Ha). exists sub.
      unfold select_subscriptions_by_user in Hs.
      apply fetchone_filter_some in Hs as [Hin Hu]. apply Z.eqb_eq in Hu. auto.
    + intros (sub & Hin & Hu & Ha). exists sub. split; [|exact Ha].
      now apply only_subscription_of_user.
Qed.

(** ** Routes that build the navigation bar *)

Lemma login_run (w : World) : login w = (w, Raise template_error).
Proof. unfold login. erewrite bind_raise by apply navbar_raises. reflexivity. Qed.

Lemma dashboard_run (w : World) :
  dashboard w =
  (w, match current_user (session w) with
      | Raise e => Raise e
      | Ok None => Ok (Redirect "login")
      | Ok (Some _) => Raise template_error
      end).
Proof.
  unfold dashboard. erewrite bind_ok by reflexivity.
  unfold lift, bind. destruct (current_user (session w)) as [[u|]|e];
    reflexivity.
Qed.

Lemma admin_portal_run (w : World) :
  admin_portal w =
  (w, match user_is_admin (session w) with
      | Raise e => Raise e
      | Ok false => Raise (ValueError "Unauthorized access.")
      | Ok true => Raise template_error
      end).
Proof.
  unfold admin_portal. erewrite bind_ok by reflexivity.
  unfold lift, bind. destruct (user_is_admin (session w)) as [[|]|e];
    reflexivity.
Qed.

Lemma admin_list_users_run (w : World) :
  admin_list_users w =
  (w, match user_is_admin (session w) with
      | Raise e => Raise e
      | Ok false => Raise (ValueError "Unauthorized access.")
      | Ok true => Raise template_error
      end).
Proof.
  unfold admin_list_users. erewrite bind_ok by reflexivity.
  unfold lift, bind. destruct (user_is_admin (session w)) as [[|]|e];
    reflexivity.
Qed.

Section NavbarRoutes.
Context `{Externals}.

Lemma home_run (w : World) : home w = (w, Raise template_error).
Proof. unfold home. erewrite bind_raise by apply navbar_raises. reflexivity. Qed.

Lemma list_events_run (w : World) : list_events w = (w, Raise template_error).
Proof.
  unfold list_events. erewrite bind_raise by apply navbar_raises. reflexivity.
Qed.

Lemma list_consultants_run (w : World) :
  list_consultants w = (w, Raise template_error).
Proof.
  unfold list_consultants. erewrite bind_raise by apply navbar_raises.
  reflexivity.
Qed.

Lemma register_run (post : bool) (form : gmap string string) (w : World) :
  register post form w = (w, Raise template_error).
Proof.
  unfold register. erewrite bind_raise by apply navbar_raises. reflexivity.
Qed.

Lemma event_details_run (event_id : Z) (w : World) :
  event_details event_id w = (w, Raise template_error).
Proof.
  unfold event_details. erewrite bind_raise by apply navbar_raises.
  reflexivity.
Qed.

Lemma admin_subscriptions_run (post : bool) (form : gmap string string)
    (w : World) :
  admin_subscriptions post form w =
  (w, match user_is_admin (session w) with
      | Raise e => Raise e
      | Ok false => Raise (ValueError "Unauthorized access.")
      | Ok true => Raise template_error
      end).
Proof.
  unfold admin_subscriptions. erewrite bind_ok by reflexivity.
  unfold lift, bind. destruct (user_is_admin (session w)) as [[|]|e];
    reflexivity.
Qed.

(** The subscription page of a logged-in user: the SELECT runs, then the
    navigation bar fails. *)
Lemma my_subscription_get_run (form : gmap string string) (w : World)
    (u : pyrow) (uid : Z) (sub : Subscriptions.row) :
  current_user (session w) = Ok (Some u) ->
  u !! "user_id" = Some (PyInt uid) ->
  fetchone (select_subscriptions_by_user (Some uid) (store w)) = Some sub ->
  my_subscription false form w =
  (with_log (log w ++ [SqlExecute "SELECT * FROM Subscriptions WHERE UserID=:u"]) w,
   Raise template_error).
Proof.
  intros Hcu Hu Hsub. unfold my_subscription.
  erewrite bind_ok by reflexivity.
  erewrite bind_ok by (unfold lift; rewrite Hcu; reflexivity).
  cbv beta iota zeta. rewrite Hu. cbn [default from_option id].
  erewrite bind_ok by reflexivity.
  erewrite bind_ok by apply sql_select_run.
  world_simpl. rewrite Hsub.
  erewrite bind_raise by apply navbar_raises. reflexivity.
Qed.

End NavbarRoutes.

(** ** The subscription form: upgrade and cancel *)

Lemma current_user_logged_in (ss : gmap string pyval) (v : pyval) :
  ss !! "user_id" = Some v -> session_wf ss = true ->
  exists u, current_user ss = Ok (Some u) /\ u !! "user_id" = Some v /\
            u !! "role" = Some (default PyNone (ss !! "role")).
Proof.
  unfold session_wf, current_user. intros -> Hwf.
  destruct (ss !! "email") as [em|]; [|discriminate].
  eexists. split; [reflexivity|]. split.
  - apply lookup_insert_eq.
  - rewrite lookup_insert_ne by discriminate.
    rewrite lookup_insert_ne by discriminate. apply lookup_insert_eq.
Qed.

Section Subscription.
Context `{Externals}.

(** What a POST to [/my_subscription] does for a logged-in user that has a
    subscription row. *)
Lemma my_subscription_post (uid : Z) (form : gmap string string) (w : World)
    (sub : Subscriptions.row) :
  session w !! "user_id" = Some (PyInt uid) ->
  session_wf (session w) = true ->
  fetchone (select_subscriptions_by_user (Some uid) (store w)) = Some sub ->
  let out := my_subscription true form w in
  let sid := Subscriptions.SubscriptionID sub in
  let s := store w in
  snd out = Ok (Redirect "my_subscription") /\
  session (fst out) = session w /\ redis (fst out) = redis w /\
  store (fst out) =
    if opt_is (form !! "action") "upgrade" then
      update_subscription sid set_paid
        (mkStore (t_users s) (next_UserID s) (t_consultants s)
           (t_subscriptions s) (next_SubscriptionID s) (t_events s)
           (t_payments s ++
              [Payments.mk (next_PaymentID s) uid (now w) 9999 "Completed" "PayPal"])
           (next_PaymentID s + 1))
    else if opt_is (form !! "action") "cancel" then
      update_subscription sid (set_active false) s
    else s.
Proof.
  intros Hu Hwf Hsub. cbv zeta.
  destruct (current_user_logged_in _ _ Hu Hwf) as (u & Hcu & Huid & _).
  unfold my_subscription, bind, get_world, lift. rewrite Hcu, Huid. simpl.
  unfold sql_select, bind, emit, get_world, ret. simpl.
  unfold select_subscriptions_by_user in Hsub. rewrite Hsub.
  destruct (opt_is (form !! "action") "upgrade").
  - repeat split; destruct w as [[] ? ? ? ? ?]; reflexivity.
  - destruct (opt_is (form !! "action") "cancel");
      repeat split; destruct w as [[] ? ? ? ? ?]; reflexivity.
Qed.

Lemma action_form_lookup (a : string) : action_form a !! "action" = Some a.
Proof. apply lookup_singleton_eq. Qed.

Lemma update_where_other {A} (cond : A -> bool) (f : A -> A) (l : list A) :
  (forall r, In r l -> cond r = false) -> update_where cond f l = l.
Proof.
  unfold update_where. induction l as [|a l IH]; cbn [map]; intros Hl;
    [reflexivity|].
  rewrite (Hl a (or_introl eq_refl)), IH; [reflexivity|].
  intros r Hr. apply Hl. now right.
Qed.

(** An UPDATE by primary key rewrites the one row that has the key. *)
Lemma update_where_unique (f : Subscriptions.row -> Subscriptions.row)
    (before after : list Subscriptions.row) (sub : Subscriptions.row) :
  distinct Z.eqb
    (map Subscriptions.SubscriptionID (before ++ sub :: after)) = true ->
  update_where
    (fun r => Subscriptions.SubscriptionID r =? Subscriptions.SubscriptionID sub)
    f (before ++ sub :: after) = (before ++ f sub :: after)%list.
Proof.
  intros Hd. pose proof (proj1 (distinct_NoDup Z.eqb _ Z.eqb_eq) Hd) as Hnd.
  rewrite map_app in Hnd. cbn [map] in Hnd. apply NoDup_remove_2 in Hnd.
  assert (Hother : forall r, In r (before ++ after) ->
            (Subscriptions.SubscriptionID r =? Subscriptions.SubscriptionID sub)
            = false).
  { intros r Hr. apply Z.eqb_neq. intros E. apply Hnd. rewrite <- map_app, <- E.
    now apply in_map. }
  unfold update_where. rewrite map_app. cbn [map]. rewrite Z.eqb_refl.
  f_equal; [|f_equal];
    apply (update_where_other
             (fun r => Subscriptions.SubscriptionID r
                       =? Subscriptions.SubscriptionID sub) f);
    intros r Hr; apply Hother, in_or_app; auto.
Qed.

(** The POST of the subscription form, for a logged-in user whose first row
    in the table is [sub]: the tables after the request. *)
Lemma my_subscription_post_tables (uid : Z) (em : pyval)
    (form : gmap string string) (w : World)
    (before after : list Subscriptions.row) (sub : Subscriptions.row) :
  session w !! "user_id" = Some (PyInt uid) ->
  session w !! "email" = Some em ->
  t_subscriptions (store w) = (before ++ sub :: after)%list ->
  Subscriptions.UserID sub = uid ->
  (forall r, In r before -> Subscriptions.UserID r <> uid) ->
  distinct Z.eqb
    (map Subscriptions.SubscriptionID (t_subscriptions (store w))) = true ->
  let out := my_subscription true form w in
  snd out = Ok (Redirect "my_subscription") /\
  t_users (store (fst out)) = t_users (store w) /\
  (opt_is (form !! "action") "upgrade" = true ->
     t_subscriptions (store (fst out)) = (before ++ set_paid sub :: after)%list /\
     t_payments (store (fst out)) =
       (t_payments (store w) ++
          [Payments.mk (next_PaymentID (store w)) uid (now w) 9999
             "Completed" "PayPal"])%list) /\
  (opt_is (form !! "action") "upgrade" = false ->
   opt_is (form !! "action") "cancel" = true ->
     t_subscriptions (store (fst out)) =
       (before ++ set_active false sub :: after)%list /\
     t_payments (store (fst out)) = t_payments (store w)).
Proof.
  intros Hu Hem Ht Hsu Hbefore Hd. cbv zeta.
  assert (Hwf : session_wf (session w) = true)
    by (unfold session_wf, current_user; now rewrite Hu, Hem).
  assert (Hsub : fetchone (select_subscriptions_by_user (Some uid) (store w))
                 = Some sub).
  { apply first_subscription_of_user. exists before, after. auto. }
  destruct (my_subscription_post uid form w sub Hu Hwf Hsub)
    as (Hr & _ & _ & Hs).
  split; [exact Hr|]. rewrite Hs.
  split; [destruct (opt_is (form !! "action") "upgrade");
          [|destruct (opt_is (form !! "action") "cancel")]; reflexivity|].
  split.
  - intros ->. cbn [update_subscription with_subscriptions t_subscriptions
                    t_payments].
    split; [|reflexivity].
    rewrite Ht. apply update_where_unique. now rewrite <- Ht.
  - intros -> ->. cbn [update_subscription with_subscriptions t_subscriptions
                       t_payments].
    split; [|reflexivity].
    rewrite Ht. apply update_where_unique. now rewrite <- Ht.
Qed.

(** C3. Upgrade and cancel, in terms of the tables. The user [uid] is logged
    in, [sub] is the first row of the Subscriptions table whose UserID is
    [uid] (the row the route fetches), the SubscriptionIDs of the table are
    distinct (PRIMARY KEY) and [sub] is active. If [sub] has level Free, the
    POST with action upgrade redirects to the subscription page, replaces
    [sub], in place, by the row with the same id, owner, start date and
    transaction id and with level Paid, amount 99.99 and active flag set,
    leaves every other row of the table as it is, and appends exactly one
    row to Payments: the next payment id, this user, the current time,
    99.99, Completed, PayPal. The POST with action cancel redirects, replaces
    [sub] by the same row with the active flag cleared (level and amount
    kept), leaves every other row as it is and adds no payment. Neither
    touches the Users table. *)
Theorem upgrade_and_cancel_transitions (uid : Z) (em : pyval) (w : World)
    (before after : list Subscriptions.row) (sub : Subscriptions.row) :
  session w !! "user_id" = Some (PyInt uid) ->
  session w !! "email" = Some em ->
  t_subscriptions (store w) = (before ++ sub :: after)%list ->
  Subscriptions.UserID sub = uid ->
  (forall r, In r before -> Subscriptions.UserID r <> uid) ->
  distinct Z.eqb
    (map Subscriptions.SubscriptionID (t_subscriptions (store w))) = true ->
  Subscriptions.IsActive sub = Some true ->
  (Subscriptions.SubscriptionLevel sub = Some "Free" ->
   let out := my_subscription true (action_form "upgrade") w in
   snd out = Ok (Redirect "my_subscription") /\
   t_subscriptions (store (fst out)) =
     (before ++
      Subscriptions.mk (Subscriptions.SubscriptionID sub) uid (Some "Paid")
        (Subscriptions.SubscriptionStartDate sub) (Some 9999)
        (Subscriptions.PayPalTransactionID sub) (Some true) :: after)%list /\
   t_payments (store (fst out)) =
     (t_payments (store w) ++
        [Payments.mk (next_PaymentID (store w)) uid (now w) 9999
           "Completed" "PayPal"])%list /\
   t_users (store (fst out)) = t_users (store w)) /\
  (let out := my_subscription true (action_form "cancel") w in
   snd out = Ok (Redirect "my_subscription") /\
   t_subscriptions (store (fst out)) =
     (before ++
      Subscriptions.mk (Subscriptions.SubscriptionID sub) uid
        (Subscriptions.SubscriptionLevel sub)
        (Subscriptions.SubscriptionStartDate sub) (Subscriptions.Amount sub)
        (Subscriptions.PayPalTransactionID sub) (Some false) :: after)%list /\
   t_payments (store (fst out)) = t_payments (store w) /\
   t_users (store (fst out)) = t_users (store w)).
Proof.
  intros Hu Hem Ht Hsu Hbefore Hd _. split.
  - intros _. cbv zeta.
    destruct (my_subscription_post_tables uid em (action_form "upgrade") w
                before after sub Hu Hem Ht Hsu Hbefore Hd)
      as (Hr & Husers & Hup & _).
    rewrite action_form_lookup in Hup. destruct (Hup eq_refl) as [Hs Hp].
    split; [exact Hr|]. split; [|split; [exact Hp | exact Husers]].
    rewrite Hs. unfold set_paid. now rewrite Hsu.
  - cbv zeta.
    destruct (my_subscription_post_tables uid em (action_form "cancel") w
                before after sub Hu Hem Ht Hsu Hbefore Hd)
      as (Hr & Husers & _ & Hcancel).
    rewrite action_form_lookup in Hcancel.
    destruct (Hcancel eq_refl eq_refl) as [Hs Hp].
    split; [exact Hr|]. split; [|split; [exact Hp | exact Husers]].
    rewrite Hs. unfold set_active. now rewrite Hsu.
Qed.

(** C4. Upgrade has no precondition on the state of the subscription: for a
    logged-in user [uid] whose first row in the Subscriptions table is
    [sub], whatever the level, the amount and the active flag of [sub]
    (Free or Paid, active or cancelled, refunded or not), the POST with
    action upgrade succeeds, replaces [sub] in place by the row with level
    Paid, amount 99.99 and active flag set (id, owner, start date and
    transaction id kept, every other row untouched, SubscriptionIDs being
    distinct), and appends one payment of 99.99 for this user. *)
Theorem upgrade_has_no_precondition (uid : Z) (em : pyval) (w : World)
    (before after : list Subscriptions.row) (sub : Subscriptions.row) :
  session w !! "user_id" = Some (PyInt uid) ->
  session w !! "email" = Some em ->
  t_subscriptions (store w) = (before ++ sub :: after)%list ->
  Subscriptions.UserID sub = uid ->
  (forall r, In r before -> Subscriptions.UserID r <> uid) ->
  distinct Z.eqb
    (map Subscriptions.SubscriptionID (t_subscriptions (store w))) = true ->
  let out := my_subscription true (action_form "upgrade") w in
  snd out = Ok (Redirect "my_subscription") /\
  t_subscriptions (store (fst out)) =
    (before ++
     Subscriptions.mk (Subscriptions.SubscriptionID sub) uid (Some "Paid")
       (Subscriptions.SubscriptionStartDate sub) (Some 9999)
       (Subscriptions.PayPalTransactionID sub) (Some true) :: after)%list /\
  t_payments (store (fst out)) =
    (t_payments (store w) ++
       [Payments.mk (next_PaymentID (store w)) uid (now w) 9999
          "Completed" "PayPal"])%list.
Proof.
  intros Hu Hem Ht Hsu Hbefore Hd. cbv zeta.
  destruct (my_subscription_post_tables uid em (action_form "upgrade") w
              before after sub Hu Hem Ht Hsu Hbefore Hd)
    as (Hr & _ & Hup & _).
  rewrite action_form_lookup in Hup. destruct (Hup eq_refl) as [Hs Hp].
  split; [exact Hr|]. split; [|exact Hp].
  rewrite Hs. unfold set_paid. now rewrite Hsu.
Qed.

End Subscription.

(** [upgrade_and_cancel_transitions] at a table of three rows: the row of
    the sample user sits between a row of the administrator and an older row
    of the user; only it changes. *)
Lemma upgrade_and_cancel_transitions_witness :
  session crowded_world !! "user_id" = Some (PyInt 1) /\
  session crowded_world !! "email" = Some (PyStr "ada@example.org") /\
  t_subscriptions (store crowded_world) = ([root_sub] ++ ada_sub :: [ada_old_sub])%list /\
  Subscriptions.UserID ada_sub = 1 /\
  (forall r, In r [root_sub] -> Subscriptions.UserID r <> 1) /\
  distinct Z.eqb
    (map Subscriptions.SubscriptionID (t_subscriptions (store crowded_world)))
    = true /\
  Subscriptions.IsActive ada_sub = Some true /\
  Subscriptions.SubscriptionLevel ada_sub = Some "Free" /\
  (let out := @my_subscription sample_externals true (action_form "upgrade")
                crowded_world in
   snd out = Ok (Redirect "my_subscription") /\
   t_subscriptions (store (fst out)) =
     [root_sub;
      Subscriptions.mk 1 1 (Some "Paid") sample_day (Some 9999) None (Some true);
      ada_old_sub] /\
   t_payments (store (fst out)) =
     [Payments.mk 1 1 (mkdt 2025 2 10 12 0 0 0) 9999 "Completed" "PayPal"] /\
   t_users (store (fst out)) = [ada; root]) /\
  (let out := @my_subscription sample_externals true (action_form "cancel")
                crowded_world in
   snd out = Ok (Redirect "my_subscription") /\
   t_subscriptions (store (fst out)) =
     [root_sub;
      Subscriptions.mk 1 1 (Some "Free") sample_day (Some 0) None (Some false);
      ada_old_sub] /\
   t_payments (store (fst out)) = [] /\
   t_users (store (fst out)) = [ada; root]).
Proof.
  assert (Hu : session crowded_world !! "user_id" = Some (PyInt 1))
    by (vm_compute; reflexivity).
  assert (Hem : session crowded_world !! "email" = Some (PyStr "ada@example.org"))
    by (vm_compute; reflexivity).
  assert (Ht : t_subscriptions (store crowded_world)
               = ([root_sub] ++ ada_sub :: [ada_old_sub])%list) by reflexivity.
  assert (Hsu : Subscriptions.UserID ada_sub = 1) by reflexivity.
  assert (Hb : forall r, In r [root_sub] -> Subscriptions.UserID r <> 1)
    by (intros r [<- | []]; discriminate).
  assert (Hd : distinct Z.eqb
                 (map Subscriptions.SubscriptionID
                    (t_subscriptions (store crowded_world))) = true)
    by (vm_compute; reflexivity).
  assert (Ha : Subscriptions.IsActive ada_sub = Some true) by reflexivity.
  assert (Hl : Subscriptions.SubscriptionLevel ada_sub = Some "Free")
    by reflexivity.
  split; [exact Hu|]. split; [exact Hem|]. split; [exact Ht|].
  split; [exact Hsu|]. split; [exact Hb|]. split; [exact Hd|].
  split; [exact Ha|]. split; [exact Hl|].
  destruct (@upgrade_and_cancel_transitions sample_externals 1
              (PyStr "ada@example.org") crowded_world [root_sub] [ada_old_sub]
              ada_sub Hu Hem Ht Hsu Hb Hd Ha) as [Hup Hcancel].
  split; [exact (Hup Hl) | exact Hcancel].
Defined.

(** [upgrade_has_no_precondition] at a cancelled Paid subscription: the
    upgrade reactivates it and charges again. *)
Lemma upgrade_has_no_precondition_witness :
  session lapsed_world !! "user_id" = Some (PyInt 1) /\
  session lapsed_world !! "email" = Some (PyStr "ada@example.org") /\
  t_subscriptions (store lapsed_world) = ([] ++ lapsed_sub :: [])%list /\
  Subscriptions.UserID lapsed_sub = 1 /\
  (forall r, In r [] -> Subscriptions.UserID r <> 1) /\
  distinct Z.eqb
    (map Subscriptions.SubscriptionID (t_subscriptions (store lapsed_world)))
    = true /\
  Subscriptions.SubscriptionLevel lapsed_sub = Some "Paid" /\
  Subscriptions.IsActive lapsed_sub = Some false /\
  (let out := @my_subscription sample_externals true (action_form "upgrade")
                lapsed_world in
   snd out = Ok (Redirect "my_subscription") /\
   t_subscriptions (store (fst out)) =
     [Subscriptions.mk 1 1 (Some "Paid") sample_day (Some 9999) None (Some true)] /\
   t_payments (store (fst out)) =
     [Payments.mk 1 1 (mkdt 2025 2 10 12 0 0 0) 9999 "Completed" "PayPal"]).
Proof.
  assert (Hu : session lapsed_world !! "user_id" = Some (PyInt 1))
    by (vm_compute; reflexivity).
  assert (Hem : session lapsed_world !! "email" = Some (PyStr "ada@example.org"))
    by (vm_compute; reflexivity).
  assert (Ht : t_subscriptions (store lapsed_world)
               = ([] ++ lapsed_sub :: [])%list) by reflexivity.
  assert (Hsu : Subscriptions.UserID lapsed_sub = 1) by reflexivity.
  assert (Hb : forall r : Subscriptions.row, In r [] -> Subscriptions.UserID r <> 1)
    by (intros r []).
  assert (Hd : distinct Z.eqb
                 (map Subscriptions.SubscriptionID
                    (t_subscriptions (store lapsed_world))) = true)
    by (vm_compute; reflexivity).
  split; [exact Hu|]. split; [exact Hem|]. split; [exact Ht|].
  split; [exact Hsu|]. split; [exact Hb|]. split; [exact Hd|].
  split; [reflexivity|]. split; [reflexivity|].
  exact (@upgrade_has_no_precondition sample_externals 1
           (PyStr "ada@example.org") lapsed_world [] [] lapsed_sub
           Hu Hem Ht Hsu Hb Hd).
Defined.

(** ** Registration *)

Lemma count_email_absent (em : string) (us : list Users.row) :
  (forall u, In u us -> Users.Email u <> em) -> count_email em us = 0%nat.
Proof.
  unfold count_email. induction us as [|a l IH]; cbn; intros Hno; [reflexivity|].
  destruct (String.eqb_spec (Users.Email a) em) as [E|E].
  - exfalso. apply (Hno a); auto.
  - apply IH. intros u Hu. apply Hno. now right.
Qed.

Lemma count_email_app (em : string) (us vs : list Users.row) :
  count_email em (us ++ vs) = (count_email em us + count_email em vs)%nat.
Proof. unfold count_email. now rewrite List.filter_app, List.length_app. Qed.

Lemma select_email_absent (em : string) (s : Store) :
  (forall u, In u (t_users s) -> Users.Email u <> em) ->
  fetchone (select_users_by_email (Some em) s) = None.
Proof.
  intros Hno. apply fetchone_filter_none. intros u Hu.
  apply String.eqb_neq. auto.
Qed.

Section Register.
Context `{Externals}.

(** C7, what the code does instead. [register()] builds the navigation bar
    before it reads the form: whatever the method, the form and the world,
    the request ends in the template error with the world unchanged, so
    neither the required-field loop, nor the lookup of the email, nor an
    INSERT is reached. A duplicate email is not answered by the validation
    error and a fresh one creates no user and no subscription. *)
Theorem register_stops_at_the_navbar (post : bool) (form : gmap string string)
    (w : World) :
  register post form w = (w, Raise template_error).
Proof. apply register_run. Qed.

End Register.

(** ** OAuth callback *)

Lemma parse_provider_name (p : provider) :
  parse_provider (provider_name p) = Some p.
Proof. destruct p; reflexivity. Qed.

Lemma fetchone_users_update (em : string) (uid : Z)
    (f : Users.row -> Users.row) (l : list Users.row) (row : Users.row) :
  (forall r, Users.Email (f r) = Users.Email r) ->
  fetchone (List.filter (fun u => String.eqb (Users.Email u) em) l) = Some row ->
  uid = Users.UserID row ->
  fetchone (List.filter (fun u => String.eqb (Users.Email u) em)
              (update_where (fun u => Users.UserID u =? uid) f l))
  = Some (f row).
Proof.
  intros Hf Hrow ->. unfold update_where, fetchone in *.
  induction l as [|a l IH]; cbn [map List.filter] in *; [discriminate|].
  destruct (String.eqb (Users.Email a) em) eqn:Ea.
  - cbn [head] in Hrow. injection Hrow as ->.
    rewrite Z.eqb_refl, Hf, Ea. reflexivity.
  - destruct (Users.UserID a =? Users.UserID row);
      [rewrite Hf|]; rewrite Ea; auto.
Qed.

Lemma update_where_idem {A} (cond : A -> bool) (f : A -> A) (l : list A) :
  (forall r, cond (f r) = cond r) -> (forall r, f (f r) = f r) ->
  update_where cond f (update_where cond f l) = update_where cond f l.
Proof.
  intros Hc Hf. unfold update_where. rewrite map_map. apply map_ext.
  intros a. destruct (cond a) eqn:E; [rewrite Hc, E; apply Hf | now rewrite E].
Qed.

Lemma update_where_none {A} (cond : A -> bool) (f : A -> A) (l : list A) :
  forallb (fun r => negb (cond r)) l = true -> update_where cond f l = l.
Proof.
  unfold update_where. induction l as [|a l IH]; cbn [map forallb]; [reflexivity|].
  intros Hl. apply andb_true_iff in Hl as [Ha Hl].
  destruct (cond a); [discriminate|]. now rewrite IH.
Qed.

Lemma update_where_app {A} (cond : A -> bool) (f : A -> A) (l l' : list A) :
  update_where cond f (l ++ l') = (update_where cond f l ++ update_where cond f l')%list.
Proof. unfold update_where. apply map_app. Qed.

Lemma count_email_update (em : string) (cond : Users.row -> bool)
    (f : Users.row -> Users.row) (l : list Users.row) :
  (forall r, Users.Email (f r) = Users.Email r) ->
  count_email em (update_where cond f l) = count_email em l.
Proof.
  intros Hf. unfold count_email, update_where.
  induction l as [|a l IH]; cbn [map List.filter]; [reflexivity|].
  destruct (cond a); [rewrite Hf|];
    destruct (String.eqb (Users.Email a) em); cbn [length]; now rewrite IH.
Qed.

Lemma count_email_found (em : string) (l : list Users.row) (row : Users.row) :
  fetchone (List.filter (fun u => String.eqb (Users.Email u) em) l) = Some row ->
  (1 <= count_email em l)%nat.
Proof.
  unfold count_email, fetchone.
  destruct (List.filter _ l); cbn [head length]; [discriminate|lia].
Qed.

Lemma set_oauth_col_idem (p : provider) (oid : option string) (u : Users.row) :
  set_oauth_col p oid (set_oauth_col p oid u) = set_oauth_col p oid u.
Proof. destruct p; reflexivity. Qed.

Lemma oauth_col_set (p : provider) (oid : option string) (u : Users.row) :
  oauth_col p (set_oauth_col p oid u) = oid.
Proof. destruct p; reflexivity. Qed.

Lemma oauth_col_set_other (p q : provider) (oid : option string) (u : Users.row) :
  q <> p -> oauth_col q (set_oauth_col p oid u) = oauth_col q u.
Proof. destruct p, q; intros Hq; try reflexivity; congruence. Qed.

Lemma fresh_not_next (s : Store) :
  identity_fresh s = true ->
  forallb (fun u => negb (Users.UserID u =? next_UserID s)) (t_users s) = true.
Proof.
  unfold identity_fresh. intros Hf. apply forallb_forall. intros u Hu.
  pose proof (proj1 (forallb_forall _ _) Hf u Hu) as Hlt. cbn beta in Hlt.
  apply Z.ltb_lt in Hlt. apply negb_true_iff. apply Z.eqb_neq. lia.
Qed.

Lemma logged_in_idem (uid : Z) (email role : option string)
    (ss : gmap string pyval) :
  logged_in uid email role (logged_in uid email role ss)
  = logged_in uid email role ss.
Proof.
  unfold logged_in. apply map_eq. intros k.
  destruct (decide (k = "role")) as [-> | Hr].
  { now rewrite !lookup_insert_eq. }
  rewrite !(lookup_insert_ne _ "role") by congruence.
  destruct (decide (k = "email")) as [-> | He].
  { now rewrite !lookup_insert_eq. }
  rewrite !(lookup_insert_ne _ "email") by congruence.
  destruct (decide (k = "user_id")) as [-> | Hu].
  { now rewrite !lookup_insert_eq. }
  repeat (rewrite lookup_insert_ne by congruence). reflexivity.
Qed.

Lemma logged_in_lookup (uid : Z) (email role : option string)
    (ss : gmap string pyval) :
  logged_in uid email role ss !! "user_id" = Some (PyInt uid) /\
  logged_in uid email role ss !! "email" = Some (of_opt_str email) /\
  logged_in uid email role ss !! "role" = Some (of_opt_str role).
Proof.
  unfold logged_in. split; [|split].
  - rewrite lookup_insert_ne by discriminate.
    rewrite lookup_insert_ne by discriminate. apply lookup_insert_eq.
  - rewrite lookup_insert_ne by discriminate. apply lookup_insert_eq.
  - apply lookup_insert_eq.
Qed.

Section OAuth.
Context `{Externals}.

Lemma login_then_validate (uid : Z) (email role : option string) (w : World) :
  (login_user (PyInt uid) (of_opt_str email) (of_opt_str role);;;
   validate_subscription uid;;; ret (Redirect "dashboard"))%handler w =
  (mkWorld (store w) (logged_in uid email role (session w)) (redis w) (now w)
     (utcnow w) (log w ++ Call "login_user" :: validate_log),
   gate_result uid (store w)).
Proof.
  erewrite bind_ok by apply login_user_run.
  unfold bind. rewrite validate_subscription_run. world_simpl.
  unfold gate_result, logged_in, ret. rewrite <- app_assoc.
  destruct (fetchone _) as [sub|]; [|reflexivity].
  destruct (bit_truthy _); reflexivity.
Qed.

Lemma oauth_callback_existing (p : provider) (args ud : gmap string string)
    (row : Users.row) (w : World) :
  str_truthy (args !! "code") = true ->
  oauth_exchange p (default "" (args !! "code")) = Ok ud ->
  fetchone (select_users_by_email (ud !! "email") (store w)) = Some row ->
  oauth_callback args (provider_name p) w =
  (mkWorld (link_store p (ud !! "id") row (store w))
     (logged_in (Users.UserID row) (ud !! "email") (Users.RoleType row) (session w))
     (redis w) (now w) (utcnow w)
     (log w ++ SqlExecute "SELECT * FROM Users WHERE Email=:em" ::
        link_log (str_truthy (oauth_col p row)) ++
        Call "login_user" :: validate_log),
   gate_result (Users.UserID row)
     (link_store p (ud !! "id") row (store w))).
Proof.
  intros Hc Hx Hrow. unfold oauth_callback.
  rewrite Hc, parse_provider_name. cbn [negb].
  erewrite bind_ok by (unfold lift; rewrite Hx; reflexivity).
  erewrite bind_ok by apply sql_select_run.
  rewrite Hrow. unfold link_store, link_log.
  destruct (str_truthy (oauth_col p row)); cbn [negb].
  - erewrite bind_ok by (erewrite bind_ok by reflexivity; reflexivity).
    cbv beta iota. rewrite login_then_validate. world_simpl. rewrite <- app_assoc. reflexivity.
  - erewrite bind_ok
      by (erewrite bind_ok
            by (erewrite bind_ok by apply sql_update_run; apply sql_commit_run);
          reflexivity).
    cbv beta iota. rewrite login_then_validate. world_simpl.
    repeat rewrite <- app_assoc. reflexivity.
Qed.

Lemma oauth_callback_new (p : provider) (args ud : gmap string string)
    (em : string) (w : World) :
  str_truthy (args !! "code") = true ->
  oauth_exchange p (default "" (args !! "code")) = Ok ud ->
  ud !! "email" = Some em ->
  fetchone (select_users_by_email (Some em) (store w)) = None ->
  let s := store w in
  let uid := next_UserID s in
  let row :=
    oauth_user_row uid (now w) p
      (str_or (ud !! "given_name") (str_or (ud !! "first_name") "OAuth"))
      (str_or (ud !! "family_name") (str_or (ud !! "last_name") "User"))
      em (ud !! "id") in
  let s1 :=
    mkStore (t_users s ++ [row]) (uid + 1) (t_consultants s)
      (t_subscriptions s) (next_SubscriptionID s) (t_events s) (t_payments s)
      (next_PaymentID s) in
  oauth_callback args (provider_name p) w =
  (mkWorld s1 (logged_in uid (Some em) (Some "Reader") (session w))
     (redis w) (now w) (utcnow w)
     (log w ++ [SqlExecute "SELECT * FROM Users WHERE Email=:em";
                SqlExecute "INSERT INTO Users"; SqlCommit;
                Call "login_user"] ++ validate_log),
   gate_result uid s1).
Proof.
  intros Hc Hx Hem Hrow. cbv zeta. unfold oauth_callback.
  rewrite Hc, parse_provider_name. cbn [negb].
  erewrite bind_ok by (unfold lift; rewrite Hx; reflexivity).
  erewrite bind_ok by apply sql_select_run.
  rewrite Hem, Hrow.
  erewrite bind_ok
    by (erewrite bind_ok by apply insert_user_run;
        erewrite bind_ok by apply sql_commit_run; reflexivity).
  cbv beta iota. rewrite login_then_validate. world_simpl.
  cbn [default from_option id]. repeat rewrite <- app_assoc. reflexivity.
Qed.

(** The state a first callback leaves: the user row of the email, already
    linked, so that linking it again changes nothing. *)
Lemma oauth_first_run (p : provider) (args ud : gmap string string)
    (em : string) (w : World) :
  str_truthy (args !! "code") = true ->
  oauth_exchange p (default "" (args !! "code")) = Ok ud ->
  ud !! "email" = Some em ->
  identity_fresh (store w) = true ->
  (count_email em (t_users (store w)) <= 1)%nat ->
  let run1 := oauth_callback args (provider_name p) w in
  exists u,
    fetchone (select_users_by_email (Some em) (store (fst run1))) = Some u /\
    link_store p (ud !! "id") u (store (fst run1)) = store (fst run1) /\
    session (fst run1) =
      logged_in (Users.UserID u) (Some em) (Users.RoleType u) (session w) /\
    snd run1 = gate_result (Users.UserID u) (store (fst run1)) /\
    count_email em (t_users (store (fst run1))) = 1%nat /\
    oauth_col p u =
      match fetchone (select_users_by_email (Some em) (store w)) with
      | Some u0 =>
          if str_truthy (oauth_col p u0) then oauth_col p u0 else ud !! "id"
      | None => ud !! "id"
      end /\
    (forall u0,
       fetchone (select_users_by_email (Some em) (store w)) = Some u0 ->
       Users.RoleType u = Users.RoleType u0 /\
       Users.UserID u = Users.UserID u0).
Proof.
  intros Hc Hx Hem Hfresh Hcount. cbv zeta.
  destruct (fetchone (select_users_by_email (Some em) (store w)))
    as [row|] eqn:Hrow.
  - rewrite (oauth_callback_existing p args ud row w Hc Hx)
      by (rewrite Hem; exact Hrow).
    world_simpl. rewrite Hem. unfold link_store.
    pose proof (count_email_found _ _ _ Hrow) as Hge.
    destruct (str_truthy (oauth_col p row)) eqn:Hcol.
    + exists row. split; [exact Hrow|]. rewrite Hcol.
      do 3 (split; [reflexivity|]). split; [lia|]. split; [reflexivity|].
      intros r Hr. injection Hr as <-. split; reflexivity.
    + exists (set_oauth_col p (ud !! "id") row).
      assert (Hpres : forall r, Users.Email (set_oauth_col p (ud !! "id") r)
                                = Users.Email r) by (intros r; destruct p; reflexivity).
      split.
      { unfold select_users_by_email. world_simpl.
        apply fetchone_users_update; auto. }
      split.
      { rewrite oauth_col_set.
        destruct (str_truthy (ud !! "id")); [reflexivity|].
        unfold with_users. world_simpl.
        replace (Users.UserID (set_oauth_col p (ud !! "id") row))
          with (Users.UserID row) by (destruct p; reflexivity).
        rewrite update_where_idem;
          [reflexivity | intros r; destruct p; reflexivity
          | apply set_oauth_col_idem]. }
      split; [destruct p; reflexivity|].
      split; [destruct p; reflexivity|].
      split.
      { unfold with_users. world_simpl.
        rewrite count_email_update by exact Hpres. lia. }
      split; [apply oauth_col_set|].
      intros r Hr. injection Hr as <-. split; destruct p; reflexivity.
  - rewrite (oauth_callback_new p args ud em w Hc Hx Hem Hrow). world_simpl.
    set (row := oauth_user_row _ _ _ _ _ _ _).
    assert (Habs : forall u, In u (t_users (store w)) -> Users.Email u <> em).
    { intros u Hu He.
      pose proof (proj1 (fetchone_filter_none _ _) Hrow u Hu) as Hf.
      cbn beta in Hf. apply String.eqb_neq in Hf. contradiction. }
    assert (Eem : Users.Email row = em) by (unfold row; destruct p; reflexivity).
    exists row. split.
    { unfold select_users_by_email, fetchone in *. world_simpl.
      rewrite List.filter_app.
      destruct (List.filter _ (t_users (store w))) eqn:Ef; [|discriminate].
      cbn [app List.filter]. rewrite Eem, String.eqb_refl. reflexivity. }
    split.
    { unfold link_store.
      destruct (str_truthy (oauth_col p row)); [reflexivity|].
      unfold with_users. world_simpl. f_equal.
      rewrite update_where_app.
      replace (Users.UserID row) with (next_UserID (store w))
        by (unfold row; destruct p; reflexivity).
      rewrite (update_where_none _ _ (t_users (store w)))
        by (apply fresh_not_next; exact Hfresh).
      unfold update_where. cbn [map].
      replace (set_oauth_col p (ud !! "id") row) with row
        by (unfold row, oauth_user_row; now rewrite set_oauth_col_idem).
      now destruct (Users.UserID row =? next_UserID (store w)). }
    split; [unfold row; destruct p; reflexivity|].
    split; [unfold row; destruct p; reflexivity|].
    split.
    { rewrite count_email_app, (count_email_absent _ _ Habs).
      unfold count_email. cbn [List.filter]. rewrite Eem, String.eqb_refl.
      reflexivity. }
    split; [unfold row, oauth_user_row; apply oauth_col_set|].
    intros r Hr. discriminate Hr.
Qed.

(** C2. The OAuth callback is idempotent: under the schema's IDENTITY
    and UNIQUE(Email) constraints, running it twice with the same provider,
    code and profile leaves, after the second run, the store, the session
    and the answer of the first run; exactly one user row has the email; its
    external-id column for the provider holds the value it already had when
    that was non-empty and the profile's id otherwise; its role and user id
    are those of the row found at the start, and the session carries that
    role. *)
Theorem oauth_callback_idempotent (p : provider) (args ud : gmap string string)
    (em : string) (w : World) :
  str_truthy (args !! "code") = true ->
  oauth_exchange p (default "" (args !! "code")) = Ok ud ->
  ud !! "email" = Some em ->
  identity_fresh (store w) = true ->
  (count_email em (t_users (store w)) <= 1)%nat ->
  let run1 := oauth_callback args (provider_name p) w in
  let run2 := oauth_callback args (provider_name p) (fst run1) in
  store (fst run2) = store (fst run1) /\
  session (fst run2) = session (fst run1) /\
  snd run2 = snd run1 /\
  count_email em (t_users (store (fst run2))) = 1%nat /\
  exists u,
    fetchone (select_users_by_email (Some em) (store (fst run2))) = Some u /\
    oauth_col p u =
      match fetchone (select_users_by_email (Some em) (store w)) with
      | Some u0 =>
          if str_truthy (oauth_col p u0) then oauth_col p u0 else ud !! "id"
      | None => ud !! "id"
      end /\
    (forall u0,
       fetchone (select_users_by_email (Some em) (store w)) = Some u0 ->
       Users.RoleType u = Users.RoleType u0 /\
       Users.UserID u = Users.UserID u0) /\
    session (fst run2) !! "role" = Some (of_opt_str (Users.RoleType u)).
Proof.
  intros Hc Hx Hem Hfresh Hcount. cbv zeta.
  destruct (oauth_first_run p args ud em w Hc Hx Hem Hfresh Hcount)
    as (u & Hu & Hlink & Hsess & Hres & Hcnt & Hcol & Hold).
  set (w1 := fst (oauth_callback args (provider_name p) w)) in *.
  rewrite (oauth_callback_existing p args ud u w1 Hc Hx)
    by (rewrite Hem; exact Hu).
  world_simpl. rewrite Hlink, Hem, Hsess, logged_in_idem.
  split; [reflexivity|]. split; [reflexivity|].
  split; [symmetry; exact Hres|]. split; [exact Hcnt|].
  exists u. split; [exact Hu|]. split; [exact Hcol|]. split; [exact Hold|].
  apply logged_in_lookup.
Qed.

(** C6. Order of the callback once the identity is resolved: the effects
    logged are the lookup and linking statements, none of them a helper
    call, then [login_user], then [validate_subscription] with its query;
    the answer is what the validation gives on the final store, the
    redirect to the dashboard or one of the two subscription errors, and in
    every case the session already holds the user id, email and role. *)
Theorem oauth_login_precedes_validation (p : provider)
    (args ud : gmap string string) (em : string) (w : World) :
  str_truthy (args !! "code") = true ->
  oauth_exchange p (default "" (args !! "code")) = Ok ud ->
  ud !! "email" = Some em ->
  let out := oauth_callback args (provider_name p) w in
  exists uid role pre,
    log (fst out) =
      (log w ++ pre ++
         [Call "login_user"; Call "validate_subscription";
          SqlExecute "SELECT * FROM Subscriptions WHERE UserID=:uid"])%list /\
    Forall (fun e => forall fn, e <> Call fn) pre /\
    session (fst out) !! "user_id" = Some (PyInt uid) /\
    session (fst out) !! "email" = Some (PyStr em) /\
    session (fst out) !! "role" = Some (of_opt_str role) /\
    snd out = snd ((validate_subscription uid;;;
                    ret (Redirect "dashboard"))%handler (fst out)) /\
    (snd out = Ok (Redirect "dashboard") \/
     snd out = Raise NoSubscriptionError \/
     snd out = Raise InactiveSubscriptionError).
Proof.
  intros Hc Hx Hem. cbv zeta.
  assert (Hgate : forall uid s,
             gate_result uid s = Ok (Redirect "dashboard") \/
             gate_result uid s = Raise NoSubscriptionError \/
             gate_result uid s = Raise InactiveSubscriptionError).
  { intros uid s. unfold gate_result. destruct (fetchone _) as [sub|]; auto.
    destruct (bit_truthy _); auto. }
  assert (Hval : forall uid w',
             snd ((validate_subscription uid;;; ret (Redirect "dashboard"))%handler w')
             = gate_result uid (store w')).
  { intros uid w'. unfold bind. rewrite validate_subscription_run.
    unfold gate_result, ret. destruct (fetchone _) as [sub|]; [|reflexivity].
    destruct (bit_truthy _); reflexivity. }
  destruct (fetchone (select_users_by_email (Some em) (store w)))
    as [row|] eqn:Hrow.
  - rewrite (oauth_callback_existing p args ud row w Hc Hx)
      by (rewrite Hem; exact Hrow).
    world_simpl. rewrite Hem.
    exists (Users.UserID row), (Users.RoleType row),
      (SqlExecute "SELECT * FROM Users WHERE Email=:em"
         :: link_log (str_truthy (oauth_col p row))).
    split.
    { reflexivity. }
    split.
    { unfold link_log. destruct (str_truthy (oauth_col p row)); no_call. }
    destruct (logged_in_lookup (Users.UserID row) (Some em) (Users.RoleType row)
                (session w)) as (H1 & H2 & H3).
    split; [exact H1|]. split; [exact H2|]. split; [exact H3|].
    split; [rewrite Hval; reflexivity | apply Hgate].
  - rewrite (oauth_callback_new p args ud em w Hc Hx Hem Hrow). world_simpl.
    exists (next_UserID (store w)), (Some "Reader"),
      [SqlExecute "SELECT * FROM Users WHERE Email=:em";
       SqlExecute "INSERT INTO Users"; SqlCommit].
    split; [reflexivity|].
    split; [no_call|].
    destruct (logged_in_lookup (next_UserID (store w)) (Some em) (Some "Reader")
                (session w)) as (H1 & H2 & H3).
    split; [exact H1|]. split; [exact H2|]. split; [exact H3|].
    split; [rewrite Hval; reflexivity | apply Hgate].
Qed.

(** C8, as amended. OAuth callback for an email no row of the Users table
    has: exactly one user row is appended, with the next IDENTITY value, the
    email, role Reader, the provider's external-id column set to the
    profile's id and the three other id columns empty, the literal Unknown
    in Address, City, StateProvince and Country and the literal 00000 in
    ZipCode; the session is established with that user id, the email and
    role Reader. *)
Theorem oauth_callback_creates_reader (p : provider)
    (args ud : gmap string string) (em : string) (w : World) :
  str_truthy (args !! "code") = true ->
  oauth_exchange p (default "" (args !! "code")) = Ok ud ->
  ud !! "email" = Some em ->
  (forall u, In u (t_users (store w)) -> Users.Email u <> em) ->
  let out := oauth_callback args (provider_name p) w in
  exists u,
    t_users (store (fst out)) = (t_users (store w) ++ [u])%list /\
    Users.UserID u = next_UserID (store w) /\
    Users.Email u = em /\
    Users.RoleType u = Some "Reader" /\
    oauth_col p u = ud !! "id" /\
    (forall q, q <> p -> oauth_col q u = None) /\
    Users.Address u = "Unknown" /\ Users.City u = "Unknown" /\
    Users.StateProvince u = "Unknown" /\ Users.Country u = "Unknown" /\
    Users.ZipCode u = "00000" /\
    session (fst out) !! "user_id" = Some (PyInt (Users.UserID u)) /\
    session (fst out) !! "email" = Some (PyStr em) /\
    session (fst out) !! "role" = Some (PyStr "Reader").
Proof.
  intros Hc Hx Hem Habs. cbv zeta.
  rewrite (oauth_callback_new p args ud em w Hc Hx Hem
             (select_email_absent em (store w) Habs)).
  world_simpl. eexists. split; [reflexivity|].
  unfold oauth_user_row.
  split; [destruct p; reflexivity|]. split; [destruct p; reflexivity|].
  split; [destruct p; reflexivity|]. split; [apply oauth_col_set|].
  split; [intros q Hq; rewrite oauth_col_set_other by exact Hq;
          destruct q; reflexivity|].
  do 5 (split; [destruct p; reflexivity|]).
  replace (Users.UserID (set_oauth_col p (ud !! "id") _))
    with (next_UserID (store w)) by (destruct p; reflexivity).
  apply (logged_in_lookup (next_UserID (store w)) (Some em) (Some "Reader")).
Qed.

End OAuth.

(** [oauth_callback_idempotent] at the sample data. *)
Lemma oauth_callback_idempotent_witness :
  let run1 := @oauth_callback sample_externals code_args "google" (sample_world ∅) in
  let run2 := @oauth_callback sample_externals code_args "google" (fst run1) in
  identity_fresh (store (sample_world ∅)) = true /\
  (count_email "ada@example.org" (t_users (store (sample_world ∅))) <= 1)%nat /\
  store (fst run2) = store (fst run1) /\
  count_email "ada@example.org" (t_users (store (fst run2))) = 1%nat.
Proof.
  cbv zeta.
  assert (Hc : str_truthy (code_args !! "code") = true) by (vm_compute; reflexivity).
  assert (Hx : @oauth_exchange sample_externals Google
                 (default "" (code_args !! "code")) = Ok sample_profile)
    by reflexivity.
  assert (Hem : sample_profile !! "email" = Some "ada@example.org")
    by (vm_compute; reflexivity).
  assert (Hf : identity_fresh (store (sample_world ∅)) = true)
    by (vm_compute; reflexivity).
  assert (Hn : (count_email "ada@example.org"
                  (t_users (store (sample_world ∅))) <= 1)%nat)
    by (vm_compute; lia).
  split; [exact Hf|]. split; [exact Hn|].
  destruct (@oauth_callback_idempotent sample_externals Google code_args
              sample_profile "ada@example.org" (sample_world ∅) Hc Hx Hem Hf Hn)
    as (Hs & _ & _ & Hcnt & _).
  split; [exact Hs | exact Hcnt].
Defined.

(** [oauth_login_precedes_validation] at the sample data. *)
Lemma oauth_login_precedes_validation_witness :
  let out := @oauth_callback sample_externals code_args "google" (sample_world ∅) in
  sample_profile !! "email" = Some "ada@example.org" /\
  exists uid, session (fst out) !! "user_id" = Some (PyInt uid).
Proof.
  cbv zeta.
  assert (Hc : str_truthy (code_args !! "code") = true) by (vm_compute; reflexivity).
  assert (Hx : @oauth_exchange sample_externals Google
                 (default "" (code_args !! "code")) = Ok sample_profile)
    by reflexivity.
  assert (Hem : sample_profile !! "email" = Some "ada@example.org")
    by (vm_compute; reflexivity).
  split; [exact Hem|].
  destruct (@oauth_login_precedes_validation sample_externals Google code_args
              sample_profile "ada@example.org" (sample_world ∅) Hc Hx Hem)
    as (uid & _ & _ & _ & _ & Hu & _).
  exists uid. exact Hu.
Defined.

(** [oauth_callback_creates_reader] at the sample data. *)
Lemma oauth_callback_creates_reader_witness :
  let out := @oauth_callback sample_externals code_args "microsoft" (sample_world ∅) in
  new_profile !! "email" = Some "grace@example.org" /\
  session (fst out) !! "role" = Some (PyStr "Reader") /\
  exists u, t_users (store (fst out)) = [ada; root; u] /\
            Users.microsoft_id u = Some "ms-77".
Proof.
  cbv zeta.
  assert (Hc : str_truthy (code_args !! "code") = true) by (vm_compute; reflexivity).
  assert (Hx : @oauth_exchange sample_externals Microsoft
                 (default "" (code_args !! "code")) = Ok new_profile)
    by reflexivity.
  assert (Hem : new_profile !! "email" = Some "grace@example.org")
    by (vm_compute; reflexivity).
  assert (Hid : new_profile !! "id" = Some "ms-77") by (vm_compute; reflexivity).
  split; [exact Hem|].
  destruct (@oauth_callback_creates_reader sample_externals Microsoft code_args
              new_profile "grace@example.org" (sample_world ∅) Hc Hx Hem)
    as (u & Hus & _ & _ & _ & Hcol & _ & _ & _ & _ & _ & _ & _ & _ & Hrole).
  { intros u [<- | [<- | []]]; discriminate. }
  split; [exact Hrole|]. exists u. split; [exact Hus|].
  rewrite <- Hid. exact Hcol.
Defined.

(** The row the callback creates for the sample profile holds ["Unknown"] in
    four of the five address columns and ["00000"], not ["Unknown"], in
    ZipCode. *)
Lemma unknown_zip_code_fails :
  let out := @oauth_callback sample_externals code_args "microsoft"
               (sample_world ∅) in
  exists u,
    t_users (store (fst out)) = [ada; root; u] /\
    Users.Email u = "grace@example.org" /\
    Users.Address u = "Unknown" /\ Users.City u = "Unknown" /\
    Users.StateProvince u = "Unknown" /\ Users.Country u = "Unknown" /\
    Users.ZipCode u = "00000" /\
    Users.ZipCode u <> "Unknown".
Proof.
  cbv zeta. eexists. split; [vm_compute; reflexivity|].
  repeat (split; [reflexivity|]). discriminate.
Qed.

(** ** Calendar export *)











Section Calendar.
Context `{Externals}.



End Calendar.


(** ** The list pages and their cache *)

Section Cache.
Context `{Externals}.

(** C10, what the code does instead. Each of the three list pages (home,
    events, consultants) builds the navigation bar before it looks at the
    cache: whatever the world, the request ends in the template error with
    the world unchanged. The cache is neither read nor filled (no effect is
    added to the log, and the cache after the request is the cache before),
    and no SELECT reaches the store, whether the key is cached or not. *)
Theorem list_pages_stop_at_the_navbar (e : endpoint) (w : World) :
  endpoint_handler e w = (w, Raise template_error).
Proof.
  destruct e; cbn [endpoint_handler];
    [apply home_run | apply list_events_run | apply list_consultants_run].
Qed.

End Cache.

(** ** What a route leaves alone *)

Section Preserves.
Variable P : World -> World -> Prop.
Hypothesis P_refl : forall w, P w w.
Hypothesis P_trans : forall a b c, P a b -> P b c -> P a c.

Lemma preserves_ret {A} (a : A) : preserves P (ret a).
Proof. intros w. apply P_refl. Qed.

Lemma preserves_raise {A} (e : exn) : preserves P (@raise A e).
Proof. intros w. apply P_refl. Qed.

Lemma preserves_lift {A} (r : result A) : preserves P (lift r).
Proof. intros w. apply P_refl. Qed.

Lemma preserves_get_world : preserves P get_world.
Proof. intros w. apply P_refl. Qed.

Lemma preserves_bind {A B} (m : M A) (k : A -> M B) :
  preserves P m -> (forall a, preserves P (k a)) -> preserves P (bind m k).
Proof.
  intros Hm Hk w. unfold bind. specialize (Hm w).
  destruct (m w) as [w1 [a|e]]; cbn [fst] in *; [|exact Hm].
  eapply P_trans; [exact Hm | apply Hk].
Qed.

Lemma preserves_mapM {A B} (f : A -> M B) (l : list A) :
  (forall x, preserves P (f x)) -> preserves P (mapM f l).
Proof.
  intros Hf. induction l as [|a l IH]; cbn [mapM]; [apply preserves_ret|].
  apply preserves_bind; [apply Hf|]. intros b.
  apply preserves_bind; [exact IH|]. intros bs. apply preserves_ret.
Qed.

Lemma preserves_filterM {A} (f : A -> M bool) (l : list A) :
  (forall x, preserves P (f x)) -> preserves P (filterM f l).
Proof.
  intros Hf. induction l as [|a l IH]; cbn [filterM]; [apply preserves_ret|].
  apply preserves_bind; [apply Hf|]. intros b.
  apply preserves_bind; [exact IH|]. intros bs. apply preserves_ret.
Qed.

Lemma preserves_check_required (form : gmap string string) (fields : list string) :
  preserves P (check_required form fields).
Proof.
  induction fields as [|f fs IH]; cbn [check_required]; [apply preserves_ret|].
  destruct (negb (str_truthy (form !! f))); [apply preserves_raise | exact IH].
Qed.

Lemma preserves_navbar : preserves P get_navbar_html.
Proof. intros w. rewrite navbar_raises. apply P_refl. Qed.

Context `{Externals}.

Lemma preserves_coerce (e : pyrow) : preserves P (coerce_event_time e).
Proof.
  unfold coerce_event_time.
  destruct (e !! "EventDateTime") as [[| | |s|]|];
    try apply preserves_ret; try apply preserves_raise.
  apply preserves_bind; [apply preserves_lift|]. intros d. apply preserves_ret.
Qed.

Lemma preserves_event_after (d : datetime) (e : pyrow) :
  preserves P (event_after d e).
Proof.
  unfold event_after.
  destruct (e !! "EventDateTime") as [[| | | |]|];
    try apply preserves_ret; apply preserves_raise.
Qed.

Lemma preserves_home_page (nav : navbar) (rows : list pyrow) :
  preserves P (home_page nav rows).
Proof.
  unfold home_page. apply preserves_bind; [apply preserves_get_world|].
  intros w. apply preserves_bind; [apply preserves_mapM, preserves_coerce|].
  intros evs.
  apply preserves_bind; [apply preserves_filterM; intros x; apply preserves_event_after|].
  intros up. apply preserves_ret.
Qed.

Lemma preserves_events_page (nav : navbar) (rows : list pyrow) :
  preserves P (events_page nav rows).
Proof.
  unfold events_page. apply preserves_bind; [apply preserves_get_world|].
  intros w. apply preserves_bind; [apply preserves_mapM, preserves_coerce|].
  intros evs.
  apply preserves_bind; [apply preserves_filterM; intros x; apply preserves_event_after|].
  intros up.
  apply preserves_bind.
  { apply preserves_filterM. intros x. unfold negM.
    apply preserves_bind; [apply preserves_event_after|]. intros b.
    apply preserves_ret. }
  intros pa. apply preserves_ret.
Qed.

Lemma preserves_consultants_page (nav : navbar) (rows : list pyrow) :
  preserves P (consultants_page nav rows).
Proof. apply preserves_ret. Qed.

Lemma preserves_plus_one_hour (v : pyval) : preserves P (plus_one_hour v).
Proof.
  destruct v; try apply preserves_raise. cbn [plus_one_hour].
  destruct (add_hours d 1); [apply preserves_ret | apply preserves_raise].
Qed.

Lemma preserves_strftime_val (v : pyval) : preserves P (strftime_val v).
Proof. destruct v; try apply preserves_raise. apply preserves_ret. Qed.

Lemma preserves_display_val (v : pyval) : preserves P (display_val v).
Proof. destruct v; try apply preserves_raise. apply preserves_ret. Qed.

End Preserves.

(** One step of a frame proof: the shape of the handler decides the rule. *)
Ltac pres_step :=
  first
    [ assumption
    | apply preserves_ret | apply preserves_raise | apply preserves_lift
    | apply preserves_get_world | apply preserves_navbar
    | apply preserves_check_required
    | apply preserves_home_page | apply preserves_events_page
    | apply preserves_consultants_page | apply preserves_coerce
    | apply preserves_plus_one_hour | apply preserves_strftime_val
    | apply preserves_display_val
    | match goal with
      | |- preserves _ (bind _ _) => apply preserves_bind; [assumption | | intros ?]
      | |- preserves _ (match ?x with _ => _ end) => destruct x
      end ].

Section Routes.
Variable P : World -> World -> Prop.
Variable ok : effect -> Prop.
Hypothesis P_refl : forall w, P w w.
Hypothesis P_trans : forall a b c, P a b -> P b c -> P a c.
Hypothesis P_emit : forall e w, ok e -> P w (with_log (log w ++ [e]) w).
Hypothesis P_store : forall s w, P w (with_store s w).
Hypothesis P_login : forall u e r w,
  P w (with_session
         (<["role" := r]> (<["email" := e]> (<["user_id" := u]> (session w)))) w).
Hypothesis P_logout : forall w, P w (with_session ∅ w).
Hypothesis P_redis : forall r w, P w (with_redis r w).
Hypothesis ok_sql : forall stmt, ok (SqlExecute stmt).
Hypothesis ok_commit : ok SqlCommit.
Hypothesis ok_get : forall key, ok (RedisGet key).
Hypothesis ok_setex : forall key ttl v, ok (RedisSetex key ttl v).
Hypothesis ok_login : ok (Call "login_user").
Hypothesis ok_logout : ok (Call "logout_user").
Hypothesis ok_validate : ok (Call "validate_subscription").

Lemma preserves_emit (e : effect) : ok e -> preserves P (emit e).
Proof. intros He w. apply P_emit, He. Qed.

Lemma preserves_sql_select {A} (stmt : string) (q : Store -> A) :
  preserves P (sql_select stmt q).
Proof. intros w. apply P_emit, ok_sql. Qed.

Lemma preserves_sql_commit : preserves P sql_commit.
Proof. intros w. apply P_emit, ok_commit. Qed.

Lemma preserves_sql_update (stmt : string) (f : Store -> Store) :
  preserves P (sql_update stmt f).
Proof.
  intros w. rewrite sql_update_run. cbn [fst].
  eapply P_trans; [apply P_emit, ok_sql | apply P_store].
Qed.

Lemma preserves_redis_get (key : string) : preserves P (redis_get key).
Proof. intros w. apply P_emit, ok_get. Qed.

Lemma preserves_redis_setex (key : string) (ttl : Z) (v : string) :
  preserves P (redis_setex key ttl v).
Proof.
  intros w. rewrite redis_setex_run. cbn [fst].
  eapply P_trans; [apply P_emit, ok_setex | apply P_redis].
Qed.

Lemma preserves_login_user (u e r : pyval) : preserves P (login_user u e r).
Proof.
  intros w. rewrite login_user_run. cbn [fst].
  eapply P_trans; [apply P_emit, ok_login|].
  apply (P_login u e r (with_log _ w)).
Qed.

Lemma preserves_logout_user : preserves P logout_user.
Proof.
  intros w.
  change (fst (logout_user w))
    with (with_session ∅ (with_log (log w ++ [Call "logout_user"]) w)).
  eapply P_trans; [apply P_emit, ok_logout | apply P_logout].
Qed.

Lemma preserves_insert_user (mkrow : Z -> datetime -> Users.row)
    (email : option string) : preserves P (insert_user mkrow email).
Proof.
  intros w. destruct email as [em|].
  - rewrite insert_user_run. cbn [fst]. cbv zeta.
    eapply P_trans; [apply (P_emit (SqlExecute "INSERT INTO Users")), ok_sql|].
    apply (P_store _ (with_log _ w)).
  - apply (P_emit (SqlExecute "INSERT INTO Users")), ok_sql.
Qed.

Lemma preserves_insert_free_subscription (uid : Z) :
  preserves P (insert_free_subscription uid).
Proof.
  intros w. rewrite insert_free_subscription_run. cbn [fst]. cbv zeta.
  eapply P_trans;
    [apply (P_emit (SqlExecute "INSERT INTO Subscriptions")), ok_sql|].
  apply (P_store _ (with_log _ w)).
Qed.

Lemma preserves_insert_payment (uid : option Z) :
  preserves P (insert_payment uid).
Proof.
  intros w. destruct uid as [u|].
  - change (fst (insert_payment (Some u) w))
      with (with_store
              (mkStore (t_users (store w)) (next_UserID (store w))
                 (t_consultants (store w)) (t_subscriptions (store w))
                 (next_SubscriptionID (store w)) (t_events (store w))
                 (t_payments (store w) ++
                    [Payments.mk (next_PaymentID (store w)) u (now w) 9999
                       "Completed" "PayPal"])
                 (next_PaymentID (store w) + 1))
              (with_log (log w ++ [SqlExecute "INSERT INTO Payments"]) w)).
    eapply P_trans; [apply P_emit, ok_sql | apply P_store].
  - apply (P_emit (SqlExecute "INSERT INTO Payments")), ok_sql.
Qed.

Lemma preserves_validate (uid : Z) : preserves P (validate_subscription uid).
Proof.
  intros w. rewrite validate_subscription_run. cbn [fst].
  change (with_log (log w ++ validate_log) w)
    with (with_log
            (log (with_log (log w ++ [Call "validate_subscription"]) w) ++
             [SqlExecute "SELECT * FROM Subscriptions WHERE UserID=:uid"])
            (with_log (log w ++ [Call "validate_subscription"]) w)) || idtac.
  unfold validate_log.
  replace (log w ++ [Call "validate_subscription";
                     SqlExecute "SELECT * FROM Subscriptions WHERE UserID=:uid"])%list
    with ((log w ++ [Call "validate_subscription"]) ++
          [SqlExecute "SELECT * FROM Subscriptions WHERE UserID=:uid"])%list
    by (rewrite <- app_assoc; reflexivity).
  eapply P_trans; [apply (P_emit (Call "validate_subscription")), ok_validate|].
  apply (P_emit (SqlExecute "SELECT * FROM Subscriptions WHERE UserID=:uid")
           (with_log _ w)), ok_sql.
Qed.

Ltac pres :=
  cbv zeta;
  repeat first
    [ pres_step
    | apply preserves_sql_select | apply preserves_sql_commit
    | apply preserves_sql_update | apply preserves_redis_get
    | apply preserves_redis_setex | apply preserves_login_user
    | apply preserves_logout_user | apply preserves_insert_user
    | apply preserves_insert_free_subscription | apply preserves_insert_payment
    | apply preserves_validate
    | apply preserves_emit; solve [auto] ].

Context `{Externals}.

Lemma preserves_home : preserves P home.
Proof. unfold home. pres. Qed.

Lemma preserves_list_events : preserves P list_events.
Proof. unfold list_events. pres. Qed.

Lemma preserves_list_consultants : preserves P list_consultants.
Proof. unfold list_consultants. pres. Qed.

Lemma preserves_login : preserves P login.
Proof. unfold login. pres. Qed.

Lemma preserves_oauth_login `{AuthorizeUrls} (provider : string) :
  preserves P (oauth_login provider).
Proof. unfold oauth_login. pres. Qed.

Lemma preserves_oauth_callback (args : gmap string string) (provider : string) :
  preserves P (oauth_callback args provider).
Proof. unfold oauth_callback. pres. Qed.

Lemma preserves_register (post : bool) (form : gmap string string) :
  preserves P (register post form).
Proof. unfold register. pres. Qed.

Lemma preserves_do_logout : preserves P do_logout.
Proof. unfold do_logout. pres. Qed.

Lemma preserves_dashboard : preserves P dashboard.
Proof. unfold dashboard. pres. Qed.

Lemma preserves_my_subscription (post : bool) (form : gmap string string) :
  preserves P (my_subscription post form).
Proof. unfold my_subscription. pres. Qed.

Lemma preserves_my_subscription_get (form : gmap string string) :
  preserves P (my_subscription false form).
Proof. unfold my_subscription. pres. Qed.

Lemma preserves_event_details (event_id : Z) :
  preserves P (event_details event_id).
Proof. unfold event_details. pres. Qed.

Lemma preserves_event_ics (event_id : Z) : preserves P (event_ics event_id).
Proof. unfold event_ics. pres. Qed.

Lemma preserves_admin_portal : preserves P admin_portal.
Proof. unfold admin_portal. pres. Qed.

Lemma preserves_admin_list_users : preserves P admin_list_users.
Proof. unfold admin_list_users. pres. Qed.

Lemma preserves_admin_subscriptions (post : bool) (form : gmap string string) :
  preserves P (admin_subscriptions post form).
Proof. unfold admin_subscriptions. pres. Qed.

End Routes.

(** *** The relations the routes are checked against *)

Lemma agree_refl {X} (f : World -> X) (w : World) : agree f w w.
Proof. reflexivity. Qed.

Lemma agree_trans {X} (f : World -> X) (a b c : World) :
  agree f a b -> agree f b c -> agree f a c.
Proof. unfold agree. congruence. Qed.

Lemma logged_only_refl (ok : effect -> Prop) (w : World) : logged_only ok w w.
Proof. exists []. split; [now rewrite app_nil_r | constructor]. Qed.

Lemma logged_only_trans (ok : effect -> Prop) (a b c : World) :
  logged_only ok a b -> logged_only ok b c -> logged_only ok a c.
Proof.
  intros (l1 & E1 & F1) (l2 & E2 & F2). exists (l1 ++ l2)%list. split.
  - now rewrite E2, E1, <- app_assoc.
  - apply Forall_app; split; assumption.
Qed.

Lemma logged_only_emit (ok : effect -> Prop) (e : effect) (w : World) :
  ok e -> logged_only ok w (with_log (log w ++ [e]) w).
Proof. intros He. exists [e]. split; [reflexivity | now constructor]. Qed.

Lemma logged_only_same_log (ok : effect -> Prop) (w w' : World) :
  log w' = log w -> logged_only ok w w'.
Proof. intros E. exists []. split; [now rewrite app_nil_r | constructor]. Qed.

(** The frame of the route a request is handled by; a route that stops at
    the navigation bar needs fewer of the rules. *)
Ltac use L P ok := first [ apply (L P ok) | apply (L P) ].

Ltac frame P ok :=
  first
    [ use preserves_home P ok | use preserves_login P ok
    | use preserves_oauth_login P ok | use preserves_oauth_callback P ok
    | use preserves_register P ok | use preserves_do_logout P ok
    | use preserves_dashboard P ok
    | use preserves_my_subscription_get P ok
    | use preserves_my_subscription P ok
    | use preserves_list_consultants P ok | use preserves_list_events P ok
    | use preserves_event_details P ok | use preserves_event_ics P ok
    | use preserves_admin_portal P ok | use preserves_admin_list_users P ok
    | use preserves_admin_subscriptions P ok ].

Section Requests.
Context `{Externals} `{AuthorizeUrls}.

Lemma handle_store_frame (r : request) :
  is_write_route r = false -> preserves (agree store) (handle r).
Proof.
  intros Hr.
  destruct r as [| | | | [] ?| | |[] ?| | | | | | |[] ?]; try discriminate Hr;
    cbn [handle]; frame (agree store) (fun _ : effect => True);
    first [ exact (agree_refl _) | exact (agree_trans _)
          | intros; exact I | intros; reflexivity ].
Qed.

Lemma handle_redis_frame (r : request) :
  is_list_route r = false -> preserves (agree redis) (handle r).
Proof.
  intros Hr.
  destruct r; try discriminate Hr;
    cbn [handle]; frame (agree redis) (fun _ : effect => True);
    first [ exact (agree_refl _) | exact (agree_trans _)
          | intros; exact I | intros; reflexivity ].
Qed.

Lemma handle_session_frame (r : request) :
  is_session_route r = false -> preserves (agree session) (handle r).
Proof.
  intros Hr.
  destruct r as [| | | | [] ?| | | | | | | | | |]; try discriminate Hr;
    cbn [handle]; frame (agree session) (fun _ : effect => True);
    first [ exact (agree_refl _) | exact (agree_trans _)
          | intros; exact I | intros; reflexivity ].
Qed.

Lemma handle_gate_frame (r : request) :
  is_callback r = false ->
  preserves (logged_only (fun e => e <> Call "validate_subscription"))
    (handle r).
Proof.
  intros Hr.
  destruct r; try discriminate Hr; cbn [handle];
    frame (logged_only (fun e => e <> Call "validate_subscription"))
          (fun e => e <> Call "validate_subscription");
    first [ exact (logged_only_refl _) | exact (logged_only_trans _)
          | intros; apply logged_only_emit; assumption
          | intros; apply logged_only_same_log; reflexivity
          | intros; discriminate ].
Qed.

End Requests.

Lemma logged_in_wf (u e r : pyval) (ss : gmap string pyval) :
  session_wf (<["role" := r]> (<["email" := e]> (<["user_id" := u]> ss))) = true.
Proof.
  unfold session_wf, current_user.
  rewrite (lookup_insert_ne _ "role" "user_id") by discriminate.
  rewrite (lookup_insert_ne _ "email" "user_id") by discriminate.
  rewrite lookup_insert_eq.
  rewrite (lookup_insert_ne _ "role" "email") by discriminate.
  rewrite lookup_insert_eq. reflexivity.
Qed.

Section Invariants.
Context `{Externals} `{AuthorizeUrls}.

Lemma handle_session_wf (r : request) : preserves keeps_session_wf (handle r).
Proof.
  assert (Hrefl : forall w, keeps_session_wf w w) by (intros w Hw; exact Hw).
  assert (Htrans : forall a b c, keeps_session_wf a b -> keeps_session_wf b c ->
                                 keeps_session_wf a c)
    by (unfold keeps_session_wf; auto).
  destruct r; cbn [handle]; frame keeps_session_wf (fun _ : effect => True);
    first [ exact Hrefl | exact Htrans | intros; exact I
          | intros; intros Hw; exact Hw
          | intros; intros _; apply logged_in_wf
          | intros; intros _; reflexivity ].
Qed.

End Invariants.

(** ** Frames of the requests *)

Section RequestFrames.
Context `{Externals} `{AuthorizeUrls}.

(** X1: a request that is neither the OAuth callback nor the POST of the
    registration, subscription or admin-subscription form leaves every table
    and every IDENTITY counter of the store as it found them. *)
Theorem read_requests_leave_store (r : request) (w : World) :
  is_write_route r = false -> store (fst (handle r w)) = store w.
Proof. intros Hr. exact (handle_store_frame r Hr w). Qed.

(** X2: no request other than the three list pages (home, events,
    consultants) writes to the cache; every other request leaves all keys as
    they were. *)
Theorem only_list_requests_write_cache (r : request) (w : World) :
  is_list_route r = false -> redis (fst (handle r w)) = redis w.
Proof. intros Hr. exact (handle_redis_frame r Hr w). Qed.

(** X3: no request other than the OAuth callback, a registration POST and
    logout writes the session; no other request changes who is logged in. *)
Theorem session_written_only_by_login_logout (r : request) (w : World) :
  is_session_route r = false -> session (fst (handle r w)) = session w.
Proof. intros Hr. exact (handle_session_frame r Hr w). Qed.

(** X4: the subscription gate is consulted by the OAuth callback only: no
    other request, the dashboard and the subscription page included, ever
    calls [validate_subscription]; a request only appends to the log. *)
Theorem gate_checked_only_by_callback (r : request) (w : World) :
  is_callback r = false ->
  exists l,
    log (fst (handle r w)) = (log w ++ l)%list /\
    Forall (fun e => e <> Call "validate_subscription") l.
Proof. intros Hr. exact (handle_gate_frame r Hr w). Qed.

(** X5: a session that [current_user()] reads without raising is still such
    a session after any request: [login_user] writes the three keys together
    and [logout_user] removes them together. *)
Theorem session_stays_well_formed (r : request) (w : World) :
  session_wf (session w) = true ->
  session_wf (session (fst (handle r w))) = true.
Proof. exact (handle_session_wf r w). Qed.

End RequestFrames.

(** [read_requests_leave_store] at the sample data. *)
Lemma read_requests_leave_store_witness :
  is_write_route GetAdminUsers = false /\
  store (fst (@handle sample_externals sample_urls GetAdminUsers
                (sample_world root_session))) = sample_store.
Proof.
  split; [reflexivity|].
  apply (@read_requests_leave_store sample_externals sample_urls GetAdminUsers
           (sample_world root_session)).
  reflexivity.
Defined.

(** [only_list_requests_write_cache] at the sample data. *)
Lemma only_list_requests_write_cache_witness :
  is_list_route (GetEventIcs 7) = false /\
  redis (fst (@handle sample_externals sample_urls (GetEventIcs 7) cached_world))
  = redis cached_world.
Proof.
  split; [reflexivity|].
  apply (@only_list_requests_write_cache sample_externals sample_urls).
  reflexivity.
Defined.

(** [session_written_only_by_login_logout] at the sample data. *)
Lemma session_written_only_by_login_logout_witness :
  is_session_route (MySubscription true (action_form "upgrade")) = false /\
  session (fst (@handle sample_externals sample_urls
                  (MySubscription true (action_form "upgrade"))
                  (sample_world ada_session))) = ada_session.
Proof.
  split; [reflexivity|].
  apply (@session_written_only_by_login_logout sample_externals sample_urls
           (MySubscription true (action_form "upgrade"))
           (sample_world ada_session)).
  reflexivity.
Defined.

(** [gate_checked_only_by_callback] at the sample data. *)
Lemma gate_checked_only_by_callback_witness :
  is_callback GetDashboard = false /\
  exists l,
    log (fst (@handle sample_externals sample_urls GetDashboard lapsed_world))
    = (log lapsed_world ++ l)%list /\
    Forall (fun e => e <> Call "validate_subscription") l.
Proof.
  split; [reflexivity|].
  apply (@gate_checked_only_by_callback sample_externals sample_urls).
  reflexivity.
Defined.

(** [session_stays_well_formed] at the sample data. *)
Lemma session_stays_well_formed_witness :
  session_wf (session (sample_world ada_session)) = true /\
  session_wf
    (session (fst (@handle sample_externals sample_urls GetLogout
                     (sample_world ada_session)))) = true.
Proof.
  assert (Hwf : session_wf (session (sample_world ada_session)) = true)
    by (vm_compute; reflexivity).
  split; [exact Hwf|].
  exact (@session_stays_well_formed sample_externals sample_urls GetLogout
           (sample_world ada_session) Hwf).
Defined.

(** ** Sessions and access control *)

Lemma current_user_anonymous (ss : gmap string pyval) :
  ss !! "user_id" = None -> current_user ss = Ok None.
Proof. unfold current_user. now intros ->. Qed.

Lemma user_is_admin_anonymous (ss : gmap string pyval) :
  ss !! "user_id" = None -> user_is_admin ss = Ok false.
Proof. intros Hs. unfold user_is_admin. now rewrite current_user_anonymous. Qed.

Lemma dashboard_anonymous (w : World) :
  session w !! "user_id" = None -> dashboard w = (w, Ok (Redirect "login")).
Proof.
  intros Hs. unfold dashboard, bind, get_world, lift.
  now rewrite (current_user_anonymous _ Hs).
Qed.

Lemma admin_portal_denied (w : World) :
  user_is_admin (session w) = Ok false ->
  admin_portal w = (w, Raise (ValueError "Unauthorized access.")).
Proof. intros Ha. unfold admin_portal, bind, get_world, lift. now rewrite Ha. Qed.

Lemma admin_list_users_denied (w : World) :
  user_is_admin (session w) = Ok false ->
  admin_list_users w = (w, Raise (ValueError "Unauthorized access.")).
Proof. intros Ha. unfold admin_list_users, bind, get_world, lift. now rewrite Ha. Qed.

Section Access.
Context `{Externals} `{AuthorizeUrls}.

Lemma my_subscription_anonymous (post : bool) (form : gmap string string)
    (w : World) :
  session w !! "user_id" = None ->
  my_subscription post form w = (w, Ok (Redirect "login")).
Proof.
  intros Hs. unfold my_subscription, bind, get_world, lift.
  now rewrite (current_user_anonymous _ Hs).
Qed.

Lemma admin_subscriptions_denied (post : bool) (form : gmap string string)
    (w : World) :
  user_is_admin (session w) = Ok false ->
  admin_subscriptions post form w =
  (w, Raise (ValueError "Unauthorized access.")).
Proof.
  intros Ha. unfold admin_subscriptions, bind, get_world, lift. now rewrite Ha.
Qed.

(** X6: [login_user] followed by [current_user] and [user_is_admin]: the
    three values come back as written, whatever session was there before,
    and the user is an administrator exactly when the role written is the
    string Admin. Store and cache are not touched. *)
Theorem login_user_round_trip (uid email role : pyval) (w : World) :
  let w' := fst (login_user uid email role w) in
  current_user (session w') =
    Ok (Some (<["user_id" := uid]> (<["email" := email]>
                (<["role" := role]> ∅)))) /\
  user_is_admin (session w') = Ok (pyval_is_str role "Admin") /\
  store w' = store w /\ redis w' = redis w.
Proof.
  cbv zeta. rewrite login_user_run. world_simpl.
  assert (Hcu : current_user
                  (<["role" := role]> (<["email" := email]>
                     (<["user_id" := uid]> (session w)))) =
                Ok (Some (<["user_id" := uid]> (<["email" := email]>
                            (<["role" := role]> ∅))))).
  { unfold current_user.
    rewrite (lookup_insert_ne _ "role" "user_id") by discriminate.
    rewrite (lookup_insert_ne _ "email" "user_id") by discriminate.
    rewrite lookup_insert_eq.
    rewrite (lookup_insert_ne _ "role" "email") by discriminate.
    rewrite !lookup_insert_eq. reflexivity. }
  split; [exact Hcu|]. split; [|split; reflexivity].
  unfold user_is_admin. rewrite Hcu.
  rewrite (lookup_insert_ne _ "user_id" "role") by discriminate.
  rewrite (lookup_insert_ne _ "email" "role") by discriminate.
  rewrite lookup_insert_eq. reflexivity.
Qed.

(** X7: after [/logout] the session is empty, so the dashboard and the
    subscription page redirect to the login page and the three admin routes
    raise the unauthorized error, each without any further effect. *)
Theorem logout_ends_access (post : bool) (form : gmap string string)
    (w : World) :
  let w' := fst (do_logout w) in
  snd (do_logout w) = Ok (Redirect "home") /\
  session w' = ∅ /\ store w' = store w /\
  dashboard w' = (w', Ok (Redirect "login")) /\
  my_subscription post form w' = (w', Ok (Redirect "login")) /\
  admin_portal w' = (w', Raise (ValueError "Unauthorized access.")) /\
  admin_list_users w' = (w', Raise (ValueError "Unauthorized access.")) /\
  admin_subscriptions post form w' =
    (w', Raise (ValueError "Unauthorized access.")).
Proof.
  cbv zeta.
  set (w' := fst (do_logout w)).
  assert (Hs : session w' = ∅) by reflexivity.
  assert (Hu : session w' !! "user_id" = None) by (rewrite Hs; apply lookup_empty).
  split; [reflexivity|]. split; [exact Hs|]. split; [reflexivity|].
  split; [apply dashboard_anonymous, Hu|].
  split; [apply my_subscription_anonymous, Hu|].
  split; [apply admin_portal_denied, user_is_admin_anonymous, Hu|].
  split; [apply admin_list_users_denied, user_is_admin_anonymous, Hu|].
  apply admin_subscriptions_denied, user_is_admin_anonymous, Hu.
Qed.

(** X8: an admin route asked for by anyone who is not an administrator
    (anonymous or with another role) is answered by the generic error page
    with status 500 and the text of the unauthorized error; the world is
    left as it was, no statement reaches the store or the cache. *)
Theorem admin_requests_need_admin_role (r : request) (w : World) :
  is_admin_route r = true ->
  user_is_admin (session w) = Ok false ->
  serve r w = (w, ErrorPage "Unauthorized access." 500).
Proof.
  intros Hr Ha. unfold serve.
  destruct r; try discriminate Hr; cbn [handle].
  - now rewrite (admin_portal_denied w Ha).
  - now rewrite (admin_list_users_denied w Ha).
  - now rewrite (admin_subscriptions_denied post form w Ha).
Qed.

End Access.

(** [admin_requests_need_admin_role] at the sample data. *)
Lemma admin_requests_need_admin_role_witness :
  is_admin_route (AdminSubscriptions true (admin_form "1" "refund")) = true /\
  user_is_admin (session (sample_world ada_session)) = Ok false /\
  @serve sample_externals sample_urls
    (AdminSubscriptions true (admin_form "1" "refund"))
    (sample_world ada_session)
  = (sample_world ada_session, ErrorPage "Unauthorized access." 500).
Proof.
  assert (Ha : user_is_admin (session (sample_world ada_session)) = Ok false)
    by (vm_compute; reflexivity).
  split; [reflexivity|]. split; [exact Ha|].
  exact (@admin_requests_need_admin_role sample_externals sample_urls
           (AdminSubscriptions true (admin_form "1" "refund"))
           (sample_world ada_session) eq_refl Ha).
Defined.

(** ** Every request is at most one write *)

Lemma bind_cases {A B} (m : M A) (k : A -> M B) (w : World)
    (Q : World * result B -> Prop) :
  (forall w1 a, m w = (w1, Ok a) -> Q (k a w1)) ->
  (forall w1 e, m w = (w1, Raise e) -> Q (w1, Raise e)) ->
  Q (bind m k w).
Proof. unfold bind. destruct (m w) as [w1 [a|e]]; auto. Qed.

Lemma bind_assoc {A B C} (m : M A) (k1 : A -> M B) (k2 : B -> M C) (w : World) :
  bind (bind m k1) k2 w = bind m (fun a => bind (k1 a) k2) w.
Proof. unfold bind. destruct (m w) as [w1 [a|e]]; reflexivity. Qed.

Lemma lift_run {A} (r r' : result A) (w w1 : World) :
  lift r w = (w1, r') -> w1 = w /\ r' = r.
Proof. unfold lift. intros [= <- <-]. auto. Qed.

Lemma insert_payment_run (u : Z) (w : World) :
  insert_payment (Some u) w =
  (with_store (add_payment u (now w) (store w))
     (with_log (log w ++ [SqlExecute "INSERT INTO Payments"]) w), Ok tt).
Proof. reflexivity. Qed.

Lemma one_write_none (r : request) (w w' : World) (x : result response) :
  store w' = store w -> one_write r (now w) (store w) (w', x).
Proof.
  intros E. exists WNone. split; [reflexivity|]. cbn [fst]. rewrite E.
  constructor.
Qed.

Section OneWrite.
Context `{Externals} `{AuthorizeUrls}.

Lemma one_write_frame (r : request) (w : World) :
  is_write_route r = false -> one_write r (now w) (store w) (handle r w).
Proof.
  intros Hr. pose proof (handle_store_frame r Hr w) as Hs. unfold agree in Hs.
  destruct (handle r w) as [w' x]. apply one_write_none. exact Hs.
Qed.

Lemma parse_provider_inv (name : string) (p : provider) :
  parse_provider name = Some p -> name = provider_name p.
Proof.
  unfold parse_provider.
  destruct (String.eqb_spec name "google") as [->|_]; [now intros [= <-]|].
  destruct (String.eqb_spec name "microsoft") as [->|_]; [now intros [= <-]|].
  destruct (String.eqb_spec name "facebook") as [->|_]; [now intros [= <-]|].
  destruct (String.eqb_spec name "x") as [->|_]; [now intros [= <-]|].
  discriminate.
Qed.

(** A profile without an email: the INSERT fails on the NOT NULL column and
    nothing is written. *)
Lemma oauth_callback_no_email (p : provider) (args ud : gmap string string)
    (w : World) :
  str_truthy (args !! "code") = true ->
  oauth_exchange p (default "" (args !! "code")) = Ok ud ->
  ud !! "email" = None ->
  oauth_callback args (provider_name p) w =
  (with_log
     (log w ++ [SqlExecute "SELECT * FROM Users WHERE Email=:em";
                SqlExecute "INSERT INTO Users"]) w,
   Raise (DBAPIError "Cannot insert the value NULL into column 'Email'")).
Proof.
  intros Hc Hx Hem. unfold oauth_callback.
  rewrite Hc, parse_provider_name. cbn [negb].
  erewrite bind_ok by (unfold lift; rewrite Hx; reflexivity).
  erewrite bind_ok by apply sql_select_run.
  rewrite Hem. cbn [select_users_by_email fetchone head].
  erewrite bind_raise; [reflexivity|].
  erewrite bind_raise; [reflexivity|].
  unfold insert_user. erewrite bind_ok by apply emit_run.
  unfold raise. world_simpl. rewrite <- app_assoc. reflexivity.
Qed.

Lemma oauth_callback_one_write (provider : string) (args : gmap string string)
    (w : World) :
  one_write (GetOAuthCallback provider args) (now w) (store w)
    (oauth_callback args provider w).
Proof.
  destruct (str_truthy (args !! "code")) eqn:Hc.
  2:{ unfold oauth_callback. rewrite Hc. now apply one_write_none. }
  destruct (parse_provider provider) as [p|] eqn:Hp.
  2:{ unfold oauth_callback. rewrite Hc, Hp. now apply one_write_none. }
  apply parse_provider_inv in Hp. subst provider.
  destruct (oauth_exchange p (default "" (args !! "code"))) as [ud|e] eqn:Hx.
  2:{ unfold oauth_callback. rewrite Hc, parse_provider_name. cbn [negb].
      erewrite bind_raise by (unfold lift; rewrite Hx; reflexivity).
      now apply one_write_none. }
  destruct (fetchone (select_users_by_email (ud !! "email") (store w)))
    as [row|] eqn:Hrow.
  - rewrite (oauth_callback_existing p args ud row w Hc Hx Hrow).
    unfold link_store.
    destruct (str_truthy (oauth_col p row)) eqn:Hcol.
    + now apply one_write_none.
    + exists WOAuthLink. split; [reflexivity|].
      exact (StepOAuthLink (now w) (store w) p (ud !! "id") (ud !! "email") row
               Hrow Hcol).
  - destruct (ud !! "email") as [em|] eqn:Hem.
    + rewrite (oauth_callback_new p args ud em w Hc Hx Hem Hrow).
      exists WOAuthNew. split; [reflexivity|].
      exact (StepOAuthNew (now w) (store w) p _ _ em (ud !! "id") Hrow).
    + rewrite (oauth_callback_no_email p args ud w Hc Hx Hem).
      now apply one_write_none.
Qed.

Lemma my_subscription_one_write (form : gmap string string) (w : World) :
  one_write (MySubscription true form) (now w) (store w)
    (my_subscription true form w).
Proof.
  unfold my_subscription.
  erewrite bind_ok by reflexivity.
  apply bind_cases; intros w1 cu Hcu; apply lift_run in Hcu as [-> Hcu];
    [|now apply one_write_none].
  destruct cu as [u|]; [|now apply one_write_none].
  cbv zeta.
  apply bind_cases; intros w1 u_param Hu; apply lift_run in Hu as [-> Hu];
    [|now apply one_write_none].
  erewrite bind_ok by apply sql_select_run. world_simpl.
  destruct (fetchone _) as [sub|] eqn:Hsub; [|now apply one_write_none].
  destruct u_param as [u0|]; [|discriminate Hsub].
  destruct (opt_is (form !! "action") "upgrade") eqn:Hup.
  - rewrite bind_assoc.
    erewrite bind_ok by apply insert_payment_run.
    erewrite bind_ok by apply sql_update_run.
    erewrite bind_ok by apply sql_commit_run.
    exists WUpgrade. split; [exact Hup|].
    exact (StepUpgrade (now w) (store w) u0 sub Hsub).
  - destruct (opt_is (form !! "action") "cancel") eqn:Hca.
    + erewrite bind_ok by apply sql_update_run.
      erewrite bind_ok by apply sql_commit_run.
      exists WCancel. split; [exact Hca|].
      exact (StepCancel (now w) (store w) u0 sub Hsub).
    + erewrite bind_ok by reflexivity.
      erewrite bind_ok by apply sql_commit_run.
      now apply one_write_none.
Qed.

(** Every request changes the store by at most one of the writes, and only
    by one its route can make. *)
Lemma handle_one_write (r : request) (w : World) :
  one_write r (now w) (store w) (handle r w).
Proof.
  destruct (is_write_route r) eqn:Hr; [|now apply one_write_frame].
  destruct r as [| | | | [] ?| | |[] ?| | | | | | |[] ?]; try discriminate Hr;
    cbn [handle].
  - apply oauth_callback_one_write.
  - rewrite register_run. now apply one_write_none.
  - apply my_subscription_one_write.
  - rewrite admin_subscriptions_run. now apply one_write_none.
Qed.

End OneWrite.

(** ** What the writes keep *)

Lemma map_update_where_key {A K} (key : A -> K) (cond : A -> bool)
    (f : A -> A) (l : list A) :
  (forall r, key (f r) = key r) ->
  map key (update_where cond f l) = map key l.
Proof.
  intros Hf. unfold update_where. rewrite map_map. apply map_ext.
  intros r. destruct (cond r); [apply Hf | reflexivity].
Qed.

Lemma forget_set_oauth_col (p : provider) (oid : option string) (u : Users.row) :
  forget_provider_ids (set_oauth_col p oid u) = forget_provider_ids u.
Proof. destruct p; reflexivity. Qed.

Lemma step_users (n : datetime) (s s' : Store) (k : write) :
  store_step n s k s' ->
  exists l,
    map forget_provider_ids (t_users s') =
      (map forget_provider_ids (t_users s) ++ l)%list /\
    (length l <= 1)%nat /\
    Forall (fun u => Users.RoleType u = Some "Reader") l.
Proof.
  intros Hs. destruct Hs; world_simpl;
    cbn [add_user add_payment update_subscription
         link_provider t_users with_users with_subscriptions];
    try (exists []; split; [now rewrite app_nil_r | split; [cbn; lia | constructor]]).
  - rewrite map_app. eexists. split; [reflexivity|].
    split; [cbn; lia|]. constructor; [destruct p; reflexivity | constructor].
  - exists []. split; [|split; [cbn; lia | constructor]]. rewrite app_nil_r.
    apply map_update_where_key. intros r. apply forget_set_oauth_col.
Qed.

Lemma select_subscriptions_empty (uid : Z) (s : Store) :
  select_subscriptions_by_user (Some uid) s = [] <->
  ~ In uid (map Subscriptions.UserID (t_subscriptions s)).
Proof.
  unfold select_subscriptions_by_user.
  induction (t_subscriptions s) as [|a l IH]; cbn [List.filter map In].
  - split; [intros _ [] | reflexivity].
  - destruct (Z.eqb_spec (Subscriptions.UserID a) uid) as [E|E].
    + split; [discriminate | intros Hn; exfalso; apply Hn; now left].
    + rewrite IH. split; [intros Hn [?|?]; [contradiction | now apply Hn]|].
      intros Hn Hin. apply Hn. now right.
Qed.

Lemma step_no_subscription (n : datetime) (s s' : Store) (k : write) (uid : Z) :
  store_step n s k s' ->
  uid < next_UserID s ->
  select_subscriptions_by_user (Some uid) s = [] ->
  select_subscriptions_by_user (Some uid) s' = [].
Proof.
  intros Hs Hlt. rewrite !select_subscriptions_empty. intros Hno.
  destruct Hs;
    cbn [add_user add_payment update_subscription
         link_provider t_subscriptions with_users with_subscriptions];
    try exact Hno;
    try (rewrite (map_update_where_key Subscriptions.UserID)
           by (intros r; reflexivity); exact Hno).
Qed.

Lemma step_subscriptions (n : datetime) (s s' : Store) (k : write) :
  store_step n s k s' ->
  exists l,
    map subscription_key (t_subscriptions s') =
      (map subscription_key (t_subscriptions s) ++ l)%list /\
    (length l <= 1)%nat.
Proof.
  intros Hs. destruct Hs; world_simpl;
    cbn [add_user add_payment update_subscription
         link_provider t_subscriptions with_users with_subscriptions];
    try (exists []; split; [now rewrite app_nil_r | cbn; lia]);
    try (exists []; split; [|cbn; lia]; rewrite app_nil_r;
         apply map_update_where_key; intros r; reflexivity).
Qed.

Lemma step_catalog (n : datetime) (s s' : Store) (k : write) :
  store_step n s k s' ->
  t_events s' = t_events s /\ t_consultants s' = t_consultants s.
Proof. intros Hs. destruct Hs; split; reflexivity. Qed.

Lemma step_payments (n : datetime) (s s' : Store) (k : write) :
  store_step n s k s' ->
  (k <> WUpgrade /\ t_payments s' = t_payments s) \/
  (k = WUpgrade /\
   exists p, t_payments s' = (t_payments s ++ [p])%list /\ upgrade_payment s n p).
Proof.
  intros Hs. destruct Hs; try (left; split; [discriminate | reflexivity]).
  right. split; [reflexivity|]. eexists. split; [reflexivity|].
  repeat split.
Qed.

(** *** The constraints *)

Lemma forallb_Forall_map {A} (key : A -> Z) (b : Z) (l : list A) :
  forallb (fun r => key r <? b) l = true <-> Forall (fun x => x < b) (map key l).
Proof.
  rewrite forallb_forall, List.Forall_forall. split.
  - intros Hl x Hx. apply in_map_iff in Hx as (r & <- & Hr).
    apply Z.ltb_lt, Hl, Hr.
  - intros Hl r Hr. apply Z.ltb_lt, Hl, in_map, Hr.
Qed.

Lemma store_ok_spec (s : Store) : store_ok s = true <-> store_constraints s.
Proof.
  unfold store_ok, store_constraints.
  rewrite !andb_true_iff, !forallb_Forall_map.
  rewrite !(distinct_NoDup Z.eqb) by (intros; apply Z.eqb_eq).
  rewrite (distinct_NoDup String.eqb) by (intros; apply String.eqb_eq).
  tauto.
Qed.

Lemma NoDup_snoc {A} (l : list A) (x : A) :
  List.NoDup l -> ~ In x l -> List.NoDup (l ++ [x]).
Proof.
  induction l as [|a l IH]; cbn [app]; intros Hl Hx.
  - constructor; [intros [] | constructor].
  - inversion Hl as [|? ? Ha Hl']; subst. constructor.
    + rewrite in_app_iff. intros [Hin | [<- | []]]; [contradiction|].
      apply Hx. now left.
    + apply IH; [exact Hl'|]. intros Hin. apply Hx. now right.
Qed.

Lemma Forall_lt_snoc (l : list Z) (b : Z) :
  Forall (fun x => x < b) l -> Forall (fun x => x < b + 1) (l ++ [b]).
Proof.
  intros Hl. apply Forall_app. split.
  - eapply List.Forall_impl; [|exact Hl]. intros x Hx. cbn beta in *. lia.
  - constructor; [lia | constructor].
Qed.

Lemma Forall_lt_weaken (l : list Z) (b : Z) :
  Forall (fun x => x < b) l -> Forall (fun x => x < b + 1) l.
Proof. apply List.Forall_impl. intros x Hx. lia. Qed.

Lemma Forall_lt_fresh (l : list Z) (b : Z) :
  Forall (fun x => x < b) l -> ~ In b l.
Proof.
  intros Hl Hin. rewrite List.Forall_forall in Hl. specialize (Hl b Hin). lia.
Qed.

Lemma email_absent (em : string) (s : Store) :
  fetchone (select_users_by_email (Some em) s) = None ->
  ~ In em (map Users.Email (t_users s)).
Proof.
  intros Hf Hin. apply in_map_iff in Hin as (u & He & Hu).
  pose proof (proj1 (fetchone_filter_none _ _) Hf u Hu) as Hn. cbn beta in Hn.
  rewrite He, String.eqb_refl in Hn. discriminate.
Qed.

Lemma add_user_constraints (u : Users.row) (s : Store) :
  store_constraints s ->
  Users.UserID u = next_UserID s ->
  ~ In (Users.Email u) (map Users.Email (t_users s)) ->
  store_constraints (add_user u s).
Proof.
  intros (H1 & H2 & H3 & H4 & H5 & H6 & H7 & H8 & H9) Hid Hem.
  unfold store_constraints, add_user. world_simpl. rewrite !map_app.
  cbn [map]. rewrite Hid.
  split; [now apply Forall_lt_snoc|].
  split; [apply NoDup_snoc; [exact H2 | now apply Forall_lt_fresh]|].
  split; [now apply NoDup_snoc|].
  split; [exact H4|]. split; [exact H5|].
  split; [now apply Forall_lt_weaken|].
  split; [exact H7|]. split; assumption.
Qed.

Lemma add_payment_constraints (u : Z) (n : datetime) (s : Store) :
  store_constraints s -> store_constraints (add_payment u n s).
Proof.
  intros (H1 & H2 & H3 & H4 & H5 & H6 & H7 & H8 & H9).
  unfold store_constraints, add_payment. world_simpl.
  rewrite !map_app. cbn [map Payments.PaymentID].
  do 7 (split; [assumption|]).
  split; [now apply Forall_lt_snoc|].
  apply NoDup_snoc; [exact H9 | now apply Forall_lt_fresh].
Qed.

Lemma update_subscription_constraints (sid : Z)
    (f : Subscriptions.row -> Subscriptions.row) (s : Store) :
  (forall r, Subscriptions.SubscriptionID (f r) = Subscriptions.SubscriptionID r) ->
  (forall r, Subscriptions.UserID (f r) = Subscriptions.UserID r) ->
  store_constraints s -> store_constraints (update_subscription sid f s).
Proof.
  intros Hf1 Hf2 Hs. unfold store_constraints, update_subscription in *.
  world_simpl.
  rewrite (map_update_where_key Subscriptions.SubscriptionID) by exact Hf1.
  rewrite (map_update_where_key Subscriptions.UserID) by exact Hf2.
  exact Hs.
Qed.

Lemma link_provider_constraints (p : provider) (oid : option string) (uid : Z)
    (s : Store) :
  store_constraints s -> store_constraints (link_provider p oid uid s).
Proof.
  intros Hs. unfold store_constraints, link_provider in *. world_simpl.
  rewrite (map_update_where_key Users.UserID)
    by (intros r; destruct p; reflexivity).
  rewrite (map_update_where_key Users.Email)
    by (intros r; destruct p; reflexivity).
  exact Hs.
Qed.

Lemma step_constraints (n : datetime) (s s' : Store) (k : write) :
  store_step n s k s' -> store_constraints s -> store_constraints s'.
Proof.
  intros Hstep Hs. destruct Hstep.
  - exact Hs.
  - apply add_user_constraints; [exact Hs | destruct p; reflexivity|].
    replace (Users.Email (oauth_user_row _ _ _ _ _ em _)) with em
      by (destruct p; reflexivity).
    now apply email_absent.
  - now apply link_provider_constraints.
  - apply update_subscription_constraints; try (intros r; reflexivity).
    now apply add_payment_constraints.
  - apply update_subscription_constraints; try (intros r; reflexivity). exact Hs.
Qed.

(** ** The subscription transitions *)

Lemma Forall2_refl_rel {A} (R : A -> A -> Prop) (l : list A) :
  (forall r, R r r) -> Forall2 R l l.
Proof. intros HR. induction l; constructor; auto. Qed.

Lemma Forall2_update_where {A} (cond : A -> bool) (f : A -> A)
    (R : A -> A -> Prop) (l : list A) :
  (forall r, R r r) -> (forall r, R r (f r)) ->
  Forall2 R l (update_where cond f l).
Proof.
  intros Hr Hf. unfold update_where.
  induction l as [|a l IH]; cbn [map]; constructor; auto.
  destruct (cond a); auto.
Qed.

Section Transitions.
Context `{Externals} `{AuthorizeUrls}.

(** C5, as amended. For each of the five transition requests (upgrade,
    cancel, and the admin form with activate, deactivate or refund),
    whatever the world and the subscription id sent, the Subscriptions table
    after the request has the rows of the table before, in the same order,
    and every row keeps its id, its owner, its start date and its
    transaction id. A row whose level is Paid still has level Paid: no
    transition moves a subscription back to Free. Only the upgrade changes a
    level: a row it rewrites gets level Paid, amount 99.99 and the active
    flag set, so for the upgrade the level changes along with amount and
    active flag. Cancel keeps level and amount, and a row it rewrites has
    the active flag cleared. *)
Theorem subscription_transitions_frame (t : transition) (sid : string)
    (w : World) :
  let subs := t_subscriptions (store w) in
  let subs' := t_subscriptions (store (fst (run_transition t sid w))) in
  Forall2
    (fun r r' =>
       Subscriptions.SubscriptionID r' = Subscriptions.SubscriptionID r /\
       Subscriptions.UserID r' = Subscriptions.UserID r /\
       Subscriptions.SubscriptionStartDate r' =
         Subscriptions.SubscriptionStartDate r /\
       Subscriptions.PayPalTransactionID r' =
         Subscriptions.PayPalTransactionID r /\
       (Subscriptions.SubscriptionLevel r = Some "Paid" ->
        Subscriptions.SubscriptionLevel r' = Some "Paid") /\
       (t <> Upgrade ->
        Subscriptions.SubscriptionLevel r' = Subscriptions.SubscriptionLevel r) /\
       (t = Upgrade ->
        r' = r \/
        (Subscriptions.SubscriptionLevel r' = Some "Paid" /\
         Subscriptions.Amount r' = Some 9999 /\
         Subscriptions.IsActive r' = Some true)) /\
       (t = Cancel ->
        Subscriptions.Amount r' = Subscriptions.Amount r /\
        (r' = r \/ Subscriptions.IsActive r' = Some false)))
    subs subs'.
Proof.
  cbv zeta.
  assert (Hsame : forall w', store w' = store w ->
            Forall2
              (fun r r' =>
                 Subscriptions.SubscriptionID r' = Subscriptions.SubscriptionID r /\
                 Subscriptions.UserID r' = Subscriptions.UserID r /\
                 Subscriptions.SubscriptionStartDate r' =
                   Subscriptions.SubscriptionStartDate r /\
                 Subscriptions.PayPalTransactionID r' =
                   Subscriptions.PayPalTransactionID r /\
                 (Subscriptions.SubscriptionLevel r = Some "Paid" ->
                  Subscriptions.SubscriptionLevel r' = Some "Paid") /\
                 (t <> Upgrade ->
                  Subscriptions.SubscriptionLevel r' =
                    Subscriptions.SubscriptionLevel r) /\
                 (t = Upgrade ->
                  r' = r \/
                  (Subscriptions.SubscriptionLevel r' = Some "Paid" /\
                   Subscriptions.Amount r' = Some 9999 /\
                   Subscriptions.IsActive r' = Some true)) /\
                 (t = Cancel ->
                  Subscriptions.Amount r' = Subscriptions.Amount r /\
                  (r' = r \/ Subscriptions.IsActive r' = Some false)))
              (t_subscriptions (store w)) (t_subscriptions (store w'))).
  { intros w' ->. apply Forall2_refl_rel. intros r. repeat split; auto. }
  destruct t; cbn [run_transition];
    try (rewrite admin_subscriptions_run; now apply Hsame).
  - destruct (my_subscription_one_write (action_form "upgrade") w)
      as (k & Hk & Hstep).
    destruct Hstep; try discriminate Hk.
    + now apply Hsame.
    + cbn [update_subscription add_payment with_subscriptions t_subscriptions].
      apply Forall2_update_where.
      * intros r. repeat split; auto.
      * intros r. repeat split; cbn; auto; try congruence.
  - destruct (my_subscription_one_write (action_form "cancel") w)
      as (k & Hk & Hstep).
    destruct Hstep; try discriminate Hk.
    + now apply Hsame.
    + cbn [update_subscription with_subscriptions t_subscriptions].
      apply Forall2_update_where.
      * intros r. repeat split; auto.
      * intros r. repeat split; cbn; auto; try congruence.
Qed.

End Transitions.

(** The upgrade of the sample subscription changes its level: the rows
    before and after do not agree outside amount and active flag. *)
Lemma only_amount_active_change_fails :
  t_subscriptions (store (sample_world ada_session)) = [ada_sub] /\
  t_subscriptions
    (store (fst (@run_transition sample_externals Upgrade "1"
                   (sample_world ada_session)))) = [set_paid ada_sub] /\
  Subscriptions.SubscriptionLevel ada_sub = Some "Free" /\
  Subscriptions.SubscriptionLevel (set_paid ada_sub) = Some "Paid" /\
  ~ Forall2 same_but_amount_active
      (t_subscriptions (store (sample_world ada_session)))
      (t_subscriptions
         (store (fst (@run_transition sample_externals Upgrade "1"
                        (sample_world ada_session))))).
Proof.
  assert (E : t_subscriptions
         (store (fst (@run_transition sample_externals Upgrade "1"
                        (sample_world ada_session)))) = [set_paid ada_sub])
    by (vm_compute; reflexivity).
  split; [reflexivity|]. split; [exact E|].
  split; [reflexivity|]. split; [reflexivity|].
  intros HF. rewrite E in HF. inversion HF as [|? ? ? ? Hh _]; subst.
  destruct Hh as (_ & _ & Hl & _). discriminate Hl.
Qed.

(** ** Invariants of the store *)

Lemma in_update_where {A} (cond : A -> bool) (f : A -> A) (l : list A) (a : A) :
  In a l -> In (if cond a then f a else a) (update_where cond f l).
Proof.
  intros Ha. unfold update_where.
  exact (in_map (fun r => if cond r then f r else r) l a Ha).
Qed.

Lemma step_linked (n : datetime) (s s' : Store) (k : write) (u : Users.row)
    (q : provider) :
  store_step n s k s' ->
  List.NoDup (map Users.UserID (t_users s)) ->
  In u (t_users s) -> str_truthy (oauth_col q u) = true ->
  exists u', In u' (t_users s') /\
    forget_provider_ids u' = forget_provider_ids u /\
    oauth_col q u' = oauth_col q u.
Proof.
  intros Hstep Hnd Hu Hq.
  destruct Hstep;
    try (exists u; split; [|split; reflexivity];
         cbn [add_user add_payment update_subscription
              t_users with_subscriptions];
         first [ exact Hu | apply in_or_app; left; exact Hu ]).
  cbn [link_provider with_users t_users].
  exists (if Users.UserID u =? Users.UserID row then set_oauth_col p oid u else u).
  split; [apply (in_update_where (fun r => Users.UserID r =? Users.UserID row)), Hu|].
  destruct (Z.eqb_spec (Users.UserID u) (Users.UserID row)) as [E|E];
    [|split; reflexivity].
  split; [apply forget_set_oauth_col|].
  assert (Hrow : In row (t_users s)).
  { destruct em as [em|]; [|discriminate].
    now apply fetchone_filter_some in H as [Hin _]. }
  pose proof (NoDup_map_eq Users.UserID _ u row Hnd Hu Hrow E) as ->.
  destruct p, q; try reflexivity; congruence.
Qed.

Section StoreInvariants.
Context `{Externals} `{AuthorizeUrls}.

(** X9: no request deletes a user or a subscription, and none changes a
    column of an existing row other than the provider ids of a user and the
    level, amount and active flag of a subscription: ids, email, role, owner
    and start date stay. At most one row of each table is added, and a user
    added has the role Reader: no request makes an administrator. *)
Theorem rows_are_never_deleted (r : request) (w : World) :
  let s := store w in
  let s' := store (fst (handle r w)) in
  (exists l,
     map forget_provider_ids (t_users s') =
       (map forget_provider_ids (t_users s) ++ l)%list /\
     (length l <= 1)%nat /\
     Forall (fun u => Users.RoleType u = Some "Reader") l) /\
  (exists l,
     map subscription_key (t_subscriptions s') =
       (map subscription_key (t_subscriptions s) ++ l)%list /\
     (length l <= 1)%nat).
Proof.
  cbv zeta. destruct (handle_one_write r w) as (k & _ & Hstep).
  split; [exact (step_users _ _ _ _ Hstep) | exact (step_subscriptions _ _ _ _ Hstep)].
Qed.

(** X10: the events and the consultants are read-only: no request, whatever
    its form data and session, changes either table. *)
Theorem events_and_consultants_are_read_only (r : request) (w : World) :
  t_events (store (fst (handle r w))) = t_events (store w) /\
  t_consultants (store (fst (handle r w))) = t_consultants (store w).
Proof.
  destruct (handle_one_write r w) as (k & _ & Hstep).
  exact (step_catalog _ _ _ _ Hstep).
Qed.

(** X11: the payments are an append-only ledger: a request leaves the table
    as it is, unless it is the POST of the subscription form with action
    upgrade, which appends one row of amount 99.99, status Completed and
    method PayPal under the next payment id. *)
Theorem payments_are_append_only (r : request) (w : World) :
  let s := store w in
  let s' := store (fst (handle r w)) in
  t_payments s' = t_payments s \/
  exists form p,
    r = MySubscription true form /\
    opt_is (form !! "action") "upgrade" = true /\
    t_payments s' = (t_payments s ++ [p])%list /\
    upgrade_payment s (now w) p.
Proof.
  cbv zeta. destruct (handle_one_write r w) as (k & Hk & Hstep).
  destruct (step_payments _ _ _ _ Hstep) as [[_ Hsame] | [-> (p & Hp & Hup)]];
    [left; exact Hsame|].
  right.
  destruct r as [| | | | | | |[] form| | | | | | |]; try discriminate Hk.
  exists form, p. auto.
Qed.

(** X12: the key constraints survive every request: ids stay below their
    IDENTITY counters and distinct, emails stay distinct (the INSERTs are
    preceded by the lookup of the email), and a user never gets a second
    subscription. *)
Theorem requests_keep_store_ok (r : request) (w : World) :
  store_ok (store w) = true ->
  store_ok (store (fst (handle r w))) = true.
Proof.
  intros Hok. apply store_ok_spec. apply store_ok_spec in Hok.
  destruct (handle_one_write r w) as (k & _ & Hstep).
  exact (step_constraints _ _ _ _ Hstep Hok).
Qed.

(** X13: a provider id on file is never replaced: whatever the request, and
    whatever id the provider reports, a user whose column for a provider is
    set keeps that value. *)
Theorem linked_provider_id_is_kept (r : request) (w : World) (u : Users.row)
    (p : provider) :
  store_ok (store w) = true ->
  In u (t_users (store w)) ->
  str_truthy (oauth_col p u) = true ->
  exists u',
    In u' (t_users (store (fst (handle r w)))) /\
    forget_provider_ids u' = forget_provider_ids u /\
    oauth_col p u' = oauth_col p u.
Proof.
  intros Hok Hu Hp. apply store_ok_spec in Hok.
  destruct Hok as (_ & Hnd & _).
  destruct (handle_one_write r w) as (k & _ & Hstep).
  exact (step_linked _ _ _ _ u p Hstep Hnd Hu Hp).
Qed.

(** X14: a user without a subscription never gets one: no request
    reaches an INSERT into Subscriptions, so for an id already handed out
    the query of the gate stays empty after any request. *)
Theorem no_subscription_for_an_existing_user (r : request) (w : World)
    (uid : Z) :
  uid < next_UserID (store w) ->
  select_subscriptions_by_user (Some uid) (store w) = [] ->
  select_subscriptions_by_user (Some uid) (store (fst (handle r w))) = [].
Proof.
  intros Hlt Hno. destruct (handle_one_write r w) as (k & _ & Hstep).
  exact (step_no_subscription _ _ _ _ uid Hstep Hlt Hno).
Qed.

End StoreInvariants.

(** [requests_keep_store_ok] at the sample data: a callback that creates a
    user. *)
Lemma requests_keep_store_ok_witness :
  store_ok (store (sample_world ∅)) = true /\
  store_ok
    (store (fst (@handle sample_externals sample_urls
                   (GetOAuthCallback "microsoft" code_args) (sample_world ∅)))) = true.
Proof.
  assert (Hok : store_ok (store (sample_world ∅)) = true)
    by (vm_compute; reflexivity).
  split; [exact Hok|].
  exact (@requests_keep_store_ok sample_externals sample_urls
           (GetOAuthCallback "microsoft" code_args) (sample_world ∅) Hok).
Defined.

(** [linked_provider_id_is_kept] at the sample data: the provider reports
    another id for the email, the one on file stays. *)
Lemma linked_provider_id_is_kept_witness :
  store_ok (store linked_world) = true /\
  In ada_linked (t_users (store linked_world)) /\
  str_truthy (oauth_col Google ada_linked) = true /\
  exists u',
    In u' (t_users (store (fst (@handle sample_externals sample_urls
                                  (GetOAuthCallback "google" code_args)
                                  linked_world)))) /\
    forget_provider_ids u' = forget_provider_ids ada_linked /\
    oauth_col Google u' = Some "g-old".
Proof.
  assert (Hok : store_ok (store linked_world) = true)
    by (vm_compute; reflexivity).
  assert (Hin : In ada_linked (t_users (store linked_world)))
    by (left; reflexivity).
  assert (Hp : str_truthy (oauth_col Google ada_linked) = true)
    by (vm_compute; reflexivity).
  split; [exact Hok|]. split; [exact Hin|]. split; [exact Hp|].
  exact (@linked_provider_id_is_kept sample_externals sample_urls
           (GetOAuthCallback "google" code_args) linked_world ada_linked Google
           Hok Hin Hp).
Defined.

(** [no_subscription_for_an_existing_user] at the sample data: the
    administrator has no subscription and an upgrade request does not give
    one. *)
Lemma no_subscription_for_an_existing_user_witness :
  2 < next_UserID (store (sample_world root_session)) /\
  select_subscriptions_by_user (Some 2) (store (sample_world root_session)) = [] /\
  select_subscriptions_by_user (Some 2)
    (store (fst (@handle sample_externals sample_urls
                   (MySubscription true (action_form "upgrade"))
                   (sample_world root_session)))) = [].
Proof.
  assert (Hlt : 2 < next_UserID (store (sample_world root_session)))
    by (vm_compute; reflexivity).
  assert (Hno : select_subscriptions_by_user (Some 2)
                  (store (sample_world root_session)) = [])
    by (vm_compute; reflexivity).
  split; [exact Hlt|]. split; [exact Hno|].
  exact (@no_subscription_for_an_existing_user sample_externals sample_urls
           (MySubscription true (action_form "upgrade"))
           (sample_world root_session) 2 Hlt Hno).
Defined.

(** ** The OAuth routes *)

Lemma fetchone_email_snoc (em : string) (l : list Users.row) (row : Users.row) :
  fetchone (List.filter (fun u => String.eqb (Users.Email u) em) l) = None ->
  Users.Email row = em ->
  fetchone (List.filter (fun u => String.eqb (Users.Email u) em) (l ++ [row]))
  = Some row.
Proof.
  intros Hno He. unfold fetchone in *. rewrite List.filter_app.
  destruct (List.filter _ l); [|discriminate].
  cbn [app List.filter]. rewrite He, String.eqb_refl. reflexivity.
Qed.

Lemma gate_no_subscription (uid : Z) (s : Store) :
  Forall (fun x => x < uid) (map Subscriptions.UserID (t_subscriptions s)) ->
  gate_result uid s = Raise NoSubscriptionError.
Proof.
  intros Hlt. unfold gate_result.
  replace (fetchone (select_subscriptions_by_user (Some uid) s))
    with (@None Subscriptions.row); [reflexivity|].
  symmetry. apply fetchone_filter_none. intros r Hr. cbn beta.
  rewrite List.Forall_forall in Hlt.
  specialize (Hlt _ (in_map Subscriptions.UserID _ _ Hr)).
  apply Z.eqb_neq. lia.
Qed.

Lemma current_user_after_login (uid : Z) (email role : option string)
    (ss : gmap string pyval) :
  current_user (logged_in uid email role ss) =
  Ok (Some (<["user_id" := PyInt uid]> (<["email" := of_opt_str email]>
              (<["role" := of_opt_str role]> ∅)))).
Proof.
  destruct (logged_in_lookup uid email role ss) as (H1 & H2 & H3).
  unfold current_user. rewrite H1, H2, H3. reflexivity.
Qed.

Section OAuthRoutes.
Context `{Externals} `{AuthorizeUrls}.

(** X15: the callback checks its own arguments before it talks to anyone:
    without a code, or with a provider name that is not one of the four, it
    raises a [ValueError] before any effect, leaving the world as it was;
    the missing code is reported first. *)
Theorem callback_rejects_before_exchange (args : gmap string string)
    (provider : string) (w : World) :
  str_truthy (args !! "code") = false \/ parse_provider provider = None ->
  oauth_callback args provider w =
  (w, Raise (ValueError
               (if str_truthy (args !! "code")
                then "Unsupported provider: " +:+ provider
                else "Missing OAuth code"))).
Proof.
  intros Hb. unfold oauth_callback.
  destruct (str_truthy (args !! "code")) eqn:Hc; cbn [negb]; [|reflexivity].
  destruct Hb as [Hb|Hp]; [discriminate|]. now rewrite Hp.
Qed.

(** X16: when the provider refuses the code, the error of the exchange is
    the error of the request, and the world is as before: no statement was
    sent to the store and nobody was logged in. *)
Theorem failed_exchange_changes_nothing (p : provider)
    (args : gmap string string) (e : exn) (w : World) :
  str_truthy (args !! "code") = true ->
  oauth_exchange p (default "" (args !! "code")) = Raise e ->
  oauth_callback args (provider_name p) w = (w, Raise e).
Proof.
  intros Hc Hx. unfold oauth_callback.
  rewrite Hc, parse_provider_name. cbn [negb].
  erewrite bind_raise by (unfold lift; rewrite Hx; reflexivity). reflexivity.
Qed.


(** X18: two providers that report the same email are merged into one
    user: after a first login through one provider and a second through
    another, the store has a single new row, which carries both ids. *)
Theorem providers_merge_by_email (p1 p2 : provider)
    (args1 args2 ud1 ud2 : gmap string string) (em : string) (w : World) :
  p1 <> p2 ->
  str_truthy (args1 !! "code") = true ->
  str_truthy (args2 !! "code") = true ->
  oauth_exchange p1 (default "" (args1 !! "code")) = Ok ud1 ->
  oauth_exchange p2 (default "" (args2 !! "code")) = Ok ud2 ->
  ud1 !! "email" = Some em -> ud2 !! "email" = Some em ->
  fetchone (select_users_by_email (Some em) (store w)) = None ->
  identity_fresh (store w) = true ->
  let w1 := fst (oauth_callback args1 (provider_name p1) w) in
  let w2 := fst (oauth_callback args2 (provider_name p2) w1) in
  exists u,
    t_users (store w2) = (t_users (store w) ++ [u])%list /\
    Users.UserID u = next_UserID (store w) /\
    Users.Email u = em /\
    oauth_col p1 u = ud1 !! "id" /\ oauth_col p2 u = ud2 !! "id" /\
    session w2 !! "user_id" = Some (PyInt (Users.UserID u)).
Proof.
  intros Hne Hc1 Hc2 Hx1 Hx2 He1 He2 Hno Hfresh. cbv zeta.
  rewrite (oauth_callback_new p1 args1 ud1 em w Hc1 Hx1 He1 Hno). cbn [fst].
  set (row := oauth_user_row (next_UserID (store w)) (now w) p1
                (str_or (ud1 !! "given_name") (str_or (ud1 !! "first_name") "OAuth"))
                (str_or (ud1 !! "family_name") (str_or (ud1 !! "last_name") "User"))
                em (ud1 !! "id")).
  set (w1 := mkWorld _ _ _ _ _ _).
  assert (Hid : Users.UserID row = next_UserID (store w))
    by (unfold row; destruct p1; reflexivity).
  assert (Hem : Users.Email row = em) by (unfold row; destruct p1; reflexivity).
  assert (Hrow : fetchone (select_users_by_email (ud2 !! "email") (store w1))
                 = Some row).
  { rewrite He2. unfold w1, select_users_by_email. world_simpl.
    apply fetchone_email_snoc; assumption. }
  assert (Hcol : str_truthy (oauth_col p2 row) = false).
  { unfold row, oauth_user_row. rewrite oauth_col_set_other by congruence.
    destruct p2; reflexivity. }
  rewrite (oauth_callback_existing p2 args2 ud2 row w1 Hc2 Hx2 Hrow).
  unfold link_store. rewrite Hcol. world_simpl.
  exists (set_oauth_col p2 (ud2 !! "id") row).
  split.
  { unfold w1. world_simpl. rewrite update_where_app, Hid.
    rewrite (update_where_none _ _ (t_users (store w)))
      by (apply fresh_not_next; exact Hfresh).
    unfold update_where. cbn [map]. now rewrite Hid, Z.eqb_refl. }
  split; [rewrite <- Hid; destruct p2; reflexivity|].
  split; [rewrite <- Hem; destruct p2; reflexivity|].
  split.
  { rewrite oauth_col_set_other by exact Hne. unfold row, oauth_user_row.
    apply oauth_col_set. }
  split; [apply oauth_col_set|].
  replace (Users.UserID (set_oauth_col p2 (ud2 !! "id") row))
    with (Users.UserID row) by (destruct p2; reflexivity).
  apply (logged_in_lookup (Users.UserID row) (ud2 !! "email") (Users.RoleType row)).
Qed.

(** X19: a first OAuth login of an unknown email never gets through the
    gate: the row is created without a subscription, so the callback ends in
    the no-subscription error. The user is logged in all the same: the
    dashboard, which does not ask the gate, no longer sends that session to
    the login page; it goes on to the navigation bar and ends in the
    template error. *)
Theorem new_oauth_user_fails_the_gate (p : provider)
    (args ud : gmap string string) (em : string) (w : World) :
  str_truthy (args !! "code") = true ->
  oauth_exchange p (default "" (args !! "code")) = Ok ud ->
  ud !! "email" = Some em ->
  fetchone (select_users_by_email (Some em) (store w)) = None ->
  store_ok (store w) = true ->
  let out := oauth_callback args (provider_name p) w in
  snd out = Raise NoSubscriptionError /\
  session (fst out) !! "user_id" = Some (PyInt (next_UserID (store w))) /\
  t_subscriptions (store (fst out)) = t_subscriptions (store w) /\
  dashboard (fst out) = (fst out, Raise template_error).
Proof.
  intros Hc Hx Hem Hno Hok. cbv zeta.
  apply store_ok_spec in Hok. destruct Hok as (_ & _ & _ & _ & _ & Hsub & _).
  rewrite (oauth_callback_new p args ud em w Hc Hx Hem Hno). world_simpl.
  split; [apply gate_no_subscription; exact Hsub|].
  split; [apply (logged_in_lookup (next_UserID (store w)) (Some em) (Some "Reader"))|].
  split; [reflexivity|].
  set (w1 := mkWorld _ _ _ _ _ _).
  rewrite dashboard_run.
  replace (current_user (session w1))
    with (current_user (logged_in (next_UserID (store w)) (Some em)
                          (Some "Reader") (session w))) by reflexivity.
  rewrite current_user_after_login. reflexivity.
Qed.

End OAuthRoutes.

(** [callback_rejects_before_exchange] at the sample data: no code and an
    unknown provider, the missing code is the error. *)
Lemma callback_rejects_before_exchange_witness :
  (str_truthy ((∅ : gmap string string) !! "code") = false \/
   parse_provider "github" = None) /\
  @oauth_callback sample_externals ∅ "github" (sample_world ∅) =
  (sample_world ∅,
   Raise (ValueError
            (if str_truthy ((∅ : gmap string string) !! "code")
             then "Unsupported provider: " +:+ "github"
             else "Missing OAuth code"))).
Proof.
  assert (Hb : str_truthy ((∅ : gmap string string) !! "code") = false \/
               parse_provider "github" = None)
    by (left; vm_compute; reflexivity).
  split; [exact Hb|].
  exact (@callback_rejects_before_exchange sample_externals ∅ "github"
           (sample_world ∅) Hb).
Defined.

(** [failed_exchange_changes_nothing] at the sample data. *)
Lemma failed_exchange_changes_nothing_witness :
  str_truthy (code_args !! "code") = true /\
  @oauth_exchange sample_externals Facebook (default "" (code_args !! "code"))
    = Raise (ValueError "invalid_grant") /\
  @oauth_callback sample_externals code_args (provider_name Facebook)
    (sample_world ada_session)
  = (sample_world ada_session, Raise (ValueError "invalid_grant")).
Proof.
  assert (Hc : str_truthy (code_args !! "code") = true)
    by (vm_compute; reflexivity).
  assert (Hx : @oauth_exchange sample_externals Facebook
                 (default "" (code_args !! "code"))
               = Raise (ValueError "invalid_grant"))
    by (vm_compute; reflexivity).
  split; [exact Hc|]. split; [exact Hx|].
  exact (@failed_exchange_changes_nothing sample_externals Facebook code_args
           (ValueError "invalid_grant") (sample_world ada_session) Hc Hx).
Defined.


(** [providers_merge_by_email] at the sample data: Google, then Microsoft,
    both for grace@example.org. *)
Lemma providers_merge_by_email_witness :
  Google <> Microsoft /\
  str_truthy (code_args !! "code") = true /\
  @oauth_exchange merge_externals Google (default "" (code_args !! "code"))
    = Ok (<["id" := "g-9"]> (<["email" := "grace@example.org"]> ∅)) /\
  @oauth_exchange merge_externals Microsoft (default "" (code_args !! "code"))
    = Ok new_profile /\
  fetchone (select_users_by_email (Some "grace@example.org")
              (store (sample_world ∅))) = None /\
  identity_fresh (store (sample_world ∅)) = true /\
  let w1 :=
    fst (@oauth_callback merge_externals code_args (provider_name Google)
           (sample_world ∅)) in
  let w2 :=
    fst (@oauth_callback merge_externals code_args (provider_name Microsoft) w1) in
  exists u,
    t_users (store w2) = (t_users (store (sample_world ∅)) ++ [u])%list /\
    Users.UserID u = next_UserID (store (sample_world ∅)) /\
    Users.Email u = "grace@example.org" /\
    oauth_col Google u
      = (<["id" := "g-9"]> (<["email" := "grace@example.org"]> ∅)
           : gmap string string) !! "id" /\
    oauth_col Microsoft u = new_profile !! "id" /\
    session w2 !! "user_id" = Some (PyInt (Users.UserID u)).
Proof.
  assert (Hne : Google <> Microsoft) by discriminate.
  assert (Hc : str_truthy (code_args !! "code") = true)
    by (vm_compute; reflexivity).
  assert (Hx1 : @oauth_exchange merge_externals Google
                  (default "" (code_args !! "code"))
                = Ok (<["id" := "g-9"]> (<["email" := "grace@example.org"]> ∅)))
    by reflexivity.
  assert (Hx2 : @oauth_exchange merge_externals Microsoft
                  (default "" (code_args !! "code")) = Ok new_profile)
    by reflexivity.
  assert (He1 : (<["id" := "g-9"]> (<["email" := "grace@example.org"]> ∅)
                   : gmap string string) !! "email" = Some "grace@example.org")
    by (vm_compute; reflexivity).
  assert (He2 : new_profile !! "email" = Some "grace@example.org")
    by (vm_compute; reflexivity).
  assert (Hno : fetchone (select_users_by_email (Some "grace@example.org")
                            (store (sample_world ∅))) = None)
    by (vm_compute; reflexivity).
  assert (Hf : identity_fresh (store (sample_world ∅)) = true)
    by (vm_compute; reflexivity).
  split; [exact Hne|]. split; [exact Hc|]. split; [exact Hx1|].
  split; [exact Hx2|]. split; [exact Hno|]. split; [exact Hf|].
  exact (@providers_merge_by_email merge_externals Google Microsoft code_args
           code_args _ new_profile "grace@example.org" (sample_world ∅)
           Hne Hc Hc Hx1 Hx2 He1 He2 Hno Hf).
Defined.

(** [new_oauth_user_fails_the_gate] at the sample data. *)
Lemma new_oauth_user_fails_the_gate_witness :
  str_truthy (code_args !! "code") = true /\
  @oauth_exchange sample_externals Microsoft (default "" (code_args !! "code"))
    = Ok new_profile /\
  new_profile !! "email" = Some "grace@example.org" /\
  fetchone (select_users_by_email (Some "grace@example.org")
              (store (sample_world ∅))) = None /\
  store_ok (store (sample_world ∅)) = true /\
  let out :=
    @oauth_callback sample_externals code_args (provider_name Microsoft)
      (sample_world ∅) in
  snd out = Raise NoSubscriptionError /\
  session (fst out) !! "user_id"
    = Some (PyInt (next_UserID (store (sample_world ∅)))) /\
  t_subscriptions (store (fst out)) = t_subscriptions (store (sample_world ∅)) /\
  dashboard (fst out) = (fst out, Raise template_error).
Proof.
  assert (Hc : str_truthy (code_args !! "code") = true)
    by (vm_compute; reflexivity).
  assert (Hx : @oauth_exchange sample_externals Microsoft
                 (default "" (code_args !! "code")) = Ok new_profile)
    by reflexivity.
  assert (He : new_profile !! "email" = Some "grace@example.org")
    by (vm_compute; reflexivity).
  assert (Hno : fetchone (select_users_by_email (Some "grace@example.org")
                            (store (sample_world ∅))) = None)
    by (vm_compute; reflexivity).
  assert (Hok : store_ok (store (sample_world ∅)) = true)
    by (vm_compute; reflexivity).
  split; [exact Hc|]. split; [exact Hx|]. split; [exact He|].
  split; [exact Hno|]. split; [exact Hok|].
  exact (@new_oauth_user_fails_the_gate sample_externals Microsoft code_args
           new_profile "grace@example.org" (sample_world ∅) Hc Hx He Hno Hok).
Defined.

(** ** The subscription form *)

Section Forms.
Context `{Externals}.

(** X22: an action the subscription form does not know (or no action at
    all), sent by a logged-in user who has a row in the Subscriptions table:
    the route reads the row, does nothing, commits all the same and
    redirects back as after a real action. Store, session and cache are as
    before. *)
Theorem unknown_action_writes_nothing (uid : Z) (em : pyval)
    (form : gmap string string) (sub : Subscriptions.row) (w : World) :
  session w !! "user_id" = Some (PyInt uid) ->
  session w !! "email" = Some em ->
  In sub (t_subscriptions (store w)) ->
  Subscriptions.UserID sub = uid ->
  opt_is (form !! "action") "upgrade" = false ->
  opt_is (form !! "action") "cancel" = false ->
  my_subscription true form w =
    (with_log
       (log w ++ [SqlExecute "SELECT * FROM Subscriptions WHERE UserID=:u";
                  SqlCommit]) w,
     Ok (Redirect "my_subscription")).
Proof.
  intros Hu Hem Hin Hsu Hup Hca.
  assert (Hwf : session_wf (session w) = true)
    by (unfold session_wf, current_user; now rewrite Hu, Hem).
  destruct (current_user_logged_in _ _ Hu Hwf) as (u & Hcu & Huid & _).
  destruct (fetchone (select_subscriptions_by_user (Some uid) (store w)))
    as [s0|] eqn:Hsub.
  2:{ exfalso. exact (proj1 (no_subscription_of_user uid (store w)) Hsub sub Hin Hsu). }
  unfold my_subscription. erewrite bind_ok by reflexivity.
  erewrite bind_ok by (unfold lift; rewrite Hcu; reflexivity).
  cbv beta iota zeta. rewrite Huid. cbn [default from_option id].
  erewrite bind_ok by reflexivity.
  erewrite bind_ok by apply sql_select_run. world_simpl.
  rewrite Hsub, Hup, Hca.
  erewrite bind_ok by reflexivity.
  erewrite bind_ok by apply sql_commit_run.
  unfold ret. world_simpl. rewrite <- app_assoc. reflexivity.
Qed.

End Forms.

(** [unknown_action_writes_nothing] at the sample data: the action
    downgrade. *)
Lemma unknown_action_writes_nothing_witness :
  session (sample_world ada_session) !! "user_id" = Some (PyInt 1) /\
  session (sample_world ada_session) !! "email" = Some (PyStr "ada@example.org") /\
  In ada_sub (t_subscriptions (store (sample_world ada_session))) /\
  Subscriptions.UserID ada_sub = 1 /\
  opt_is (action_form "downgrade" !! "action") "upgrade" = false /\
  opt_is (action_form "downgrade" !! "action") "cancel" = false /\
  @my_subscription sample_externals true (action_form "downgrade")
    (sample_world ada_session) =
    (with_log
       (log (sample_world ada_session) ++
          [SqlExecute "SELECT * FROM Subscriptions WHERE UserID=:u"; SqlCommit])
       (sample_world ada_session),
     Ok (Redirect "my_subscription")).
Proof.
  assert (Hu : session (sample_world ada_session) !! "user_id" = Some (PyInt 1))
    by (vm_compute; reflexivity).
  assert (Hem : session (sample_world ada_session) !! "email"
                = Some (PyStr "ada@example.org")) by (vm_compute; reflexivity).
  assert (Hin : In ada_sub (t_subscriptions (store (sample_world ada_session))))
    by (left; reflexivity).
  assert (Hsu : Subscriptions.UserID ada_sub = 1) by reflexivity.
  assert (Hup : opt_is (action_form "downgrade" !! "action") "upgrade" = false)
    by (vm_compute; reflexivity).
  assert (Hca : opt_is (action_form "downgrade" !! "action") "cancel" = false)
    by (vm_compute; reflexivity).
  split; [exact Hu|]. split; [exact Hem|]. split; [exact Hin|].
  split; [exact Hsu|]. split; [exact Hup|]. split; [exact Hca|].
  exact (@unknown_action_writes_nothing sample_externals 1
           (PyStr "ada@example.org") (action_form "downgrade") ada_sub
           (sample_world ada_session) Hu Hem Hin Hsu Hup Hca).
Defined.

(** ** The event routes *)

Section EventRoutes.
Context `{Externals} `{AuthorizeUrls}.

(** X27: an event id that no row of the Events table has. The calendar
    export runs its SELECT and is answered by the generic error page with
    status 500 and the text of the not-found error. The details page does
    not get that far: it builds the navigation bar first and is answered by
    the error page with the template error, before any SELECT. *)
Theorem unknown_event_is_an_error (event_id : Z) (w : World) :
  (forall ev, In ev (t_events (store w)) -> Events.EventID ev <> event_id) ->
  serve (GetEventIcs event_id) w =
    (with_log (log w ++ [SqlExecute "SELECT * FROM Events WHERE EventID=:eid"]) w,
     ErrorPage "Event not found" 500) /\
  serve (GetEventDetails event_id) w =
    (w, ErrorPage "'current_user' is undefined" 500).
Proof.
  intros Hno.
  assert (Hf : fetchone (select_event_by_id event_id (store w)) = None).
  { apply fetchone_filter_none. intros ev Hev. apply Z.eqb_neq. auto. }
  unfold serve. cbn [handle]. split.
  - unfold event_ics. erewrite bind_ok by apply sql_select_run. world_simpl.
    rewrite Hf. reflexivity.
  - rewrite event_details_run. reflexivity.
Qed.

End EventRoutes.

(** [unknown_event_is_an_error] at the sample data. *)
Lemma unknown_event_is_an_error_witness :
  (forall ev, In ev (t_events (store (sample_world ∅))) ->
     Events.EventID ev <> 99) /\
  @serve sample_externals sample_urls (GetEventIcs 99) (sample_world ∅) =
    (with_log
       (log (sample_world ∅) ++
          [SqlExecute "SELECT * FROM Events WHERE EventID=:eid"])
       (sample_world ∅),
     ErrorPage "Event not found" 500) /\
  @serve sample_externals sample_urls (GetEventDetails 99) (sample_world ∅) =
    (sample_world ∅, ErrorPage "'current_user' is undefined" 500).
Proof.
  assert (Hno : forall ev, In ev (t_events (store (sample_world ∅))) ->
                  Events.EventID ev <> 99)
    by (intros ev [<- | []]; discriminate).
  split; [exact Hno|].
  exact (@unknown_event_is_an_error sample_externals sample_urls 99
           (sample_world ∅) Hno).
Defined.

(** ** What the missing template function costs *)

Lemma not_a_page_bind {A} (m : M A) (k : A -> M response) (w : World) :
  (forall a w1, not_a_page (snd (k a w1))) -> not_a_page (snd (bind m k w)).
Proof.
  intros Hk. unfold bind. destruct (m w) as [w1 [a|e]]; [apply Hk|].
  exists (Failed e). reflexivity.
Qed.

Lemma not_a_page_navbar (k : navbar -> M response) (w : World) :
  not_a_page (snd (bind get_navbar_html k w)).
Proof.
  erewrite bind_raise by apply navbar_raises.
  exists (Failed template_error). reflexivity.
Qed.

(** The answer of a route, read off the shape of its body. *)
Ltac shape :=
  cbv zeta;
  repeat first
    [ apply not_a_page_navbar
    | apply not_a_page_bind; intros ? ?
    | match goal with
      | |- not_a_page (snd (ret (Redirect ?e) _)) =>
          exists (Redirected e); reflexivity
      | |- not_a_page (snd (ret (Body ?b ?h) _)) =>
          exists (File b h); reflexivity
      | |- not_a_page (snd (raise ?e _)) => exists (Failed e); reflexivity
      | |- not_a_page (snd ((if ?c then _ else _) _)) => destruct c
      | |- not_a_page (snd ((match ?x with _ => _ end) _)) => destruct x
      end ].

Section Routes.
Context `{Externals} `{AuthorizeUrls}.

(** X28: the public pages are all answered by the error page. Home, the
    login page, the registration form (GET and POST, whatever the form),
    the consultants list, the events list and the details of an event build
    the navigation bar first; its template calls a function no template can
    see, so each of these requests gets the generic error page with status
    500 and the text of the template error, and the world is unchanged:
    nothing is read from the cache or the store. *)
Theorem page_routes_answer_the_template_error (r : request) (w : World) :
  is_page_route r = true ->
  serve r w = (w, ErrorPage "'current_user' is undefined" 500).
Proof.
  intros Hr. unfold serve.
  destruct r; try discriminate Hr; cbn [handle].
  - now rewrite home_run.
  - now rewrite login_run.
  - now rewrite register_run.
  - now rewrite list_consultants_run.
  - now rewrite list_events_run.
  - now rewrite event_details_run.
Qed.

(** X29: no route ever returns a page. Whatever the request and the world,
    the route raises (and the request is answered by the error page of
    [handle_exceptions]), redirects or sends the calendar file; it never
    gets to the end of a template of its own. *)
Theorem no_route_renders_a_page (r : request) (w : World) :
  not_a_page (snd (handle r w)).
Proof.
  destruct r; cbn [handle].
  - unfold home. shape.
  - unfold login. shape.
  - unfold oauth_login. shape.
  - unfold oauth_callback. shape.
  - unfold register. shape.
  - unfold do_logout. shape.
  - unfold dashboard. shape.
  - unfold my_subscription. shape.
  - unfold list_consultants. shape.
  - unfold list_events. shape.
  - unfold event_details. shape.
  - unfold event_ics. shape.
  - unfold admin_portal. shape.
  - unfold admin_list_users. shape.
  - unfold admin_subscriptions. shape.
Qed.

(** X30: the admin routes change nothing, for an administrator either. Each
    of /admin, /admin/users and /admin/subscriptions (GET or POST, any form)
    ends in an error with the world exactly as before; for an administrator
    the error is the template error of the navigation bar, raised before
    the form is read, so no activate, deactivate or refund reaches the
    store. *)
Theorem admin_requests_change_nothing (r : request) (w : World) :
  is_admin_route r = true ->
  fst (handle r w) = w /\
  exists e,
    snd (handle r w) = Raise e /\
    (user_is_admin (session w) = Ok true -> e = template_error).
Proof.
  intros Hr.
  destruct r; try discriminate Hr; cbn [handle];
    [rewrite admin_portal_run | rewrite admin_list_users_run
    | rewrite admin_subscriptions_run];
    (split; [reflexivity|]);
    destruct (user_is_admin (session w)) as [[|]|e]; cbn [snd];
    eexists; (split; [reflexivity|]); intros Ha;
    first [reflexivity | discriminate Ha].
Qed.

(** X31: the two member pages of a logged-in user stop at the navigation
    bar. The dashboard passes its login check and fails with the world
    unchanged; the subscription page reads the user's row and then
    fails. *)
Theorem member_pages_stop_at_the_navbar (uid : Z) (em : pyval)
    (form : gmap string string) (sub : Subscriptions.row) (w : World) :
  session w !! "user_id" = Some (PyInt uid) ->
  session w !! "email" = Some em ->
  In sub (t_subscriptions (store w)) ->
  Subscriptions.UserID sub = uid ->
  handle GetDashboard w = (w, Raise template_error) /\
  handle (MySubscription false form) w =
    (with_log
       (log w ++ [SqlExecute "SELECT * FROM Subscriptions WHERE UserID=:u"]) w,
     Raise template_error).
Proof.
  intros Hu Hem Hin Hsu.
  assert (Hwf : session_wf (session w) = true)
    by (unfold session_wf, current_user; now rewrite Hu, Hem).
  destruct (current_user_logged_in _ _ Hu Hwf) as (u & Hcu & Huid & _).
  cbn [handle]. split.
  - rewrite dashboard_run, Hcu. reflexivity.
  - destruct (fetchone (select_subscriptions_by_user (Some uid) (store w)))
      as [s0|] eqn:Hsub.
    + exact (my_subscription_get_run form w u uid s0 Hcu Huid Hsub).
    + exfalso.
      exact (proj1 (no_subscription_of_user uid (store w)) Hsub sub Hin Hsu).
Qed.

(** X32: the store is written by two requests only. A request that is
    neither the OAuth callback nor the POST of the subscription form leaves
    all five tables and the IDENTITY counters as they were; this includes
    the POST of the registration form and of the admin form. *)
Theorem store_changes_need_callback_or_subscription_post (r : request)
    (w : World) :
  reaches_a_write r = false -> store (fst (handle r w)) = store w.
Proof.
  intros Hr.
  destruct r as [| | | |post form| | |[] ?| | | | | | |post form];
    try discriminate Hr;
    try (match goal with
         | |- store (fst (handle ?r _)) = _ =>
             exact (handle_store_frame r eq_refl w)
         end); cbn [handle].
  - now rewrite register_run.
  - now rewrite admin_subscriptions_run.
Qed.

(** X33: no request touches the cache: after any request the cache is the
    cache before, and among the effects the request added to the log there
    is neither a GET nor a SETEX. The three list pages, the only routes with
    cache code, fail before it. *)
Theorem no_request_touches_the_cache (r : request) (w : World) :
  redis (fst (handle r w)) = redis w /\
  logged_only (fun e => is_redis e = false) w (fst (handle r w)).
Proof.
  split.
  - destruct (is_list_route r) eqn:Hr;
      [|exact (handle_redis_frame r Hr w)].
    destruct r; try discriminate Hr; cbn [handle].
    + now rewrite home_run.
    + now rewrite list_consultants_run.
    + now rewrite list_events_run.
  - revert w. change (preserves (logged_only (fun e => is_redis e = false))
                        (handle r)).
    destruct r; cbn [handle];
      frame (logged_only (fun e => is_redis e = false))
            (fun e => is_redis e = false);
      first [ exact (logged_only_refl _) | exact (logged_only_trans _)
            | intros; apply logged_only_emit; assumption
            | intros; apply logged_only_same_log; reflexivity
            | intros; reflexivity ].
Qed.

End Routes.

(** [page_routes_answer_the_template_error] at the sample data: the
    consultants list, with the list already in the cache. *)
Lemma page_routes_answer_the_template_error_witness :
  is_page_route GetConsultants = true /\
  @serve sample_externals sample_urls GetConsultants cached_world =
    (cached_world, ErrorPage "'current_user' is undefined" 500).
Proof.
  assert (Hr : is_page_route GetConsultants = true) by reflexivity.
  split; [exact Hr|].
  exact (@page_routes_answer_the_template_error sample_externals sample_urls
           GetConsultants cached_world Hr).
Defined.

(** [admin_requests_change_nothing] at the sample data: the administrator
    refunds subscription 1. *)
Lemma admin_requests_change_nothing_witness :
  is_admin_route (AdminSubscriptions true (admin_form "1" "refund")) = true /\
  fst (@handle sample_externals sample_urls
         (AdminSubscriptions true (admin_form "1" "refund"))
         (sample_world root_session)) = sample_world root_session /\
  exists e,
    snd (@handle sample_externals sample_urls
           (AdminSubscriptions true (admin_form "1" "refund"))
           (sample_world root_session)) = Raise e /\
    (user_is_admin (session (sample_world root_session)) = Ok true ->
     e = template_error).
Proof.
  assert (Hr : is_admin_route (AdminSubscriptions true (admin_form "1" "refund"))
               = true) by reflexivity.
  split; [exact Hr|].
  exact (@admin_requests_change_nothing sample_externals sample_urls
           (AdminSubscriptions true (admin_form "1" "refund"))
           (sample_world root_session) Hr).
Defined.

(** [member_pages_stop_at_the_navbar] at the sample data. *)
Lemma member_pages_stop_at_the_navbar_witness :
  session (sample_world ada_session) !! "user_id" = Some (PyInt 1) /\
  session (sample_world ada_session) !! "email" = Some (PyStr "ada@example.org") /\
  In ada_sub (t_subscriptions (store (sample_world ada_session))) /\
  Subscriptions.UserID ada_sub = 1 /\
  @handle sample_externals sample_urls GetDashboard (sample_world ada_session) =
    (sample_world ada_session, Raise template_error) /\
  @handle sample_externals sample_urls (MySubscription false ∅)
    (sample_world ada_session) =
    (with_log
       (log (sample_world ada_session) ++
          [SqlExecute "SELECT * FROM Subscriptions WHERE UserID=:u"])
       (sample_world ada_session),
     Raise template_error).
Proof.
  assert (Hu : session (sample_world ada_session) !! "user_id" = Some (PyInt 1))
    by (vm_compute; reflexivity).
  assert (Hem : session (sample_world ada_session) !! "email"
                = Some (PyStr "ada@example.org")) by (vm_compute; reflexivity).
  assert (Hin : In ada_sub (t_subscriptions (store (sample_world ada_session))))
    by (left; reflexivity).
  assert (Hsu : Subscriptions.UserID ada_sub = 1) by reflexivity.
  split; [exact Hu|]. split; [exact Hem|]. split; [exact Hin|].
  split; [exact Hsu|].
  exact (@member_pages_stop_at_the_navbar sample_externals sample_urls 1
           (PyStr "ada@example.org") ∅ ada_sub (sample_world ada_session)
           Hu Hem Hin Hsu).
Defined.

(** [store_changes_need_callback_or_subscription_post] at the sample data:
    a complete registration form. *)
Lemma store_changes_need_callback_or_subscription_post_witness :
  reaches_a_write (Register true grace_form) = false /\
  store (fst (@handle sample_externals sample_urls (Register true grace_form)
                (sample_world ∅))) = store (sample_world ∅).
Proof.
  assert (Hr : reaches_a_write (Register true grace_form) = false)
    by reflexivity.
  split; [exact Hr|].
  exact (@store_changes_need_callback_or_subscription_post sample_externals
           sample_urls (Register true grace_form) (sample_world ∅) Hr).
Defined.
